(** * solana-swap: amounts, entity history and the pool and token APIs

    A shallow embedding of the arithmetic helpers ([utils/amount.ts]), the
    on-chain entities ([api/token/Token.ts], [api/token/TokenAccount.ts]) and
    the update, swap and deposit flows of the token and pool APIs
    ([api/token/index.ts], [api/pool/index.ts]); then the other operations of
    the two APIs, the connection and wallet modules they call into
    ([api/connection/index.ts], [api/wallet/index.ts]), the global slice of
    the store ([features/GlobalSlice.tsx]) and the airdrop helpers of the
    tests. *)

From stdpp Require Import gmap strings list pretty.
From Stdlib Require Import ZArith QArith Qround Qabs Qminmax Qpower Lia Lqa.

#[local] Unset Default Proof Using.
#[local] Set Warnings "-register-all".
#[local] Open Scope Z_scope.

(** ** decimal.js

    A [Decimal] is an arbitrary-precision decimal number.  Its finite values
    are modelled by the rationals they denote; the library's configuration is
    the default one ([precision] 20 significant digits, rounding mode 4,
    ROUND_HALF_UP: to the nearest neighbour, ties away from zero), which the
    repository never changes. *)
Module DecimalJs.

Definition Decimal : Type := Q.

Definition precision : Z := 20.

(** [10^e], for any integer exponent. *)
Definition pow10 (e : Z) : Q := (10 ^ e)%Q.

(** Rounding mode 4: nearest integer, a tie goes away from zero. *)
Definition round_half_up (q : Q) : Z :=
  Z.sgn (Qnum q) * Qfloor (Qabs q + (1 # 2)).

(** [x.round()]. *)
Definition round (x : Decimal) : Decimal := inject_Z (round_half_up x).

(** [x.toDecimalPlaces(dp)]: at most [dp] digits after the point. *)
Definition toDecimalPlaces (dp : Z) (x : Decimal) : Decimal :=
  (inject_Z (round_half_up (x * pow10 dp)) * pow10 (- dp))%Q.

(** Number of decimal digits of a positive integer, minus one. *)
Fixpoint log10_aux (fuel : nat) (n : Z) : Z :=
  match fuel with
  | O => 0
  | S fuel' => if n <? 10 then 0 else 1 + log10_aux fuel' (n / 10)
  end.

Definition log10 (n : Z) : Z := log10_aux (S (Z.to_nat (Z.log2 n))) n.

(** The decimal exponent of a non-zero number: the [e] with
    [10^e <= |q| < 10^(e+1)]. *)
Definition exponent (q : Q) : Z :=
  let e0 := log10 (Z.abs (Qnum q)) - log10 (Z.pos (Qden q)) in
  if Qle_bool (pow10 e0) (Qabs q) then e0 else e0 - 1.

(** Rounding to [sd] significant digits, as every arithmetic operation of
    the library does with [sd = precision]. *)
Definition toSD (sd : Z) (x : Decimal) : Decimal :=
  if Qeq_bool x 0 then x else toDecimalPlaces (sd - 1 - exponent x) x.

(** [x.mul(y)] and [x.div(y)].  Division by zero gives Infinity or NaN in
    the library; the callers embedded here guard against it or divide by a
    power of ten. *)
Definition mul (x y : Decimal) : Decimal := toSD precision (x * y)%Q.
Definition div (x y : Decimal) : Decimal := toSD precision (x / y)%Q.

(** [x.pow(n)] for an integer exponent. *)
Definition pow (x : Decimal) (n : Z) : Decimal := toSD precision (x ^ n)%Q.

(** [Decimal.min(x, y)]. *)
Definition min (x y : Decimal) : Decimal := Qmin x y.

(** [x.equals(y)]. *)
Definition equals (x y : Decimal) : bool := Qeq_bool x y.

End DecimalJs.

(** ** JavaScript numbers

    A [number] is a binary64 float.  The values the embedded code handles
    as numbers are modelled by the rationals they denote; the operations
    below are exact whenever their operands and result are representable in
    binary64, which is the case at every value a statement below evaluates
    them on. *)
Module JsNumber.

Definition number : Type := Q.

(** [x.toNumber()] of decimal.js. *)
Definition toNumber (x : DecimalJs.Decimal) : number := x.

(** [a / b]. *)
Definition div (a b : number) : number := (a / b)%Q.

(** [10 ** n], exact in binary64 for [0 <= n <= 22]. *)
Definition pow10 (n : Z) : number := DecimalJs.pow10 n.

End JsNumber.

(** ** Token ([api/token/Token.ts])

    [PublicKey] (solana web3) and [Decimal] are classes of external
    libraries; the entity classes are written over them. *)
Module Token.
Section Token.
Context {PublicKey Decimal : Type}.

Record Token : Type := mkToken {
    address : PublicKey;
    decimals : Z;
    supply : Decimal;
    mintAuthority : option PublicKey;
    name : option string;
    symbol : option string
  }.

Record SerializableToken : Type := mkSerializableToken {
    s_address : string;
    s_decimals : Z;
    s_supply : string;
    s_mintAuthority : option string;
    s_name : option string;
    s_symbol : option string
  }.

(** The conversions of the two libraries: [key.toBase58()],
    [new PublicKey(text)], [x.toString()] and [new Decimal(text)]. *)
Context (toBase58 : PublicKey -> string) (newPublicKey : string -> PublicKey).
Context (toString : Decimal -> string) (newDecimal : string -> Decimal).

(** [toDecimal] of [utils/amount.ts] on a Decimal:
    [new Decimal("" + num)]. *)
Definition toDecimal (num : Decimal) : Decimal := newDecimal (toString num).

(** The constructor. *)
Definition new (address : PublicKey) (decimals : Z) (supply : Decimal)
    (mintAuthority : option PublicKey) (name symbol : option string) : Token :=
  {| address := address;
     decimals := decimals;
     supply := toDecimal supply;
     mintAuthority := mintAuthority;
     name := name;
     symbol := symbol |}.

Definition serialize (t : Token) : SerializableToken :=
  {| s_address := toBase58 (address t);
     s_decimals := decimals t;
     s_supply := toString (supply t);
     s_mintAuthority := option_map toBase58 (mintAuthority t);
     s_name := name t;
     s_symbol := symbol t |}.

(** [text && new PublicKey(text)]: an absent text stays absent, and so does
    the empty text, the one falsy string. *)
Definition and_newPublicKey (text : option string) : option PublicKey :=
  match text with
  | Some t => if String.eqb t "" then None else Some (newPublicKey t)
  | None => None
  end.

(** [Token.from]. *)
Definition from (s : SerializableToken) : Token :=
  new (newPublicKey (s_address s))
      (s_decimals s)
      (newDecimal (s_supply s))
      (and_newPublicKey (s_mintAuthority s))
      (s_name s)
      (s_symbol s).

(** [equals]: two tokens are the same when their addresses are. *)
Definition equals `{EqDecision PublicKey} (t other : Token) : bool :=
  bool_decide (address t = address other).

End Token.
Arguments Token : clear implicits.
End Token.

(** ** Amount conversion ([utils/amount.ts]) *)
Module Amount.
Import DecimalJs.
Section Amount.
Context {PublicKey : Type}.

(** [new Decimal("" + num)]: the text of a BN or of a Decimal is exact. *)
Definition toDecimal (num : Decimal) : Decimal := num.

Definition minorAmountToMajor
    (minorAmount : Decimal) (token : Token.Token PublicKey Decimal) : Decimal :=
  toDecimalPlaces (Token.decimals token)
    (div (toDecimal minorAmount) (JsNumber.pow10 (Token.decimals token))).

Definition majorAmountToMinor
    (majorAmount : Decimal) (token : Token.Token PublicKey Decimal) : Decimal :=
  round (mul majorAmount (JsNumber.pow10 (Token.decimals token))).

End Amount.
End Amount.

(** ** TokenAccount ([api/token/TokenAccount.ts])

    A token account as a value: its fields and the chain of earlier
    snapshots hanging off [previous].  The object view, where [previous] is
    a mutable reference, is [OnChainEntity] below. *)
Module TokenAccount.
Section TokenAccount.
Context {PublicKey Decimal : Type}.

Inductive TokenAccount : Type := mkTokenAccount {
    mint : Token.Token PublicKey Decimal;
    address : PublicKey;
    balance : Decimal;
    lastUpdatedSlot : option Z;
    previous : option TokenAccount
  }.

Inductive SerializableTokenAccount : Type := mkSerializableTokenAccount {
    s_mint : Token.SerializableToken;
    s_address : string;
    s_balance : string;
    s_lastUpdatedSlot : option Z;
    s_previous : option SerializableTokenAccount
  }.

Context (toBase58 : PublicKey -> string) (newPublicKey : string -> PublicKey).
Context (toString : Decimal -> string) (newDecimal : string -> Decimal).

(** The constructor.  Modelled from the spec: the constructor of
    [OnChainEntity], which is given the ledger position and the previous
    snapshot and keeps them. *)
Definition new (mint : Token.Token PublicKey Decimal) (address : PublicKey)
    (balance : Decimal) (currentSlot : option Z)
    (previous : option TokenAccount) : TokenAccount :=
  {| mint := mint;
     address := address;
     balance := Token.toDecimal toString newDecimal balance;
     lastUpdatedSlot := currentSlot;
     previous := previous |}.

Fixpoint serialize (a : TokenAccount) : SerializableTokenAccount :=
  {| s_mint := Token.serialize toBase58 toString (mint a);
     s_address := toBase58 (address a);
     s_balance := toString (balance a);
     s_lastUpdatedSlot := lastUpdatedSlot a;
     s_previous :=
       match previous a with
       | Some p => Some (serialize p)
       | None => None
       end |}.

(** [TokenAccount.from]; [previous && TokenAccount.from(previous)]. *)
Fixpoint from (s : SerializableTokenAccount) : TokenAccount :=
  new (Token.from newPublicKey toString newDecimal (s_mint s))
      (newPublicKey (s_address s))
      (newDecimal (s_balance s))
      (s_lastUpdatedSlot s)
      (match s_previous s with
       | Some p => Some (from p)
       | None => None
       end).

Context `{EqDecision PublicKey}.

Definition matchToken (a : TokenAccount) (token : Token.Token PublicKey Decimal) : bool :=
  Token.equals (mint a) token.

Definition sameToken (a other : TokenAccount) : bool :=
  Token.equals (mint a) (mint other).

Definition equals (a other : TokenAccount) : bool :=
  bool_decide (address a = address other).

End TokenAccount.
Arguments TokenAccount : clear implicits.

(** [proportionOfTotalSupply]: a [number]. *)
Definition proportionOfTotalSupply {PublicKey : Type}
    (a : TokenAccount PublicKey DecimalJs.Decimal) : JsNumber.number :=
  if DecimalJs.equals (Token.supply (mint a)) 0%Q then 0%Q
  else
    let precision := 5 in
    let scaling := DecimalJs.pow 10%Q precision in
    JsNumber.div
      (JsNumber.toNumber
         (DecimalJs.div (DecimalJs.mul (balance a) scaling) (Token.supply (mint a))))
      (JsNumber.toNumber scaling).

End TokenAccount.

(** ** Exceptions and asynchronous results *)
Module Js.

Inductive error : Type :=
  | AssertionError (message : string)
  | TypeError (message : string)
  | Error (message : string).

(** What a call yields: a value, or a thrown exception (for an [async]
    function, a rejected promise). *)
Inductive result (A : Type) : Type :=
  | Return (a : A)
  | Throw (e : error).
Arguments Return {A} a.
Arguments Throw {A} e.

Definition bind {A B : Type} (m : result A) (k : A -> result B) : result B :=
  match m with
  | Return a => k a
  | Throw e => Throw e
  end.

(** Values as the JSON RPC layer hands them over. *)
Inductive value : Type :=
  | undefined
  | null
  | boolean (b : bool)
  | num (n : Z)
  | str (s : string)
  | buffer (bytes : list Z)
  | object (props : list (string * value)).

(** The truthy values: [!v] is false on them, and [a || b] is [a]. *)
Definition truthy (v : value) : bool :=
  match v with
  | undefined | null => false
  | boolean b => b
  | num n => negb (n =? 0)
  | str s => negb (String.eqb s "")
  | buffer _ | object _ => true
  end.

Fixpoint lookup_prop (key : string) (props : list (string * value)) : value :=
  match props with
  | [] => undefined
  | (k, v) :: rest => if String.eqb k key then v else lookup_prop key rest
  end.

(** [v[key]] where [v] is neither [undefined] nor [null]; the keys read by
    the embedded code are own properties of plain objects only. *)
Definition prop (v : value) (key : string) : value :=
  match v with
  | object props => lookup_prop key props
  | _ => undefined
  end.

(** [v.key]: a TypeError on [undefined] and [null]. *)
Definition member (v : value) (key : string) : result value :=
  match v with
  | undefined | null =>
      Throw (TypeError ("Cannot read property '" ++ key ++ "' of undefined"))
  | _ => Return (prop v key)
  end.

(** ramda's [path]: follows the keys, [undefined] as soon as the value at
    hand is [undefined] or [null]. *)
Fixpoint path (keys : list string) (obj : value) : value :=
  match keys with
  | [] => obj
  | key :: keys' =>
      match obj with
      | undefined | null => undefined
      | _ => path keys' (prop obj key)
      end
  end.

End Js.

#[export] Instance result_ret : MRet Js.result := @Js.Return.
#[export] Instance result_bind : MBind Js.result := fun A B k m => Js.bind m k.

(** ** Amounts of 64 bits

    [toU64] of [api/token/index.ts] and [toNumberU64] of
    [api/pool/index.ts] write a number or a decimal as text and have bn.js
    read the text as an integer in base 10.  The text is made of digits only,
    after the sign, when the value is an integer below [10^21] in magnitude;
    otherwise it has a point or an exponent, and bn.js throws.  The libraries
    that build an instruction lay the amount out in 8 bytes, which fails when
    its magnitude does not fit. *)
Module U64.

(** The two classes over bn.js integers: [u64] of spl-token and
    [Numberu64] of spl-token-swap. *)
Inductive u64 : Type := mkU64 (value : Z).
Inductive Numberu64 : Type := mkNumberu64 (value : Z).

Definition u64_value (amount : u64) : Z := let 'mkU64 value := amount in value.
Definition Numberu64_value (amount : Numberu64) : Z :=
  let 'mkNumberu64 value := amount in value.

(** [new BN("" + number)]. *)
Definition integerOfText (number : Q) : Js.result Z :=
  let value := Qfloor number in
  if Qeq_bool number (inject_Z value) && (Z.abs value <? 10 ^ 21)
  then Js.Return value
  else Js.Throw (Js.Error "Invalid character").

(** [new u64("" + number)]. *)
Definition toU64 (number : Q) : Js.result u64 :=
  value ← integerOfText number;
  mret (mkU64 value).

(** [new Numberu64("" + number)]. *)
Definition toNumberU64 (number : Q) : Js.result Numberu64 :=
  value ← integerOfText number;
  mret (mkNumberu64 value).

(** [amount.toBuffer()], as the libraries call it on each amount of an
    instruction they build. *)
Definition u64_toBuffer (amount : u64) : Js.result unit :=
  if Z.abs (u64_value amount) <? 2 ^ 64 then Js.Return tt
  else Js.Throw (Js.AssertionError "u64 too large").

Definition Numberu64_toBuffer (amount : Numberu64) : Js.result unit :=
  if Z.abs (Numberu64_value amount) <? 2 ^ 64 then Js.Return tt
  else Js.Throw (Js.AssertionError "Numberu64 too large").

End U64.

(** ** OnChainEntity: snapshots as objects

    Entities are objects; [previous] is a reference to another object and is
    the one field that is assigned after construction.  The store maps a
    reference to the object it denotes. *)
Module OnChainEntity.

Definition ref : Type := positive.

Section Objects.
(** The fields the concrete class (Pool, TokenAccount) adds. *)
Context {Fields : Type}.

Record object : Type := mkObject {
    fields : Fields;
    lastUpdatedSlot : option Z;
    previous : option ref
  }.

Definition with_previous (p : option ref) (o : object) : object :=
  {| fields := fields o; lastUpdatedSlot := lastUpdatedSlot o; previous := p |}.

(** [new C(...)]: a fresh reference. *)
Definition alloc (h : gmap ref object) (o : object) : gmap ref object * ref :=
  let r := fresh (dom h) in (<[r := o]> h, r).

(** Modelled from the spec: [getPrevious] and [setPrevious] of
    [api/OnChainEntity.ts], which read and assign the [previous] of [this]. *)
Definition getPrevious (h : gmap ref object) (this : ref) : option ref :=
  h !! this ≫= previous.

Definition setPrevious (h : gmap ref object) (this prev : ref) : gmap ref object :=
  alter (with_previous (Some prev)) this h.

(** Modelled from the spec: [addToHistory] of [api/OnChainEntity.ts],
    which first hands the existing [previous] of [this] on to the inserted
    snapshot and then makes the snapshot the [previous] of [this]. *)
Definition addToHistory (h : gmap ref object) (this entity : ref) : gmap ref object :=
  let old := getPrevious h this in
  alter (with_previous (Some entity)) this (alter (with_previous old) entity h).

(** Modelled from the spec: [clone], a structurally equal, independent
    copy (shallow: the copy refers to the same [previous]). *)
Definition clone (h : gmap ref object) (this : ref) : option (gmap ref object * ref) :=
  alloc h <$> h !! this.

(** [n] steps along [previous]. *)
Fixpoint walk (h : gmap ref object) (n : nat) (this : ref) : option ref :=
  match n with
  | O => Some this
  | S n' => getPrevious h this ≫= walk h n'
  end.

(** [addToHistory] of each snapshot in turn, the first of the list first. *)
Definition addAllToHistory (h : gmap ref object) (this : ref) (snapshots : list ref)
    : gmap ref object :=
  foldl (fun h' s => addToHistory h' this s) h snapshots.

(** No reference held by an object of the store dangles. *)
Definition closed (h : gmap ref object) : Prop :=
  forall r o, h !! r = Some o -> forall p, previous o = Some p -> is_Some (h !! p).

End Objects.
Arguments object : clear implicits.
End OnChainEntity.

(** ** Pool ([api/pool/Pool.ts]) *)
Module Pool.
Import DecimalJs.

Inductive direction : Type := up | down.

(** Modelled from the spec: [adjustForSlippage] of [api/pool/Pool.ts],
    [amount * (1 + slippage / 100)] for "up" and
    [amount * (1 - slippage / 100)] for "down", the slippage being a
    percentage. *)
Definition adjustForSlippage (amount : Decimal) (d : direction) (slippagePercent : Q)
    : Decimal :=
  match d with
  | up => (amount * (1 + slippagePercent / 100))%Q
  | down => (amount * (1 - slippagePercent / 100))%Q
  end.

Section Pool.
Context {PublicKey : Type}.

(** The fields the constructor call in [getPool] fills. *)
Record Pool : Type := mkPool {
    address : PublicKey;
    tokenA : TokenAccount.TokenAccount PublicKey Decimal;
    tokenB : TokenAccount.TokenAccount PublicKey Decimal;
    poolToken : Token.Token PublicKey Decimal;
    feeAccount : TokenAccount.TokenAccount PublicKey Decimal;
    programId : PublicKey;
    nonce : Z;
    feeRatio : JsNumber.number;
    lastUpdatedSlot : option Z
  }.

(** What [calculateAmountsWithSlippage] returns. *)
Record Amounts : Type := mkAmounts {
    poolTokenAmount : Decimal;
    tokenAAmount : Decimal;
    tokenBAmount : Decimal
  }.

(** The rest of [Pool.ts] that the pool API uses: the default slippage
    and four methods, whose code is not among the sources; they are
    parameters of the API. *)
Record Methods : Type := mkMethods {
    DEFAULT_SLIPPAGE : Q;
    calculateAmountInOtherToken :
      Pool -> Token.Token PublicKey Decimal -> JsNumber.number -> bool -> Js.result Decimal;
    getPoolTokenValueOfTokenAAmount : Pool -> Decimal -> Js.result Decimal;
    calculateAmountsWithSlippage :
      Pool -> Decimal -> direction -> option Q -> Js.result Amounts;
    tokenSwapAuthority : Pool -> Js.result PublicKey
  }.

End Pool.
Arguments Pool : clear implicits.
Arguments Methods : clear implicits.
End Pool.

(** ** Token API ([api/token/index.ts]) *)
Module TokenAPI.
Section TokenAPI.
Context {PublicKey Decimal : Type}.
Context (toString : Decimal -> string) (newDecimal : string -> Decimal).

(** The chain and the libraries, as the module sees them:
    [connection.getParsedAccountInfo(account)], of which [context.slot] and
    [value] are used; [tokenInfo(mint)], the cached mint lookup;
    [new PublicKey(v)]; and [toDecimal(new BN(v))]. *)
Record Collaborators : Type := mkCollaborators {
    getParsedAccountInfo : PublicKey -> Js.result (Z * Js.value);
    tokenInfo : PublicKey -> Js.result (Token.Token PublicKey Decimal);
    newPublicKey : Js.value -> Js.result PublicKey;
    decimalOfBN : Js.value -> Js.result Decimal
  }.

Definition extractParsedTokenAccountInfo (parsedAccountInfoResult : Js.value) : Js.value :=
  Js.path ["data"; "parsed"; "info"]%string parsedAccountInfoResult.

Definition tokenAccountInfo (c : Collaborators) (account : PublicKey)
    : Js.result (option (TokenAccount.TokenAccount PublicKey Decimal)) :=
  getParsedAccountInfoResult ← getParsedAccountInfo c account;
  let parsedInfo := extractParsedTokenAccountInfo (snd getParsedAccountInfoResult) in
  (* this account does not appear to be a token account *)
  if negb (Js.truthy parsedInfo) then mret None
  else
    mintText ← Js.member parsedInfo "mint";
    mintKey ← newPublicKey c mintText;
    mintTokenInfo ← tokenInfo c mintKey;
    tokenAmount ← Js.member parsedInfo "tokenAmount";
    amount ← Js.member tokenAmount "amount";
    balance ← decimalOfBN c amount;
    mret (Some (TokenAccount.new toString newDecimal
                  mintTokenInfo account balance
                  (Some (fst getParsedAccountInfoResult)) None)).

End TokenAPI.
Arguments Collaborators : clear implicits.

(** [updateTokenAccountInfo] on the object store.  [tokenAccountInfo]
    yields the fields and the ledger position of the account now on chain,
    from which [new TokenAccount] makes a fresh object. *)
Section Update.
Import OnChainEntity.
Context {PublicKey Fields : Type} (address : Fields -> PublicKey).
Context (tokenAccountInfo : PublicKey -> Js.result (option (Fields * option Z))).

Definition updateTokenAccountInfo (h : gmap ref (object Fields)) (tokenAccount : ref)
    : Js.result (gmap ref (object Fields) * option ref) :=
  match h !! tokenAccount with
  | None => Js.Throw (Js.TypeError "tokenAccount is not an object")
  | Some this =>
      updated ← tokenAccountInfo (address (fields this));
      match updated with
      | None => mret (h, None)
      | Some (f, slot) =>
          let '(h1, updatedTokenAccount) := alloc h (mkObject f slot None) in
          let h2 := setPrevious h1 updatedTokenAccount tokenAccount in
          mret (h2, Some updatedTokenAccount)
      end
  end.

End Update.
End TokenAPI.

(** ** Pool API ([api/pool/index.ts]) *)
Module PoolAPI.
Import DecimalJs.

(** [updatePool] on the object store.  [getPool] yields the fields and
    the ledger position of the pool now on chain, from which [new Pool]
    makes a fresh object. *)
Section Update.
Import OnChainEntity.
Context {PublicKey Fields : Type} (address : Fields -> PublicKey).

Definition updatePool (getPool : PublicKey -> Js.result (Fields * option Z))
    (h : gmap ref (object Fields)) (pool : ref)
    : Js.result (gmap ref (object Fields) * ref) :=
  match h !! pool with
  | None => Js.Throw (Js.TypeError "pool is not an object")
  | Some this =>
      fetched ← getPool (address (fields this));
      let '(h1, updatedPool) := alloc h (mkObject fetched.1 fetched.2 None) in
      (* pool.getPrevious() || pool *)
      let previous := default pool (getPrevious h1 pool) in
      let h2 := setPrevious h1 updatedPool previous in
      match clone h2 updatedPool with
      | None => Js.Throw (Js.TypeError "updatedPool is not an object")
      | Some (h3, copy) => mret (addToHistory h3 pool copy, updatedPool)
      end
  end.

(** [updatePool] on the same tracked object [k] times over, as the listener
    does on every event; [getPool i] is what the chain answers to the
    [i]-th call.  The heads returned come newest first. *)
Fixpoint updatePoolTimes (getPool : nat -> PublicKey -> Js.result (Fields * option Z))
    (k : nat) (h : gmap ref (object Fields)) (pool : ref)
    : Js.result (gmap ref (object Fields) * list ref) :=
  match k with
  | O => mret (h, [])
  | S k' =>
      before ← updatePoolTimes getPool k' h pool;
      now ← updatePool (getPool k') before.1 pool;
      mret (now.1, now.2 :: before.2)
  end.

(** What [k] updates of a tracked pool leave behind: the heads handed to
    the callers and the copies put into the history, both newest first. *)
Record updated (h : gmap ref (object Fields)) (pool : ref) (this : object Fields)
    (h' : gmap ref (object Fields)) (heads copies : list ref) : Prop := {
  updated_closed : closed h';
  updated_pool : exists this', h' !! pool = Some this' /\ fields this' = fields this;
  updated_first :
    getPrevious h' pool = from_option Some (getPrevious h pool) (head copies);
  updated_next : forall i a b,
    copies !! i = Some a -> copies !! S i = Some b -> getPrevious h' a = Some b;
  updated_last : forall a, last copies = Some a -> getPrevious h' a = getPrevious h pool;
  updated_unreferenced : forall r o, h' !! r = Some o ->
    forall x, x ∈ heads -> previous o <> Some x;
  updated_heads : forall x, x ∈ heads -> is_Some (h' !! x) /\ x <> pool;
  updated_copies : forall x, x ∈ copies -> is_Some (h' !! x) /\ x <> pool;
  updated_lengths : length heads = length copies
}.

(** The head returned by an update and the copy the update put into the
    history are two objects with the fields and the ledger position of the
    pool that update fetched; [getPool i] is what the chain answers to the
    [i]-th update, and the lists come newest first. *)
Definition fetched_by (getPool : nat -> PublicKey -> Js.result (Fields * option Z))
    (k : nat) (this : object Fields) (h : gmap ref (object Fields))
    (heads copies : list ref) : Prop :=
  forall i head copy,
    heads !! i = Some head -> copies !! i = Some copy ->
    head <> copy
    /\ exists fetched oh oc,
         getPool (k - S i)%nat (address (fields this)) = Js.Return fetched
         /\ h !! head = Some oh /\ h !! copy = Some oc
         /\ fields oh = fetched.1 /\ lastUpdatedSlot oh = fetched.2
         /\ fields oc = fetched.1 /\ lastUpdatedSlot oc = fetched.2.

End Update.

Section API.
Context {PublicKey : Type} `{EqDecision PublicKey}.
Context (toBase58 : PublicKey -> string).

Abbreviation Token := (Token.Token PublicKey Decimal).
Abbreviation TokenAccount := (TokenAccount.TokenAccount PublicKey Decimal).
Abbreviation Pool := (Pool.Pool PublicKey).

(** The instructions the API builds, each with the arguments of the call
    that makes it.  An amount handed over as a number is kept as given: what
    the library makes of it is outside the model. *)
Inductive TransactionInstruction : Type :=
  | ApproveInstruction (programId account delegate owner : PublicKey) (amount : U64.u64)
  | SwapInstruction
      (tokenSwap authority userSource poolSource poolDestination userDestination
         poolMint feeAccount identity swapProgramId tokenProgramId : PublicKey)
      (amountIn : JsNumber.number) (minimumAmountOut : U64.Numberu64)
  | DepositInstruction
      (tokenSwap authority sourceA sourceB intoA intoB poolToken poolAccount
         swapProgramId tokenProgramId : PublicKey)
      (poolTokenAmount maximumTokenA maximumTokenB : U64.Numberu64).

(** [SPLToken.createApproveInstruction], [TokenSwap.swapInstruction] and
    [TokenSwap.depositInstruction]: each lays out its amounts, in the order
    of its arguments. *)
Definition SPLToken_createApproveInstruction (programId account delegate owner : PublicKey)
    (amount : U64.u64) : Js.result TransactionInstruction :=
  _ ← U64.u64_toBuffer amount;
  mret (ApproveInstruction programId account delegate owner amount).

Definition TokenSwap_swapInstruction
    (tokenSwap authority userSource poolSource poolDestination userDestination
       poolMint feeAccount identity swapProgramId tokenProgramId : PublicKey)
    (amountIn : JsNumber.number) (minimumAmountOut : U64.Numberu64)
    : Js.result TransactionInstruction :=
  _ ← U64.Numberu64_toBuffer minimumAmountOut;
  mret (SwapInstruction tokenSwap authority userSource poolSource poolDestination
          userDestination poolMint feeAccount identity swapProgramId tokenProgramId
          amountIn minimumAmountOut).

Definition TokenSwap_depositInstruction
    (tokenSwap authority sourceA sourceB intoA intoB poolToken poolAccount
       swapProgramId tokenProgramId : PublicKey)
    (poolTokenAmount maximumTokenA maximumTokenB : U64.Numberu64)
    : Js.result TransactionInstruction :=
  _ ← U64.Numberu64_toBuffer poolTokenAmount;
  _ ← U64.Numberu64_toBuffer maximumTokenA;
  _ ← U64.Numberu64_toBuffer maximumTokenB;
  mret (DepositInstruction tokenSwap authority sourceA sourceB intoA intoB poolToken
          poolAccount swapProgramId tokenProgramId
          poolTokenAmount maximumTokenA maximumTokenB).

Record Transaction : Type := mkTransaction {
    recentBlockhash : string;
    instructions : list TransactionInstruction
  }.

(** What a call leaves behind: the instructions it built and the
    requests it made to the chain, in order. *)
Inductive event : Type :=
  | Built (instruction : TransactionInstruction)
  | CreateAccountForToken (token : Token)
  | GetRecentBlockhash
  | SendTransaction (transaction : Transaction).

(** The wallet, the chain and the rest of the token API: the two program
    ids, the public key of the connected wallet (none when no wallet is
    connected), [tokenAPI.createAccountForToken],
    [connection.getRecentBlockhash] and [sendTransaction] of
    [api/wallet/index.ts]. *)
Record Collaborators : Type := mkCollaborators {
    swapProgramId : PublicKey;
    TOKEN_PROGRAM_ID : PublicKey;
    wallet : option PublicKey;
    createAccountForToken : Token -> Js.result TokenAccount;
    getRecentBlockhash : Js.result string;
    sendTransaction : Transaction -> Js.result string
  }.

Definition action (A : Type) : Type := list event * Js.result A.

Definition lift {A : Type} (r : Js.result A) : action A := ([], r).

Definition request {A : Type} (e : event) (r : Js.result A) : action A := ([e], r).

#[export] Instance action_ret : MRet action := fun A a => ([], Js.Return a).

#[export] Instance action_bind : MBind action := fun A B k m =>
  match m with
  | (t, Js.Return a) => let '(t', r) := k a in (t ++ t', r)
  | (t, Js.Throw e) => (t, Js.Throw e)
  end.

(** [assert(condition, message)]. *)
Definition assert (condition : bool) (message : string) : Js.result unit :=
  if condition then Js.Return tt else Js.Throw (Js.AssertionError message).

(** ["" + token], by [Token.toString]. *)
Definition Token_toString (t : Token) : string :=
  match Token.name t with
  | Some n =>
      if String.eqb n "" then toBase58 (Token.address t)
      else n ++ " (" ++ default "undefined" (Token.symbol t) ++ ")"
  | None => toBase58 (Token.address t)
  end.

Record SwapParameters : Type := mkSwapParameters {
    swap_pool : Pool;
    swap_slippage : option Q;
    fromAccount : TokenAccount;
    toAccount : option TokenAccount;
    identity : PublicKey;
    fromAmount : JsNumber.number
  }.

(** [Required<SwapParameters>]. *)
Record RequiredSwapParameters : Type := mkRequiredSwapParameters {
    r_pool : Pool;
    r_slippage : Q;
    r_fromAccount : TokenAccount;
    r_toAccount : TokenAccount;
    r_identity : PublicKey;
    r_fromAmount : JsNumber.number
  }.

Record DepositParameters : Type := mkDepositParameters {
    deposit_pool : Pool;
    deposit_slippage : option Q;
    fromAAccount : TokenAccount;
    fromBAccount : TokenAccount;
    fromAAmount : Decimal;
    poolTokenAccount : option TokenAccount
  }.

(** The parameters with another slippage. *)
Definition with_slippage (slippage : option Q) (parameters : SwapParameters)
    : SwapParameters :=
  {| swap_pool := swap_pool parameters;
     swap_slippage := slippage;
     fromAccount := fromAccount parameters;
     toAccount := toAccount parameters;
     identity := identity parameters;
     fromAmount := fromAmount parameters |}.

(** The accounts of the parameters match the pair [(first, second)] by
    mint: the source account holds the token of [first] and the target
    account, when there is one, the token of [second]. *)
Definition matches_pair (parameters : SwapParameters) (first second : TokenAccount)
    : Prop :=
  Token.address (TokenAccount.mint (fromAccount parameters))
  = Token.address (TokenAccount.mint first)
  /\ forall to, toAccount parameters = Some to ->
       Token.address (TokenAccount.mint to) = Token.address (TokenAccount.mint second).

Context (methods : Pool.Methods PublicKey) (c : Collaborators).

(** [getWallet().pubkey] of [api/wallet/index.ts]. *)
Definition getWallet : Js.result PublicKey :=
  match wallet c with
  | Some pubkey => Js.Return pubkey
  | None => Js.Throw (Js.Error "notification.error.noWallet")
  end.

(** [tokenAPI.approveInstruction]. *)
Definition approveInstruction (sourceAccount : TokenAccount) (delegate : PublicKey)
    (amount : Decimal) : action TransactionInstruction :=
  owner ← lift getWallet;
  amount ← lift (U64.toU64 amount);
  instruction ←
    lift (SPLToken_createApproveInstruction (TOKEN_PROGRAM_ID c)
            (TokenAccount.address sourceAccount) delegate owner amount);
  request (Built instruction) (Js.Return instruction).

(** [makeTransaction] of [api/wallet/index.ts], without extra signers. *)
Definition makeTransaction (instructions : list TransactionInstruction)
    : action Transaction :=
  _ ← lift (match wallet c with
            | Some _ => Js.Return tt
            | None => Js.Throw (Js.Error "Connect first")
            end);
  blockhash ← request GetRecentBlockhash (getRecentBlockhash c);
  mret (mkTransaction blockhash instructions).

Definition isReverseSwap (pool : Pool) (fromAccount : TokenAccount) : bool :=
  TokenAccount.sameToken (Pool.tokenB pool) fromAccount.

Definition createSwapTransactionInstruction (parameters : RequiredSwapParameters)
    : action TransactionInstruction :=
  let pool := r_pool parameters in
  let isReverse := isReverseSwap pool (r_fromAccount parameters) in
  let poolIntoAccount := if isReverse then Pool.tokenB pool else Pool.tokenA pool in
  let poolFromAccount := if isReverse then Pool.tokenA pool else Pool.tokenB pool in
  (* handle slippage by setting a minimum expected TO amount *)
  minimumToAmountWithoutSlippage ←
    lift (Pool.calculateAmountInOtherToken methods pool
            (TokenAccount.mint (r_fromAccount parameters))
            (r_fromAmount parameters) true);
  let minimumToAmountWithSlippage :=
    Pool.adjustForSlippage minimumToAmountWithoutSlippage Pool.down
      (r_slippage parameters) in
  authority ← lift (Pool.tokenSwapAuthority methods pool);
  minimumAmountOut ← lift (U64.toNumberU64 minimumToAmountWithSlippage);
  instruction ←
    lift (TokenSwap_swapInstruction (Pool.address pool) authority
            (TokenAccount.address (r_fromAccount parameters))
            (TokenAccount.address poolIntoAccount)
            (TokenAccount.address poolFromAccount)
            (TokenAccount.address (r_toAccount parameters))
            (Token.address (Pool.poolToken pool))
            (TokenAccount.address (Pool.feeAccount pool))
            (r_identity parameters)
            (swapProgramId c) (TOKEN_PROGRAM_ID c)
            (r_fromAmount parameters)
            minimumAmountOut);
  request (Built instruction) (Js.Return instruction).

Definition validateSwapParameters (parameters : SwapParameters) : Js.result unit :=
  (* the From amount must be either tokenA or tokenB
     and, if present, the To amount must be the other one *)
  let isSwapBetween (tokenAccount1 tokenAccount2 : TokenAccount) :=
    TokenAccount.sameToken (fromAccount parameters) tokenAccount1
    && match toAccount parameters with
       | None => true
       | Some to => TokenAccount.sameToken to tokenAccount2
       end in
  let pool := swap_pool parameters in
  let validAccounts :=
    isSwapBetween (Pool.tokenA pool) (Pool.tokenB pool)
    || isSwapBetween (Pool.tokenB pool) (Pool.tokenA pool) in
  assert validAccounts
    ("Invalid accounts for fromAccount or toAccount. Must be ["
       ++ Token_toString (TokenAccount.mint (Pool.tokenA pool))
       ++ "] and ["
       ++ Token_toString (TokenAccount.mint (Pool.tokenB pool))
       ++ "]").

Definition swap (parameters : SwapParameters) : action string :=
  _ ← lift (validateSwapParameters parameters);
  let pool := swap_pool parameters in
  (* get the toAccount from the parameters, or create it if not present *)
  let isReverse := TokenAccount.sameToken (fromAccount parameters) (Pool.tokenB pool) in
  let toToken :=
    if isReverse then TokenAccount.mint (Pool.tokenA pool)
    else TokenAccount.mint (Pool.tokenB pool) in
  toAccount ←
    match toAccount parameters with
    | Some account => mret account
    | None => request (CreateAccountForToken toToken) (createAccountForToken c toToken)
    end;
  delegate ← lift (Pool.tokenSwapAuthority methods pool);
  approve ← approveInstruction (fromAccount parameters) delegate (fromAmount parameters);
  swapInstruction ←
    createSwapTransactionInstruction
      {| r_pool := pool;
         r_slippage := Pool.DEFAULT_SLIPPAGE methods;
         r_fromAccount := fromAccount parameters;
         r_toAccount := toAccount;
         r_identity := identity parameters;
         r_fromAmount := fromAmount parameters |};
  transaction ← makeTransaction [approve; swapInstruction];
  request (SendTransaction transaction) (sendTransaction c transaction).

Definition deposit (parameters : DepositParameters) : action string :=
  let pool := deposit_pool parameters in
  _ ← lift (assert (TokenAccount.sameToken (fromAAccount parameters) (Pool.tokenA pool))
              ("Invalid account for from token A - must be "
                 ++ Token_toString (TokenAccount.mint (Pool.tokenA pool))));
  _ ← lift (assert (TokenAccount.sameToken (fromBAccount parameters) (Pool.tokenB pool))
              ("Invalid account for from token B - must be "
                 ++ Token_toString (TokenAccount.mint (Pool.tokenB pool))));
  _ ← lift (assert
              match poolTokenAccount parameters with
              | None => true
              | Some account => Token.equals (TokenAccount.mint account) (Pool.poolToken pool)
              end
              ("Invalid pool token account - must be "
                 ++ Token_toString (Pool.poolToken pool)));
  authority ← lift (Pool.tokenSwapAuthority methods pool);
  (* Calculate the expected amounts for token A, B and pool token *)
  let maximumExpectedTokenAAmountWithoutSlippage := fromAAmount parameters in
  poolTokenAmount ←
    lift (Pool.getPoolTokenValueOfTokenAAmount methods pool
            maximumExpectedTokenAAmountWithoutSlippage);
  maximumAmounts ←
    lift (Pool.calculateAmountsWithSlippage methods pool poolTokenAmount Pool.up
            (deposit_slippage parameters));
  (* Adjust the maximum amounts according to the funds in the token accounts.
     You cannot deposit more than you have *)
  let maxTokenAAmount :=
    DecimalJs.min (Pool.tokenAAmount maximumAmounts)
      (TokenAccount.balance (fromAAccount parameters)) in
  let maxTokenBAmount :=
    DecimalJs.min (Pool.tokenBAmount maximumAmounts)
      (TokenAccount.balance (fromBAccount parameters)) in
  poolTokenAccount ←
    match poolTokenAccount parameters with
    | Some account => mret account
    | None =>
        request (CreateAccountForToken (Pool.poolToken pool))
          (createAccountForToken c (Pool.poolToken pool))
    end;
  fromAApproveInstruction ←
    approveInstruction (fromAAccount parameters) authority maxTokenAAmount;
  fromBApproveInstruction ←
    approveInstruction (fromBAccount parameters) authority maxTokenBAmount;
  maximumPoolTokenAmount ←
    lift (U64.toNumberU64 (Pool.poolTokenAmount maximumAmounts));
  maximumTokenA ← lift (U64.toNumberU64 maxTokenAAmount);
  maximumTokenB ← lift (U64.toNumberU64 maxTokenBAmount);
  depositInstruction ←
    lift (TokenSwap_depositInstruction (Pool.address pool) authority
            (TokenAccount.address (fromAAccount parameters))
            (TokenAccount.address (fromBAccount parameters))
            (TokenAccount.address (Pool.tokenA pool))
            (TokenAccount.address (Pool.tokenB pool))
            (Token.address (Pool.poolToken pool))
            (TokenAccount.address poolTokenAccount)
            (swapProgramId c) (TOKEN_PROGRAM_ID c)
            maximumPoolTokenAmount maximumTokenA maximumTokenB);
  _ ← request (Built depositInstruction) (Js.Return tt);
  transaction ←
    makeTransaction [fromAApproveInstruction; fromBApproveInstruction; depositInstruction];
  request (SendTransaction transaction) (sendTransaction c transaction).

(** What an instruction carries: the minimum of a swap, the account and the
    amount of an approval, the two maximums of a deposit. *)
Definition minimumAmountOut_of (instruction : TransactionInstruction)
    : option U64.Numberu64 :=
  match instruction with
  | SwapInstruction _ _ _ _ _ _ _ _ _ _ _ _ minimumAmountOut => Some minimumAmountOut
  | _ => None
  end.

Definition approved_amount (instruction : TransactionInstruction)
    : option (PublicKey * U64.u64) :=
  match instruction with
  | ApproveInstruction _ account _ _ amount => Some (account, amount)
  | _ => None
  end.

Definition maximums_of (instruction : TransactionInstruction)
    : option (U64.Numberu64 * U64.Numberu64) :=
  match instruction with
  | DepositInstruction _ _ _ _ _ _ _ _ _ _ _ maximumTokenA maximumTokenB =>
      Some (maximumTokenA, maximumTokenB)
  | _ => None
  end.

(** Which instructions a call builds, whether it returns or throws. *)
Definition builds_only {A : Type} (P : TransactionInstruction -> Prop) (m : action A) : Prop :=
  forall i, Built i ∈ m.1 -> P i.

(** The minimum a swap instruction must carry: the amount in the other
    token, adjusted downwards by the default slippage. *)
Definition default_minimum (parameters : SwapParameters)
    (instruction : TransactionInstruction) : Prop :=
  match instruction with
  | SwapInstruction _ _ _ _ _ _ _ _ _ _ _ _ minimumAmountOut =>
      exists amount,
        Pool.calculateAmountInOtherToken methods (swap_pool parameters)
          (TokenAccount.mint (fromAccount parameters)) (fromAmount parameters) true
        = Js.Return amount
        /\ U64.toNumberU64
             (Pool.adjustForSlippage amount Pool.down (Pool.DEFAULT_SLIPPAGE methods))
           = Js.Return minimumAmountOut
  | _ => True
  end.

Definition is_swap (instruction : TransactionInstruction) : Prop :=
  match instruction with
  | SwapInstruction _ _ _ _ _ _ _ _ _ _ _ _ _ => True
  | _ => False
  end.

(** The amounts a deposit may approve and pass on. *)
Definition within_balances (parameters : DepositParameters)
    (instruction : TransactionInstruction) : Prop :=
  exists poolTokenAmount amounts,
    let pool := deposit_pool parameters in
    let maxTokenAAmount :=
      Qmin (Pool.tokenAAmount amounts) (TokenAccount.balance (fromAAccount parameters)) in
    let maxTokenBAmount :=
      Qmin (Pool.tokenBAmount amounts) (TokenAccount.balance (fromBAccount parameters)) in
    Pool.getPoolTokenValueOfTokenAAmount methods pool (fromAAmount parameters)
    = Js.Return poolTokenAmount
    /\ Pool.calculateAmountsWithSlippage methods pool poolTokenAmount Pool.up
         (deposit_slippage parameters)
       = Js.Return amounts
    /\ (maxTokenAAmount <= TokenAccount.balance (fromAAccount parameters))%Q
    /\ (maxTokenBAmount <= TokenAccount.balance (fromBAccount parameters))%Q
    /\ match instruction with
       | ApproveInstruction _ account _ _ amount =>
           (account = TokenAccount.address (fromAAccount parameters)
            /\ U64.toU64 maxTokenAAmount = Js.Return amount)
           \/ (account = TokenAccount.address (fromBAccount parameters)
               /\ U64.toU64 maxTokenBAmount = Js.Return amount)
       | DepositInstruction _ _ sourceA sourceB _ _ _ _ _ _ _ maximumTokenA maximumTokenB =>
           sourceA = TokenAccount.address (fromAAccount parameters)
           /\ sourceB = TokenAccount.address (fromBAccount parameters)
           /\ U64.toNumberU64 maxTokenAAmount = Js.Return maximumTokenA
           /\ U64.toNumberU64 maxTokenBAmount = Js.Return maximumTokenB
       | SwapInstruction _ _ _ _ _ _ _ _ _ _ _ _ _ => False
       end.

(** What a deposit sends: the approval for the token A source account, the
    approval for the token B source account and the deposit instruction
    carry, account by account, one and the same whole amount, which is the
    smaller of the amount [calculateAmountsWithSlippage] gives, upwards, and
    the balance of the account. *)
Definition sent_within_balances (parameters : DepositParameters)
    (approveA approveB depositInstruction : TransactionInstruction) : Prop :=
  exists poolTokenAmount amounts (amountA amountB : Z),
    let pool := deposit_pool parameters in
    let maxTokenAAmount :=
      Qmin (Pool.tokenAAmount amounts) (TokenAccount.balance (fromAAccount parameters)) in
    let maxTokenBAmount :=
      Qmin (Pool.tokenBAmount amounts) (TokenAccount.balance (fromBAccount parameters)) in
    Pool.getPoolTokenValueOfTokenAAmount methods pool (fromAAmount parameters)
    = Js.Return poolTokenAmount
    /\ Pool.calculateAmountsWithSlippage methods pool poolTokenAmount Pool.up
         (deposit_slippage parameters)
       = Js.Return amounts
    /\ (inject_Z amountA == maxTokenAAmount)%Q
    /\ (inject_Z amountB == maxTokenBAmount)%Q
    /\ (inject_Z amountA <= TokenAccount.balance (fromAAccount parameters))%Q
    /\ (inject_Z amountB <= TokenAccount.balance (fromBAccount parameters))%Q
    /\ match approveA with
       | ApproveInstruction _ account _ _ amount =>
           account = TokenAccount.address (fromAAccount parameters)
           /\ amount = U64.mkU64 amountA
       | _ => False
       end
    /\ match approveB with
       | ApproveInstruction _ account _ _ amount =>
           account = TokenAccount.address (fromBAccount parameters)
           /\ amount = U64.mkU64 amountB
       | _ => False
       end
    /\ match depositInstruction with
       | DepositInstruction _ _ sourceA sourceB _ _ _ _ _ _ _ maximumTokenA maximumTokenB =>
           sourceA = TokenAccount.address (fromAAccount parameters)
           /\ sourceB = TokenAccount.address (fromBAccount parameters)
           /\ maximumTokenA = U64.mkNumberu64 amountA
           /\ maximumTokenB = U64.mkNumberu64 amountB
       | _ => False
       end.

End API.
End PoolAPI.

(** ** Concrete entities for the examples *)
Module Examples.

(** [x] has at most [d] digits after the point. *)
Definition expressible_in_places (d : Z) (x : Q) : Prop :=
  exists z : Z, (x * DecimalJs.pow10 d == inject_Z z)%Q.

Definition token (decimals : Z) (supply : Q) : Token.Token string DecimalJs.Decimal :=
  Token.mkToken "So11111111111111111111111111111111111111112" decimals supply
    None (Some "Wrapped SOL") (Some "SOL").

Definition account (balance supply : Q)
    : TokenAccount.TokenAccount string DecimalJs.Decimal :=
  TokenAccount.mkTokenAccount (token 2 supply)
    "4Nd1mYw4r3bQ9yJmJp8oYpT6qD7zZ3vHq2WcE5sXk1aB" balance (Some 100) None.

(** A store of three snapshots, each an address and a balance: object 1,
    tracked by a listener, with the older object 3 as its previous, and
    object 2, not linked to anything yet. *)
Definition store : gmap OnChainEntity.ref (OnChainEntity.object (string * Z)) :=
  <[1%positive := OnChainEntity.mkObject ("pool", 1000) (Some 10) (Some 3%positive)]>
    (<[2%positive := OnChainEntity.mkObject ("pool", 1200) (Some 11) None]>
       (<[3%positive := OnChainEntity.mkObject ("pool", 900) (Some 9) None]> ∅)).

(** The same store with a fourth snapshot, not linked to anything either. *)
Definition longerStore : gmap OnChainEntity.ref (OnChainEntity.object (string * Z)) :=
  <[4%positive := OnChainEntity.mkObject ("pool", 1300) (Some 12) None]> store.

(** What the chain answers when asked for the entity at an address. *)
Definition fetched : (string * Z) * option Z := (("pool", 1500), Some 12).

(** What it answers to the [i]-th update of a pool whose balance grows. *)
Definition getPoolAt (i : nat) (address : string)
    : Js.result ((string * Z) * option Z) :=
  Js.Return (("pool", 1500 + Z.of_nat i), Some (12 + Z.of_nat i)).

Definition getPool (address : string) : Js.result ((string * Z) * option Z) :=
  Js.Return fetched.

Definition tokenAccountInfo (address : string)
    : Js.result (option ((string * Z) * option Z)) :=
  Js.Return (Some fetched).

(** What [getParsedAccountInfo] answers for the address of an SPL mint: the
    RPC node parses the account, as a mint. *)
Definition parsedMint : Js.value :=
  Js.object
    [("data",
      Js.object
        [("program", Js.str "spl-token");
         ("parsed",
          Js.object
            [("info",
              Js.object
                [("decimals", Js.num 2);
                 ("freezeAuthority", Js.null);
                 ("isInitialized", Js.boolean true);
                 ("mintAuthority", Js.str "9xQeWvG816bUx9EPjHmaT23yvVM2ZWbrrpZb9PusVFin");
                 ("supply", Js.str "1000000")]);
             ("type", Js.str "mint")]);
         ("space", Js.num 82)]);
     ("executable", Js.boolean false);
     ("lamports", Js.num 1461600);
     ("owner", Js.str "TokenkegQfeZyiNwAJbNbGKPFXCWuBvf9Ss623VQ5DA");
     ("rentEpoch", Js.num 0)]%string.

(** The same for an account the node does not parse: [data] is a Buffer. *)
Definition unparsedAccount (bytes : list Z) : Js.value :=
  Js.object
    [("data", Js.buffer bytes);
     ("executable", Js.boolean false);
     ("lamports", Js.num 1000000);
     ("owner", Js.str "11111111111111111111111111111111");
     ("rentEpoch", Js.num 0)]%string.

(** A pool of two tokens, a wallet with an account for each and one for a
    third token, and the collaborators of the pool API. *)
Definition mintOf (address : string) (supply : Q) : Token.Token string DecimalJs.Decimal :=
  Token.mkToken address 2 supply None None None.

Definition accountOf (mint address : string) (balance : Q)
    : TokenAccount.TokenAccount string DecimalJs.Decimal :=
  TokenAccount.mkTokenAccount (mintOf mint 1000000) address balance (Some 100) None.

Definition pool : Pool.Pool string :=
  Pool.mkPool "pool" (accountOf "mintA" "poolA" 1000) (accountOf "mintB" "poolB" 2000)
    (mintOf "poolMint" 500) (accountOf "poolMint" "fees" 0) "swapProgram" 255
    (3 # 1000) (Some 100).

(** Stand-ins for the methods of [Pool.ts]: proportional amounts, a
    slippage of 5 percent by default. *)
Definition methods : Pool.Methods string :=
  Pool.mkMethods 5%Q
    (fun pool mint amount bidirectional => Js.Return (amount * 2)%Q)
    (fun pool amount => Js.Return (amount * (1 # 2))%Q)
    (fun pool amount direction slippage =>
       Js.Return
         (Pool.mkAmounts amount
            (Pool.adjustForSlippage (amount * 2)%Q direction (default 5%Q slippage))
            (Pool.adjustForSlippage (amount * 4)%Q direction (default 5%Q slippage))))
    (fun pool => Js.Return "authority").

Definition collaborators : @PoolAPI.Collaborators string :=
  PoolAPI.mkCollaborators "swapProgram" "TokenkegQfeZyiNwAJbNbGKPFXCWuBvf9Ss623VQ5DA"
    (Some "wallet")
    (fun token => Js.Return (accountOf (Token.address token) "created" 0))
    (Js.Return "blockhash")
    (fun transaction => Js.Return "signature").

Definition swapParameters (slippage : option Q) (source : string) (amount : Q)
    : @PoolAPI.SwapParameters string :=
  PoolAPI.mkSwapParameters pool slippage (accountOf source "walletSource" 300)
    None "identity" amount.

Definition depositParameters (amount : Q) : @PoolAPI.DepositParameters string :=
  PoolAPI.mkDepositParameters pool (Some 1%Q)
    (accountOf "mintA" "walletA" 150) (accountOf "mintB" "walletB" 1000)
    amount None.

(** A token account with two earlier snapshots.  A decimal is identified
    with its text, a key with its text less the first character. *)
Definition toText (key : string) : string := ("k" ++ key)%string.

Definition ofText (text : string) : string :=
  match text with
  | String _ key => key
  | EmptyString => EmptyString
  end.

Definition textToken : Token.Token string string :=
  Token.mkToken "mintA" 2 "1000000" (Some "authority") (Some "Token A") (Some "TKA").

Definition history : TokenAccount.TokenAccount string string :=
  TokenAccount.mkTokenAccount textToken "walletA" "150" (Some 102)
    (Some (TokenAccount.mkTokenAccount textToken "walletA" "120" (Some 101)
       (Some (TokenAccount.mkTokenAccount textToken "walletA" "100" None None)))).

End Examples.

(** ** What the pool API sends: the shape of a swap and of a deposit *)
Module PoolAPIShapes.
Import DecimalJs PoolAPI.
Section Shapes.
Context {PublicKey : Type}.
Context (c : @Collaborators PublicKey).

(** A request for a new token account: the one thing asked of the chain
    before the instructions are built. *)
Definition creates_account (e : @event PublicKey) : Prop :=
  exists token, e = CreateAccountForToken token.

(** An approval, by the connected wallet, that lets [delegate] take [amount]
    from [account]. *)
Definition approves (account : TokenAccount.TokenAccount PublicKey Decimal)
    (delegate : PublicKey) (amount : Decimal)
    (instruction : @TransactionInstruction PublicKey) : Prop :=
  exists owner value,
    wallet c = Some owner
    /\ U64.toU64 amount = Js.Return value
    /\ instruction
       = ApproveInstruction (TOKEN_PROGRAM_ID c) (TokenAccount.address account)
           delegate owner value.

(** The two instructions of a swap belong together: the swap takes
    [fromAmount] out of [fromAccount] under the authority to which the
    approval delegates exactly that amount of that account. *)
Definition approved_swap (parameters : @SwapParameters PublicKey)
    (approve swapInstruction : @TransactionInstruction PublicKey) : Prop :=
  match swapInstruction with
  | SwapInstruction tokenSwap authority userSource _ _ _ _ _ _ _ _ amountIn _ =>
      tokenSwap = Pool.address (swap_pool parameters)
      /\ userSource = TokenAccount.address (fromAccount parameters)
      /\ amountIn = fromAmount parameters
      /\ approves (fromAccount parameters) authority (fromAmount parameters) approve
  | _ => False
  end.

(** The two approvals and the deposit belong together: the deposit may
    take from each source account at most what the approval for that
    account delegates to the authority of the deposit. *)
Definition approved_deposit (parameters : @DepositParameters PublicKey)
    (approveA approveB depositInstruction : @TransactionInstruction PublicKey) : Prop :=
  match depositInstruction with
  | DepositInstruction tokenSwap authority sourceA sourceB _ _ _ _ _ _ _
      maximumTokenA maximumTokenB =>
      tokenSwap = Pool.address (deposit_pool parameters)
      /\ sourceA = TokenAccount.address (fromAAccount parameters)
      /\ sourceB = TokenAccount.address (fromBAccount parameters)
      /\ exists amountA amountB,
           U64.toNumberU64 amountA = Js.Return maximumTokenA
           /\ U64.toNumberU64 amountB = Js.Return maximumTokenB
           /\ approves (fromAAccount parameters) authority amountA approveA
           /\ approves (fromBAccount parameters) authority amountB approveB
  | _ => False
  end.

(** A swap instruction moves the tokens the right way round: out of the
    user's source account into the pool account [into] of the same token,
    and out of the other pool account [out] into the user's target account,
    which is the account of the parameters, holding the token of [out], or
    the account created for that token. *)
Definition routed (parameters : @SwapParameters PublicKey)
    (instruction : @TransactionInstruction PublicKey) : Prop :=
  match instruction with
  | SwapInstruction _ _ userSource poolSource poolDestination userDestination _ _ _ _ _ _ _ =>
      let pool := swap_pool parameters in
      exists into out to,
        ((into = Pool.tokenA pool /\ out = Pool.tokenB pool)
         \/ (into = Pool.tokenB pool /\ out = Pool.tokenA pool))
        /\ userSource = TokenAccount.address (fromAccount parameters)
        /\ poolSource = TokenAccount.address into
        /\ poolDestination = TokenAccount.address out
        /\ userDestination = TokenAccount.address to
        /\ Token.address (TokenAccount.mint (fromAccount parameters))
           = Token.address (TokenAccount.mint into)
        /\ ((toAccount parameters = Some to
             /\ Token.address (TokenAccount.mint to) = Token.address (TokenAccount.mint out))
            \/ (toAccount parameters = None
                /\ createAccountForToken c (TokenAccount.mint out) = Js.Return to))
  | _ => True
  end.

End Shapes.
End PoolAPIShapes.

(** ** More concrete inputs *)
Module MoreExamples.

(** The collaborators of the pool API when no wallet is connected. *)
Definition disconnected : @PoolAPI.Collaborators string :=
  PoolAPI.mkCollaborators "swapProgram" "TokenkegQfeZyiNwAJbNbGKPFXCWuBvf9Ss623VQ5DA"
    None
    (fun token => Js.Return (Examples.accountOf (Token.address token) "created" 0))
    (Js.Return "blockhash")
    (fun transaction => Js.Return "signature").

(** A deposit whose token A source account holds a third token. *)
Definition foreignDeposit : @PoolAPI.DepositParameters string :=
  PoolAPI.mkDepositParameters Examples.pool None
    (Examples.accountOf "mintC" "walletC" 150) (Examples.accountOf "mintB" "walletB" 1000)
    100%Q None.

End MoreExamples.

(** ** Amounts as text ([utils/amount.ts]) *)
Module AmountText.

(** [s.substring(indexStart, indexEnd)] on a string of ASCII characters,
    for integer arguments: an argument
    below 0 counts as 0 and one above the length as the length, an
    [indexEnd] left out is the length, and the two are swapped when the
    first is the larger. *)
Definition substring (s : string) (indexStart : Z) (indexEnd : option Z) : string :=
  let len := Z.of_nat (String.length s) in
  let clamp i := Z.max 0 (Z.min i len) in
  let a := clamp indexStart in
  let b := from_option clamp len indexEnd in
  String.substring (Z.to_nat (Z.min a b)) (Z.to_nat (Z.max a b - Z.min a b)) s.

Definition formatValueWithDecimals (value : string) (decimals : Z) : string :=
  (substring value 0 (Some (Z.of_nat (String.length value) - decimals))
   ++ "."
   ++ substring value (Z.of_nat (String.length value) - decimals) None)%string.

(** The number a string of decimal digits reads as. *)
Definition digit (c : Ascii.ascii) : Z := Z.of_nat (Ascii.nat_of_ascii c) - 48.

Fixpoint reading_from (acc : Z) (digits : string) : Z :=
  match digits with
  | EmptyString => acc
  | String c rest => reading_from (10 * acc + digit c) rest
  end.

Definition reading (digits : string) : Z := reading_from 0 digits.

End AmountText.

(** ** Calls that leave a trace

    An asynchronous function of the code base is modelled by what it asks
    of the outside, in order, and what it yields: the sequence stops at the
    first exception. *)
Module Trace.
Section Trace.
Context {E : Type}.

Definition action (A : Type) : Type := list E * Js.result A.

Definition lift {A : Type} (r : Js.result A) : action A := ([], r).

Definition request {A : Type} (e : E) (r : Js.result A) : action A := ([e], r).

Definition bind {A B : Type} (m : action A) (k : A -> action B) : action B :=
  match m.2 with
  | Js.Return a => (m.1 ++ (k a).1, (k a).2)
  | Js.Throw e => (m.1, Js.Throw e)
  end.

End Trace.
End Trace.

#[export] Instance trace_ret {E : Type} : MRet (@Trace.action E) :=
  fun A a => ([], Js.Return a).
#[export] Instance trace_bind {E : Type} : MBind (@Trace.action E) :=
  fun A B k m => Trace.bind m k.

(** ** Airdrops for the tests ([airdropTo], [createAndFundAccount]) *)
Module Airdrop.
Import Trace.
Section Airdrop.
Context {PublicKey Account : Type}.
Context (publicKey : Account -> PublicKey).

Inductive event : Type :=
  | GetBalance (recipient : PublicKey)
  | RequestAirdrop (recipient : PublicKey) (lamports : Z)
  | Sleep (ms : Z).

(** The connection: what [getBalance] answers the [n]-th time it is asked
    (the balance changes as the chain goes on), and what [requestAirdrop]
    answers. *)
Record Connection : Type := mkConnection {
    getBalance : nat -> PublicKey -> Js.result Z;
    requestAirdrop : PublicKey -> Z -> Js.result string
  }.

Context (connection : Connection).

(** The loop of [airdropTo], entered with [retries] and as the [n]-th
    question for the balance comes up: [true] for [return], [false] for
    [break]. *)
Fixpoint poll (recipient : PublicKey) (lamports oldBalance : Z) (retries n : nat)
    : @action event bool :=
  _ ← request (Sleep 500) (Js.Return tt);
  newBalance ← request (GetBalance recipient) (getBalance connection n recipient);
  if lamports =? newBalance - oldBalance then mret true
  else
    (* --retries <= 0 *)
    match retries with
    | S (S _ as retries') => poll recipient lamports oldBalance retries' (S n)
    | _ => mret false
    end.

Definition airdropTo (recipient : PublicKey) (lamports : option Z)
    (ignoreError : option bool) : @action event unit :=
  let lamports := default 8000000 lamports in
  let ignoreError := default true ignoreError in
  let retries := 60%nat in
  oldBalance ← request (GetBalance recipient) (getBalance connection 0%nat recipient);
  _ ← request (RequestAirdrop recipient lamports)
        (requestAirdrop connection recipient lamports);
  returned ← poll recipient lamports oldBalance retries 1%nat;
  if (returned : bool) then lift (Js.Return tt)
  else if negb ignoreError
  then lift (Js.Throw (Js.Error ("Airdrop of " ++ pretty lamports ++ " failed")))
  else lift (Js.Return tt).

(** [createAndFundAccount]; [account] is the key pair [new Account()]
    generates. *)
Definition createAndFundAccount (account : Account) (lamports : Z) : @action event Account :=
  _ ← airdropTo (publicKey account) (Some lamports) None;
  mret account.

(** The questions for the balance among the events. *)
Definition is_poll (e : event) : bool :=
  match e with
  | GetBalance _ => true
  | _ => false
  end.

Definition polls (trace : list event) : nat := length (List.filter is_poll trace).

End Airdrop.
End Airdrop.


(** ** Connections ([api/connection/index.ts]) *)
Module ConnectionAPI.

Definition LOCALNET_URL : string := "http://localhost:8899".

(** The functions of a connection that are wrapped in a retrying proxy. *)
Definition proxiedFunctions : list string :=
  ["getAccountInfo"; "getParsedAccountInfo"; "getParsedProgramAccounts";
   "getParsedTokenAccountsByOwner"; "getRecentBlockhash"; "sendTransaction";
   "sendRawTransaction"; "requestAirdrop"]%string.

(** A connection object: what it was made with, which of its functions
    are proxied and, to tell the objects apart, how many connections were
    made before it. *)
Record Connection : Type := mkConnection {
    endpoint : string;
    commitment : string;
    proxied : list string;
    serial : nat
  }.

(** The state of the module: [currentCluster], [undefined] at first, and
    the cache of the memoised [createConnection], keyed by the network. *)
Record state : Type := mkState {
    currentCluster : option string;
    connections : gmap string Connection
  }.

Definition initial : state := mkState None ∅.

Section ConnectionAPI.
(** [defaultCommitment] of [utils/env] and [clusterApiUrl] of solana
    web3. *)
Context (DEFAULT_COMMITMENT : string).
Context (clusterApiUrl : option string -> Js.result string).

(** [memoizeWith(identity, (network) => ...)]: one call of the function per
    key. *)
Definition createConnection (network : string) (s : state) : Connection * state :=
  match connections s !! network with
  | Some connection => (connection, s)
  | None =>
      let connection :=
        mkConnection network DEFAULT_COMMITMENT proxiedFunctions (size (connections s)) in
      (connection, mkState (currentCluster s) (<[network := connection]> (connections s)))
  end.

Definition getNetwork (cluster : option string) : Js.result string :=
  if bool_decide (cluster = Some "localnet") then Js.Return LOCALNET_URL
  else clusterApiUrl cluster.

(** A cluster that is given: not [undefined], and not the empty text. *)
Definition given (cluster : option string) : bool :=
  match cluster with
  | Some name => negb (String.eqb name "")
  | None => false
  end.

Definition getConnection (cluster : option string) (s : state)
    : Js.result Connection * state :=
  let s1 := if given cluster then mkState cluster (connections s) else s in
  let selectedCluster := if given cluster then cluster else currentCluster s1 in
  match getNetwork selectedCluster with
  | Js.Return network =>
      let '(connection, s2) := createConnection network s1 in
      (Js.Return connection, s2)
  | Js.Throw e => (Js.Throw e, s1)
  end.

(** [getConnection] for each cluster of a list in turn. *)
Fixpoint getConnections (clusters : list (option string)) (s : state)
    : list (Js.result Connection) * state :=
  match clusters with
  | [] => ([], s)
  | cluster :: rest =>
      let '(r, s1) := getConnection cluster s in
      let '(rs, s2) := getConnections rest s1 in
      (r :: rs, s2)
  end.

End ConnectionAPI.

(** What the cache holds: under each network the connection made for it,
    which is one of those counted. *)
Definition cache_ok (s : state) : Prop :=
  forall network c, connections s !! network = Some c ->
    endpoint c = network /\ (serial c < size (connections s))%nat.

End ConnectionAPI.


(** ** The wallet ([api/wallet/index.ts]) *)
Module WalletAPI.
Import Trace.

Inductive WalletType : Type := SOLLET | LOCAL | TORUS.

(** The wallet objects, each made for a network. *)
Inductive Wallet : Type :=
  | LocalWallet (network : string)
  | SolletWallet (network : string).

Section WalletAPI.
Context {PublicKey Account Instruction : Type}.
(** [account.publicKey] and [wallet.pubkey]. *)
Context (publicKey : Account -> PublicKey) (pubkey : Wallet -> PublicKey).
(** [defaultCommitment] and [postTransactionSleepMS] of [utils/env], and
    [clusterApiUrl] of solana web3. *)
Context (DEFAULT_COMMITMENT : string) (postTransactionSleepMS : option Z).
Context (clusterApiUrl : option string -> Js.result string).

(** [postTransactionSleepMS || 500]. *)
Definition POST_TRANSACTION_SLEEP_MS : Z :=
  match postTransactionSleepMS with
  | Some ms => if ms =? 0 then 500 else ms
  | None => 500
  end.

Record Transaction : Type := mkTransaction {
    recentBlockhash : string;
    signatures : list PublicKey;
    instructions : list Instruction;
    partialSigned : list Account
  }.

(** The two singletons of the module, [undefined] at first, and the state
    of the connection module it calls into. *)
Record state : Type := mkState {
    wallet : option Wallet;
    connection : option ConnectionAPI.Connection;
    connectionAPI : ConnectionAPI.state
  }.

Definition initial : state := mkState None None ConnectionAPI.initial.

Inductive event : Type :=
  | Disconnect (w : Wallet)
  | GetRecentBlockhash
  | Sign (transaction : Transaction)
  | SendRawTransaction (signed : Transaction) (preflightCommitment : string)
  | SendTransaction (transaction : Transaction) (signers : list Account)
      (preflightCommitment : string)
  | ConfirmTransaction (signature : string) (commitment : string)
  | EmitConfirmed (transactionSignature : string)
  | Sleep (ms : Z)
  | RequestAirdrop (to : PublicKey) (lamports : Z).

(** The wallet and the chain: [wallet.sign], the functions of the
    connection, and [confirmTransaction] of the connection module. *)
Record Collaborators : Type := mkCollaborators {
    sign : Wallet -> Transaction -> Js.result Transaction;
    getRecentBlockhash : ConnectionAPI.Connection -> Js.result string;
    sendRawTransaction :
      ConnectionAPI.Connection -> Transaction -> string -> Js.result string;
    connectionSendTransaction :
      ConnectionAPI.Connection -> Transaction -> list Account -> string -> Js.result string;
    requestAirdrop : ConnectionAPI.Connection -> PublicKey -> Z -> Js.result string;
    confirmTransaction : string -> string -> Js.result unit
  }.

Context (c : Collaborators).

Definition createWallet (type : WalletType) (cluster : string) : Js.result Wallet :=
  network ← ConnectionAPI.getNetwork clusterApiUrl (Some cluster);
  mret match type with
       | LOCAL => LocalWallet network
       | SOLLET => SolletWallet network
       | TORUS => SolletWallet network
       end.

(** [connect]: the wallet it yields once the wallet reports that it is
    connected, and the state it leaves.  What the wallet object does on its
    own when it is made (a Sollet wallet opens its provider) is outside the
    module and not modelled. *)
Definition connect (cluster : string) (type : WalletType) (s : state)
    : Js.result Wallet * state :=
  match createWallet type cluster with
  | Js.Return newWallet =>
      let '(r, api) :=
        ConnectionAPI.getConnection DEFAULT_COMMITMENT clusterApiUrl (Some cluster)
          (connectionAPI s) in
      match r with
      | Js.Return made => (Js.Return newWallet, mkState (Some newWallet) (Some made) api)
      | Js.Throw e => (Js.Throw e, mkState (Some newWallet) (connection s) api)
      end
  | Js.Throw e => (Js.Throw e, s)
  end.

(** [wallet?.disconnect()]. *)
Definition disconnect (s : state) : list event * state :=
  match wallet s with
  | Some w => ([Disconnect w], s)
  | None => ([], s)
  end.

(** [if (!wallet || !connection) throw new Error(message)]. *)
Definition connected (message : string) (s : state)
    : Js.result (Wallet * ConnectionAPI.Connection) :=
  match wallet s, connection s with
  | Some w, Some conn => Js.Return (w, conn)
  | _, _ => Js.Throw (Js.Error message)
  end.

Definition makeTransaction (instructions : list Instruction) (signers : list Account)
    (s : state) : @action event Transaction :=
  both ← lift (connected "Connect first" s);
  recentBlockhash ← request GetRecentBlockhash (getRecentBlockhash c both.2);
  let signatures := pubkey both.1 :: map publicKey signers in
  mret (mkTransaction recentBlockhash signatures instructions signers).

Definition awaitConfirmation (signature commitment : string) (s : state)
    : @action event string :=
  _ ← request (ConfirmTransaction signature commitment)
        (confirmTransaction c signature commitment);
  _ ← match wallet s with
      | Some _ => request (EmitConfirmed signature) (Js.Return tt)
      | None => lift (Js.Return tt)
      end;
  _ ← request (Sleep POST_TRANSACTION_SLEEP_MS) (Js.Return tt);
  mret signature.

Definition sendTransaction (transaction : Transaction)
    (commitment preflightCommitment : option string) (s : state) : @action event string :=
  let commitment := default DEFAULT_COMMITMENT commitment in
  let preflightCommitment := default DEFAULT_COMMITMENT preflightCommitment in
  both ← lift (connected "Connect first" s);
  signed ← request (Sign transaction) (sign c both.1 transaction);
  signature ← request (SendRawTransaction signed preflightCommitment)
                (sendRawTransaction c both.2 signed preflightCommitment);
  awaitConfirmation signature commitment s.

Definition sendTransactionFromAccount (transaction : Transaction) (signer : Account)
    (commitment preflightCommitment : option string) (s : state) : @action event string :=
  let commitment := default DEFAULT_COMMITMENT commitment in
  let preflightCommitment := default DEFAULT_COMMITMENT preflightCommitment in
  both ← lift (connected "Connect first" s);
  signature ← request (SendTransaction transaction [signer] preflightCommitment)
                (connectionSendTransaction c both.2 transaction [signer]
                   preflightCommitment);
  awaitConfirmation signature commitment s.

Definition getWallet (s : state) : Js.result Wallet :=
  both ← connected "notification.error.noWallet" s;
  mret both.1.

Definition airdropTo (to : PublicKey) (s : state) : @action event string :=
  both ← lift (connected "Connect first" s);
  request (RequestAirdrop to 100000000) (requestAirdrop c both.2 to 100000000).

(** [wallet && airdropTo(wallet.pubkey)]: nothing when there is no
    wallet. *)
Definition airdrop (s : state) : @action event (option string) :=
  match wallet s with
  | Some w => signature ← airdropTo (pubkey w) s; mret (Some signature)
  | None => mret None
  end.

(** What a user does to the module between two calls of the APIs. *)
Inductive operation : Type :=
  | Connect (cluster : string) (type : WalletType)
  | DisconnectWallet.

Definition after (s : state) (op : operation) : state :=
  match op with
  | Connect cluster type => (connect cluster type s).2
  | DisconnectWallet => (disconnect s).2
  end.

End WalletAPI.
End WalletAPI.

(** ** The global slice of the store ([features/GlobalSlice.tsx]) *)
Module GlobalSlice.

Record EpochInfo : Type := mkEpochInfo {
    epoch : Z;
    absoluteSlot : Z;
    blockHeight : Z;
    slotIndex : Z;
    slotsInEpoch : Z
  }.

Record GlobalState : Type := mkGlobalState {
    loading : Z;
    error : option string;
    availableTokens : list Token.SerializableToken;
    epochInfo : EpochInfo
  }.

Definition initialState : GlobalState :=
  {| loading := 0;
     error := None;
     availableTokens := [];
     epochInfo := mkEpochInfo 0 0 0 0 0 |}.

(** The actions the reducer can be handed: the two it has a case for, made
    by [updateEpochInfo] and by the thunk [getAvailableTokens] when it is
    fulfilled, and any other, of which the reducer reads at most
    [error.message] ([error] may be missing, and so may [message]). *)
Inductive action : Type :=
  | UpdateEpochInfo (payload : EpochInfo)
  | GetAvailableTokensFulfilled (payload : list Token.SerializableToken)
  | Other (type : string) (error : option (option string)).

(** [action.type]. *)
Definition action_type (a : action) : string :=
  match a with
  | UpdateEpochInfo _ => "global/updateEpochInfo"
  | GetAvailableTokensFulfilled _ => "global/getAvailableTokens/fulfilled"
  | Other type _ => type
  end.

(** [action.error], with its [message]. *)
Definition action_error (a : action) : option (option string) :=
  match a with
  | Other _ error => error
  | _ => None
  end.

Section Reducer.
(** The matchers of [utils/redux]. *)
Context (isPendingAction isRejectedAction isFulfilledAction : action -> bool).

(** The reducers by case: [updateEpochInfo] and
    [getAvailableTokens.fulfilled]. *)
Definition caseReducer (state : GlobalState) (a : action) : GlobalState :=
  match a with
  | UpdateEpochInfo payload =>
      {| loading := loading state; error := error state;
         availableTokens := availableTokens state; epochInfo := payload |}
  | GetAvailableTokensFulfilled payload =>
      {| loading := loading state; error := error state;
         availableTokens := payload; epochInfo := epochInfo state |}
  | Other _ _ => state
  end.

Definition with_loading (n : Z) (state : GlobalState) : GlobalState :=
  {| loading := n; error := error state;
     availableTokens := availableTokens state; epochInfo := epochInfo state |}.

(** The reducer of the slice: the reducer of the case, if there is one,
    then the reducer of every matcher that matches, in the order they were
    added.  It yields the messages handed to [notify] and the next state. *)
Definition reducer (state : GlobalState) (a : action)
    : Js.result (list (option string) * GlobalState) :=
  let s1 := caseReducer state a in
  let s2 := if isPendingAction a then with_loading (loading s1 + 1) s1 else s1 in
  rejected ←
    (if isRejectedAction a then
       match action_error a with
       | Some message =>
           Js.Return
             ([message],
              {| loading := Z.max (loading s2 - 1) 0; error := message;
                 availableTokens := availableTokens s2; epochInfo := epochInfo s2 |})
       | None => Js.Throw (Js.TypeError "Cannot read property 'message' of undefined")
       end
     else Js.Return ([], s2));
  let s3 := rejected.2 in
  mret (rejected.1,
        if isFulfilledAction a then with_loading (Z.max (loading s3 - 1) 0) s3 else s3).

(** The store after an action: the state stays as it is when the reducer
    throws. *)
Definition dispatch (state : GlobalState) (a : action) : GlobalState :=
  match reducer state a with
  | Js.Return next => next.2
  | Js.Throw _ => state
  end.

End Reducer.
End GlobalSlice.


(** ** Concrete collaborators for the stateful modules *)
Module StateExamples.

(** A connection on which the balance of every account is 1000 lamports and
    stays so: no airdrop ever arrives. *)
Definition neverArrives : @Airdrop.Connection string :=
  Airdrop.mkConnection (fun n recipient => Js.Return 1000)
    (fun recipient lamports => Js.Return "airdrop").

Definition clusterApiUrl (cluster : option string) : Js.result string :=
  Js.Return ("https://" ++ default "devnet" cluster ++ ".solana.com")%string.

(** Keys, key pairs and instructions as texts; a wallet that signs whatever
    it is given and a chain that accepts it. *)
Definition pubkey (w : WalletAPI.Wallet) : string := "wallet".

Definition chain : @WalletAPI.Collaborators string string string :=
  WalletAPI.mkCollaborators
    (fun w transaction => Js.Return transaction)
    (fun connection => Js.Return "blockhash")
    (fun connection signed preflightCommitment => Js.Return "signature")
    (fun connection transaction signers preflightCommitment => Js.Return "signature")
    (fun connection to lamports => Js.Return "airdrop")
    (fun signature commitment => Js.Return tt).

Definition transaction : @WalletAPI.Transaction string string string :=
  WalletAPI.mkTransaction "blockhash" ["wallet"] ["approve"; "swap"] [].

(** The module after [connect("devnet", WalletType.SOLLET)]. *)
Definition connectedState : WalletAPI.state :=
  (WalletAPI.connect "max" clusterApiUrl "devnet" WalletAPI.SOLLET WalletAPI.initial).2.

(** Matchers that go by the end of the type of the action, as the thunks
    name their actions. *)
Definition endsWith (suffix : string) (a : GlobalSlice.action) : bool :=
  String.prefix (String.rev suffix) (String.rev (GlobalSlice.action_type a)).

Definition pendingAction : GlobalSlice.action :=
  GlobalSlice.Other "wallet/connect/pending" None.

Definition rejectedAction : GlobalSlice.action :=
  GlobalSlice.Other "wallet/connect/rejected" (Some (Some "Connect first")).

End StateExamples.

(** ** Instructions of the token program and of the token-swap program *)
Module Instructions.
Section Instructions.
Context {PublicKey Account : Type}.

Inductive Layout : Type := AccountLayout | MintLayout | TokenSwapLayout.

Record AccountMeta : Type := mkAccountMeta {
    meta_pubkey : PublicKey;
    isSigner : bool;
    isWritable : bool
  }.

(** What [createPool] encodes as the data of the instruction that
    initialises a swap. *)
Record InitializeSwapData : Type := mkInitializeSwapData {
    instruction : Z;
    nonce : Z;
    curveType : Z;
    tradeFeeNumerator : JsNumber.number;
    tradeFeeDenominator : JsNumber.number;
    ownerTradeFeeNumerator : Z;
    ownerTradeFeeDenominator : Z;
    ownerWithdrawFeeNumerator : Z;
    ownerWithdrawFeeDenominator : Z;
    hostFeeNumerator : Z;
    hostFeeDenominator : Z
  }.

(** The instructions the two APIs build: the one [makeNewAccountInstruction]
    of [utils/transaction] yields, those of [SPLToken.create...Instruction]
    and [TokenSwap.withdrawInstruction], each with its arguments in order,
    and the [new TransactionInstruction] of [createPool].  An amount handed
    over as a number is kept as given: what the library makes of it is
    outside the model. *)
Inductive Instruction : Type :=
  | NewAccountInstruction (newAccount : PublicKey) (layout : Layout) (programId : PublicKey)
  | InitMintInstruction (programId mint : PublicKey) (decimals : Z)
      (mintAuthority : PublicKey) (freezeAuthority : option PublicKey)
  | InitAccountInstruction (programId mint account owner : PublicKey)
  | MintToInstruction (programId mint dest authority : PublicKey)
      (multiSigners : list Account) (amount : JsNumber.number)
  | ApproveInstruction (programId account delegate owner : PublicKey)
      (multiSigners : list Account) (amount : U64.u64)
  | TransferInstruction (programId source destination owner : PublicKey)
      (multiSigners : list Account) (amount : U64.u64)
  | WithdrawInstruction
      (tokenSwap authority poolMint feeAccount sourcePoolAccount fromA fromB
         userAccountA userAccountB swapProgramId tokenProgramId : PublicKey)
      (poolTokenAmount minimumTokenA minimumTokenB : U64.Numberu64)
  | InitializeSwapInstruction (keys : list AccountMeta) (programId : PublicKey)
      (data : InitializeSwapData).

(** [SPLToken.createApproveInstruction], [SPLToken.createTransferInstruction]
    and [TokenSwap.withdrawInstruction]: each lays out its amounts, in the
    order of its arguments. *)
Definition createApproveInstruction (programId account delegate owner : PublicKey)
    (multiSigners : list Account) (amount : U64.u64) : Js.result Instruction :=
  _ ← U64.u64_toBuffer amount;
  mret (ApproveInstruction programId account delegate owner multiSigners amount).

Definition createTransferInstruction (programId source destination owner : PublicKey)
    (multiSigners : list Account) (amount : U64.u64) : Js.result Instruction :=
  _ ← U64.u64_toBuffer amount;
  mret (TransferInstruction programId source destination owner multiSigners amount).

Definition withdrawInstruction
    (tokenSwap authority poolMint feeAccount sourcePoolAccount fromA fromB
       userAccountA userAccountB swapProgramId tokenProgramId : PublicKey)
    (poolTokenAmount minimumTokenA minimumTokenB : U64.Numberu64)
    : Js.result Instruction :=
  _ ← U64.Numberu64_toBuffer poolTokenAmount;
  _ ← U64.Numberu64_toBuffer minimumTokenA;
  _ ← U64.Numberu64_toBuffer minimumTokenB;
  mret (WithdrawInstruction tokenSwap authority poolMint feeAccount sourcePoolAccount
          fromA fromB userAccountA userAccountB swapProgramId tokenProgramId
          poolTokenAmount minimumTokenA minimumTokenB).

End Instructions.
End Instructions.

(** ** Token API, the operations ([api/token/index.ts])

    The functions of the wallet module are the modelled ones; what they ask
    of the wallet and of the chain shows in the trace.  Queries that only
    read from the chain leave no event. *)
Module TokenOps.
Import Trace.
Section TokenOps.
Context {PublicKey Account : Type} `{EqDecision PublicKey}.
Context (toBase58 : PublicKey -> string) (publicKey : Account -> PublicKey).
Context (pubkey : WalletAPI.Wallet -> PublicKey).
Context (toString : DecimalJs.Decimal -> string) (newDecimal : string -> DecimalJs.Decimal).
Context (DEFAULT_COMMITMENT : string) (postTransactionSleepMS : option Z).

Abbreviation Decimal := DecimalJs.Decimal.
Abbreviation Token := (Token.Token PublicKey Decimal).
Abbreviation TokenAccount := (TokenAccount.TokenAccount PublicKey Decimal).
Abbreviation Instruction := (@Instructions.Instruction PublicKey Account).
Abbreviation Transaction := (@WalletAPI.Transaction PublicKey Account Instruction).
Abbreviation WalletEvent := (@WalletAPI.event PublicKey Account Instruction).

Inductive event : Type :=
  | Built (i : Instruction)
  | Wallet (e : WalletEvent)
  | RequestAirdrop (to : PublicKey) (lamports : Z).

(** An entry of [token.config.json]. *)
Record TokenConfig : Type := mkTokenConfig {
    mintAddress : string;
    tokenName : string;
    tokenSymbol : string
  }.

(** What [getMintInfo] yields, as far as it is used. *)
Record MintInfo : Type := mkMintInfo {
    mint_decimals : Z;
    mint_supply : Decimal;
    mint_mintAuthority : option PublicKey
  }.

(** What the API is made with and what it calls: the cluster and its entry
    in the token configuration, the module state of the wallet, the
    wallet and the chain behind it, the lookups [tokenAccountInfo] uses,
    [getMintInfo] and [getParsedTokenAccountsByOwner] of the chain,
    [makeNewAccountInstruction] of [utils/transaction], the key pair
    [new Account()] generates, [airdropKey(cluster)] of [utils/env], the
    key pair [new Account(JSON.parse(key))] and [connection.requestAirdrop]. *)
Record Environment : Type := mkEnvironment {
    cluster : string;
    TOKEN_PROGRAM_ID : PublicKey;
    clusterConfig : option (list TokenConfig);
    walletState : WalletAPI.state;
    chain : @WalletAPI.Collaborators PublicKey Account Instruction;
    rpc : TokenAPI.Collaborators PublicKey Decimal;
    getMintInfo : PublicKey -> Js.result MintInfo;
    getParsedTokenAccountsByOwner : PublicKey -> Js.result (list (PublicKey * Js.value));
    makeNewAccountInstruction :
      PublicKey -> Instructions.Layout -> PublicKey -> Js.result Instruction;
    newAccount : Account;
    airdropKey : option string;
    accountOfKey : string -> Js.result Account;
    requestAirdrop : PublicKey -> Z -> Js.result string
  }.

Context (env : Environment).

(** The functions of the wallet module, as the token API sees them. *)
Definition via {A : Type} (m : @action WalletEvent A) : @action event A :=
  (map Wallet m.1, m.2).

Definition getWalletPubkey : Js.result PublicKey :=
  w ← WalletAPI.getWallet (walletState env);
  mret (pubkey w).

Definition makeTransaction (instructions : list Instruction) (signers : list Account)
    : @action event Transaction :=
  via (WalletAPI.makeTransaction publicKey pubkey (chain env) instructions signers
         (walletState env)).

Definition sendTransaction (transaction : Transaction) : @action event string :=
  via (WalletAPI.sendTransaction DEFAULT_COMMITMENT postTransactionSleepMS (chain env)
         transaction None None (walletState env)).

Definition sendTransactionFromAccount (transaction : Transaction) (signer : Account)
    : @action event string :=
  via (WalletAPI.sendTransactionFromAccount DEFAULT_COMMITMENT postTransactionSleepMS
         (chain env) transaction signer None None (walletState env)).

(** An instruction, once built. *)
Definition built (i : Instruction) : @action event Instruction :=
  request (Built i) (Js.Return i).

(** [Promise.all]: the values, when every promise is fulfilled.  When
    several are rejected, the one rejected first decides; the model takes
    the first of the list. *)
Fixpoint promise_all {A : Type} (promises : list (Js.result A)) : Js.result (list A) :=
  match promises with
  | [] => Js.Return []
  | Js.Return a :: rest =>
      match promise_all rest with
      | Js.Return values => Js.Return (a :: values)
      | Js.Throw e => Js.Throw e
      end
  | Js.Throw e :: _ => Js.Throw e
  end.

Definition getConfigForToken (address : PublicKey) : option TokenConfig :=
  match clusterConfig env with
  | None => None
  | Some config =>
      List.find (fun entry => String.eqb (toBase58 address) (mintAddress entry)) config
  end.

Definition tokenInfoUncached (mint : PublicKey) : Js.result Token :=
  mintInfo ← getMintInfo env mint;
  let configForToken := getConfigForToken mint in
  mret (Token.new toString newDecimal mint (mint_decimals mintInfo) (mint_supply mintInfo)
          (mint_mintAuthority mintInfo)
          (tokenName <$> configForToken) (tokenSymbol <$> configForToken)).

(** [secondTokenAccount] of [getAccountsForWallet]. *)
Definition secondTokenAccount (accountResult : PublicKey * Js.value)
    : Js.result (option TokenAccount) :=
  let parsedTokenAccountInfo := TokenAPI.extractParsedTokenAccountInfo accountResult.2 in
  if negb (Js.truthy parsedTokenAccountInfo) then mret None
  else
    mintText ← Js.member parsedTokenAccountInfo "mint";
    mintAddress ← TokenAPI.newPublicKey (rpc env) mintText;
    token ← TokenAPI.tokenInfo (rpc env) mintAddress;
    tokenAmount ← Js.member parsedTokenAccountInfo "tokenAmount";
    amount ← Js.member tokenAmount "amount";
    balance ← TokenAPI.decimalOfBN (rpc env) amount;
    mret (Some (TokenAccount.new toString newDecimal token accountResult.1 balance
                  None None)).

Definition getAccountsForWallet : Js.result (list TokenAccount) :=
  owner ← getWalletPubkey;
  allParsedAccountInfos ← getParsedTokenAccountsByOwner env owner;
  allTokenAccounts ← promise_all (map secondTokenAccount allParsedAccountInfos);
  (* filter(complement(isNil)) *)
  mret (omap id (allTokenAccounts : list (option TokenAccount))).

(** [filter(propEq("mint", token))]: ramda compares two objects that have
    a method [equals] by that method. *)
Definition getAccountsForToken (token : Token) : Js.result (list TokenAccount) :=
  (* the log line reads getWallet().pubkey *)
  _ ← getWalletPubkey;
  allAccounts ← getAccountsForWallet;
  mret (List.filter (fun account => Token.equals token (TokenAccount.mint account))
          allAccounts).

Definition createToken (decimals : option Z) (mintAuthority : option PublicKey)
    : @action event Token :=
  let mintAccount := newAccount env in
  createAccountInstruction ←
    lift (makeNewAccountInstruction env (publicKey mintAccount) Instructions.MintLayout
            (TOKEN_PROGRAM_ID env));
  (* the mint authority (who can create tokens) defaults to the wallet *)
  mintAuthorityKey ←
    lift (match mintAuthority with
          | Some key => Js.Return key
          | None => getWalletPubkey
          end);
  initMintInstruction ←
    built (Instructions.InitMintInstruction (TOKEN_PROGRAM_ID env) (publicKey mintAccount)
             (* decimals || 2 *)
             (match decimals with
              | Some d => if d =? 0 then 2 else d
              | None => 2
              end)
             mintAuthorityKey None);
  transaction ← makeTransaction [createAccountInstruction; initMintInstruction] [mintAccount];
  _ ← sendTransaction transaction;
  lift (TokenAPI.tokenInfo (rpc env) (publicKey mintAccount)).

Definition createAccountForToken (token : Token) (owner : option PublicKey)
    : @action event TokenAccount :=
  (* the log line reads getWallet().pubkey *)
  _ ← lift getWalletPubkey;
  (* ensure the token actually exists before going any further *)
  checkToken ← lift (TokenAPI.tokenInfo (rpc env) (Token.address token));
  (* if no recipient is set, use the wallet *)
  ownerKey ←
    lift (match owner with
          | Some key => Js.Return key
          | None => getWalletPubkey
          end);
  let newAccount := newAccount env in
  createAccountInstruction ←
    lift (makeNewAccountInstruction env (publicKey newAccount) Instructions.AccountLayout
            (TOKEN_PROGRAM_ID env));
  initTokenAccountInstruction ←
    built (Instructions.InitAccountInstruction (TOKEN_PROGRAM_ID env) (Token.address token)
             (publicKey newAccount) ownerKey);
  transaction ←
    makeTransaction [createAccountInstruction; initTokenAccountInstruction] [newAccount];
  _ ← sendTransaction transaction;
  updatedInfo ←
    lift (TokenAPI.tokenAccountInfo toString newDecimal (rpc env) (publicKey newAccount));
  match updatedInfo with
  | Some account => mret account
  | None => lift (Js.Throw (Js.Error "Unable to retrieve the created token account"))
  end.

Definition mintTo (recipient : TokenAccount) (tokenAmount : JsNumber.number)
    : @action event string :=
  let token := TokenAccount.mint recipient in
  (* token.mintAuthority && getWallet().pubkey.equals(token.mintAuthority) *)
  authorised ←
    lift (match Token.mintAuthority token with
          | Some authority =>
              owner ← getWalletPubkey;
              mret (bool_decide (owner = authority))
          | None => Js.Return false
          end);
  _ ← lift (PoolAPI.assert authorised
              ("The current wallet does not have the authority to mint tokens for mint "
                 ++ PoolAPI.Token_toString toBase58 token));
  owner ← lift getWalletPubkey;
  mintToInstruction ←
    built (Instructions.MintToInstruction (TOKEN_PROGRAM_ID env) (Token.address token)
             (TokenAccount.address recipient) owner [] tokenAmount);
  transaction ← makeTransaction [mintToInstruction] [];
  sendTransaction transaction.

Definition approveInstruction (sourceAccount : TokenAccount) (delegate : PublicKey)
    (amount : Decimal) : @action event Instruction :=
  owner ← lift getWalletPubkey;
  amount ← lift (U64.toU64 amount);
  instruction ←
    lift (Instructions.createApproveInstruction (TOKEN_PROGRAM_ID env)
            (TokenAccount.address sourceAccount) delegate owner [] amount);
  built instruction.

Definition airdropToWallet (token : Token) (tokenAmount : JsNumber.number)
    : @action event string :=
  airdropPrivateKey ←
    lift (match airdropKey env with
          | Some key =>
              if String.eqb key "" then
                Js.Throw (Js.Error ("No airdrop key available for " ++ cluster env))
              else Js.Return key
          | None => Js.Throw (Js.Error ("No airdrop key available for " ++ cluster env))
          end);
  airdropAccount ← lift (accountOfKey env airdropPrivateKey);
  tokenAccounts ← lift (getAccountsForToken token);
  (* airdrop SOL so that new accounts can be created *)
  owner ← lift getWalletPubkey;
  _ ← request (RequestAirdrop owner 1000000) (requestAirdrop env owner 1000000);
  (* airdrop SOL to the airdrop key *)
  _ ← request (RequestAirdrop (publicKey airdropAccount) 1000000)
        (requestAirdrop env (publicKey airdropAccount) 1000000);
  recipient ←
    match tokenAccounts with
    | [] => createAccountForToken token None
    | first :: _ => mret first
    end;
  mintToInstruction ←
    built (Instructions.MintToInstruction (TOKEN_PROGRAM_ID env) (Token.address token)
             (TokenAccount.address recipient) (publicKey airdropAccount) [] tokenAmount);
  transaction ← makeTransaction [mintToInstruction] [];
  sendTransactionFromAccount transaction airdropAccount.

Definition approve (sourceAccount : TokenAccount) (delegate : PublicKey)
    (amount : JsNumber.number) : @action event string :=
  instruction ← approveInstruction sourceAccount delegate amount;
  transaction ← makeTransaction [instruction] [];
  sendTransaction transaction.

Record TransferParameters : Type := mkTransferParameters {
    source : TokenAccount;
    destination : TokenAccount;
    amount : Decimal
  }.

Definition transfer (parameters : TransferParameters) : @action event string :=
  amount ← lift (U64.toU64 (amount parameters));
  owner ← lift getWalletPubkey;
  transferInstruction ←
    lift (Instructions.createTransferInstruction (TOKEN_PROGRAM_ID env)
            (TokenAccount.address (source parameters))
            (TokenAccount.address (destination parameters)) owner [] amount);
  _ ← built transferInstruction;
  transaction ← makeTransaction [transferInstruction] [];
  sendTransaction transaction.

End TokenOps.

(** The instructions built and the transactions handed to the wallet for
    its signature, among the events. *)
Definition instructions_built {PublicKey Account : Type}
    (trace : list (@event PublicKey Account))
    : list (@Instructions.Instruction PublicKey Account) :=
  omap (fun e => match e with
                 | Built i => Some i
                 | _ => None
                 end) trace.

Definition transactions_signed {PublicKey Account : Type}
    (trace : list (@event PublicKey Account))
    : list (@WalletAPI.Transaction PublicKey Account
              (@Instructions.Instruction PublicKey Account)) :=
  omap (fun e => match e with
                 | Wallet (WalletAPI.Sign transaction) => Some transaction
                 | _ => None
                 end) trace.

End TokenOps.

(** ** Pool API, the other operations ([api/pool/index.ts])

    The functions of the token API that make tokens and accounts and move
    funds are collaborators here; [approveInstruction], [tokenAccountInfo]
    and [tokenInfoUncached] are the modelled ones. *)
Module PoolOps.
Import Trace.
Section PoolOps.
Context {PublicKey Account : Type} `{EqDecision PublicKey}.
Context (toBase58 : PublicKey -> string) (publicKey : Account -> PublicKey).
Context (pubkey : WalletAPI.Wallet -> PublicKey).
Context (toString : DecimalJs.Decimal -> string) (newDecimal : string -> DecimalJs.Decimal).
Context (DEFAULT_COMMITMENT : string) (postTransactionSleepMS : option Z).

Abbreviation Decimal := DecimalJs.Decimal.
Abbreviation Token := (Token.Token PublicKey Decimal).
Abbreviation TokenAccount := (TokenAccount.TokenAccount PublicKey Decimal).
Abbreviation Pool := (Pool.Pool PublicKey).
Abbreviation Instruction := (@Instructions.Instruction PublicKey Account).
Abbreviation Transaction := (@WalletAPI.Transaction PublicKey Account Instruction).
Abbreviation TransferParameters := (@TokenOps.TransferParameters PublicKey).

Inductive event : Type :=
  | TokenAPI (e : @TokenOps.event PublicKey Account)
  | CreateToken (decimals : option Z) (mintAuthority : option PublicKey)
  | CreateAccountForToken (token : Token) (owner : option PublicKey)
  | Transfer (parameters : TransferParameters).

(** What [TokenSwap.loadTokenSwap] yields, as far as it is used; the fees
    are big integers. *)
Record SwapInfo : Type := mkSwapInfo {
    tokenAccountA : PublicKey;
    tokenAccountB : PublicKey;
    feeAccount : PublicKey;
    poolToken : PublicKey;
    nonce : Z;
    tradeFeeNumerator : Z;
    tradeFeeDenominator : Z
  }.

(** What the API is made with and what it calls: the id of the swap
    program, the token API, the methods of [Pool.ts],
    [TokenSwap.loadTokenSwap], [PublicKey.findProgramAddress] (for one seed),
    the key of the dummy identity validator, and [createToken],
    [createAccountForToken] and [transfer] of the token API. *)
Record Environment : Type := mkEnvironment {
    swapProgramId : PublicKey;
    tokenAPI : @TokenOps.Environment PublicKey Account;
    methods : Pool.Methods PublicKey;
    loadTokenSwap : PublicKey -> Js.result SwapInfo;
    findProgramAddress : PublicKey -> PublicKey -> Js.result (PublicKey * Z);
    dummyIDV : PublicKey;
    createToken : option Z -> option PublicKey -> Js.result Token;
    createAccountForToken : Token -> option PublicKey -> Js.result TokenAccount;
    transfer : TransferParameters -> Js.result string
  }.

Context (env : Environment).

Definition TOKEN_PROGRAM_ID : PublicKey := TokenOps.TOKEN_PROGRAM_ID (tokenAPI env).

(** The token API and the wallet module, as the pool API sees them. *)
Definition via {A : Type} (m : @action (@TokenOps.event PublicKey Account) A)
    : @action event A :=
  (map TokenAPI m.1, m.2).

Definition built (i : Instruction) : @action event Instruction :=
  via (TokenOps.built i).

Definition makeTransaction (instructions : list Instruction) (signers : list Account)
    : @action event Transaction :=
  via (TokenOps.makeTransaction publicKey pubkey (tokenAPI env) instructions signers).

Definition sendTransaction (transaction : Transaction) : @action event string :=
  via (TokenOps.sendTransaction DEFAULT_COMMITMENT postTransactionSleepMS (tokenAPI env)
         transaction).

(** [n.toNumber()] of a big integer. *)
Definition toNumber (n : Z) : Js.result JsNumber.number :=
  if Z.abs n <? 2 ^ 53 then Js.Return (inject_Z n)
  else Js.Throw (Js.Error "Number can only safely store up to 53 bits").

(** [getPool].  The quotient of the two fees is a number; for a
    denominator of 0 it is Infinity or NaN, which the numbers modelled do not
    include. *)
Definition getPool (address : PublicKey) : Js.result Pool :=
  (* load the pool *)
  swapInfo ← loadTokenSwap env address;
  (* load the token account and mint info for tokens A and B *)
  tokenAccountAInfo ←
    TokenAPI.tokenAccountInfo toString newDecimal (TokenOps.rpc (tokenAPI env))
      (tokenAccountA swapInfo);
  tokenAccountBInfo ←
    TokenAPI.tokenAccountInfo toString newDecimal (TokenOps.rpc (tokenAPI env))
      (tokenAccountB swapInfo);
  feeAccountInfo ←
    TokenAPI.tokenAccountInfo toString newDecimal (TokenOps.rpc (tokenAPI env))
      (feeAccount swapInfo);
  (* load the mint info for the pool token *)
  poolTokenInfo ←
    TokenOps.tokenInfoUncached toBase58 toString newDecimal (tokenAPI env)
      (poolToken swapInfo);
  match tokenAccountAInfo, tokenAccountBInfo, feeAccountInfo with
  | Some tokenA, Some tokenB, Some fee =>
      numerator ← toNumber (tradeFeeNumerator swapInfo);
      denominator ← toNumber (tradeFeeDenominator swapInfo);
      let feeRatio := JsNumber.div numerator denominator in
      mret (Pool.mkPool address tokenA tokenB poolTokenInfo fee (swapProgramId env)
              (nonce swapInfo) feeRatio (TokenAccount.lastUpdatedSlot tokenA))
  | _, _, _ => Js.Throw (Js.Error "Error collecting pool data")
  end.

Record PoolCreationParameters : Type := mkPoolCreationParameters {
    donorAccountA : TokenAccount;
    donorAccountB : TokenAccount;
    feeNumerator : JsNumber.number;
    feeDenominator : JsNumber.number;
    tokenAAmount : option JsNumber.number;
    tokenBAmount : option JsNumber.number
  }.

(** [amount || balance]: the amount, unless it is missing or 0. *)
Definition or_balance (amount : option JsNumber.number) (balance : Decimal) : Decimal :=
  match amount with
  | Some n => if Qeq_bool n 0 then balance else n
  | None => balance
  end.

(** [createPool]; [pools] is the list of known pools of the configuration,
    to which the new pool is added. *)
Definition createPool (parameters : PoolCreationParameters) (pools : list string)
    : @action event (Pool * list string) :=
  _ ← lift (PoolAPI.assert
              (negb (TokenAccount.sameToken (donorAccountA parameters)
                       (donorAccountB parameters)))
              "Donor accounts must have different tokens.");
  let tokenSwapAccount := TokenOps.newAccount (tokenAPI env) in
  found ← lift (findProgramAddress env (publicKey tokenSwapAccount) (swapProgramId env));
  let authority := found.1 in
  let nonce := found.2 in
  poolToken ← request (CreateToken (Some 2) (Some authority))
                (createToken env (Some 2) (Some authority));
  poolTokenAccount ← request (CreateAccountForToken poolToken None)
                       (createAccountForToken env poolToken None);
  tokenAAccount ←
    request (CreateAccountForToken (TokenAccount.mint (donorAccountA parameters))
               (Some authority))
      (createAccountForToken env (TokenAccount.mint (donorAccountA parameters))
         (Some authority));
  tokenBAccount ←
    request (CreateAccountForToken (TokenAccount.mint (donorAccountB parameters))
               (Some authority))
      (createAccountForToken env (TokenAccount.mint (donorAccountB parameters))
         (Some authority));
  let aAmountToDonate :=
    or_balance (tokenAAmount parameters) (TokenAccount.balance (donorAccountA parameters)) in
  let tokenAFundParameters :=
    TokenOps.mkTransferParameters (donorAccountA parameters) tokenAAccount aAmountToDonate in
  let bAmountToDonate :=
    or_balance (tokenBAmount parameters) (TokenAccount.balance (donorAccountB parameters)) in
  let tokenBFundParameters :=
    TokenOps.mkTransferParameters (donorAccountB parameters) tokenBAccount bAmountToDonate in
  (* both transfers are started, then awaited together *)
  _ ← ([Transfer tokenAFundParameters; Transfer tokenBFundParameters],
       TokenOps.promise_all
         [transfer env tokenAFundParameters; transfer env tokenBFundParameters]);
  createSwapAccountInstruction ←
    lift (TokenOps.makeNewAccountInstruction (tokenAPI env) (publicKey tokenSwapAccount)
            Instructions.TokenSwapLayout (swapProgramId env));
  let keys :=
    [Instructions.mkAccountMeta (publicKey tokenSwapAccount) false true;
     Instructions.mkAccountMeta authority false false;
     Instructions.mkAccountMeta (TokenAccount.address tokenAAccount) false false;
     Instructions.mkAccountMeta (TokenAccount.address tokenBAccount) false false;
     Instructions.mkAccountMeta (Token.address poolToken) false true;
     (* fee account *)
     Instructions.mkAccountMeta (TokenAccount.address poolTokenAccount) false false;
     (* pool account *)
     Instructions.mkAccountMeta (TokenAccount.address poolTokenAccount) false true;
     Instructions.mkAccountMeta (dummyIDV env) false false;
     Instructions.mkAccountMeta TOKEN_PROGRAM_ID false false] in
  let sourceData :=
    {| Instructions.instruction := 0;
       Instructions.nonce := nonce;
       Instructions.curveType := 0;
       Instructions.tradeFeeNumerator := feeNumerator parameters;
       Instructions.tradeFeeDenominator := feeDenominator parameters;
       Instructions.ownerTradeFeeNumerator := 1;
       Instructions.ownerTradeFeeDenominator := 1000;
       Instructions.ownerWithdrawFeeNumerator := 0;
       Instructions.ownerWithdrawFeeDenominator := 0;
       Instructions.hostFeeNumerator := 0;
       Instructions.hostFeeDenominator := 0 |} in
  initializeSwapInstruction ←
    built (Instructions.InitializeSwapInstruction keys (swapProgramId env) sourceData);
  swapInitializationTransaction ←
    makeTransaction [createSwapAccountInstruction; initializeSwapInstruction]
      [tokenSwapAccount];
  _ ← sendTransaction swapInitializationTransaction;
  createdPool ← lift (getPool (publicKey tokenSwapAccount));
  (* add the pool to the list of known pools *)
  mret (createdPool, pools ++ [toBase58 (Pool.address createdPool)]).

(** A transfer that funds a new pool: out of one of the two donor accounts,
    of the amount given for it or, when none or 0 is given, of the whole
    balance of the account. *)
Definition donation (parameters : PoolCreationParameters) (funding : TransferParameters)
    : Prop :=
  exists donor given,
    ((donor = donorAccountA parameters /\ given = tokenAAmount parameters)
     \/ (donor = donorAccountB parameters /\ given = tokenBAmount parameters))
    /\ TokenOps.source funding = donor
    /\ match given with
       | Some n =>
           if Qeq_bool n 0 then TokenOps.amount funding = TokenAccount.balance donor
           else TokenOps.amount funding = n
       | None => TokenOps.amount funding = TokenAccount.balance donor
       end.

Record WithdrawalParameters : Type := mkWithdrawalParameters {
    withdraw_pool : Pool;
    withdraw_slippage : option Q;
    fromPoolTokenAccount : TokenAccount;
    toAAccount : option TokenAccount;
    toBAccount : option TokenAccount;
    fromPoolTokenAmount : Decimal
  }.

Definition withdraw (parameters : WithdrawalParameters) : @action event string :=
  let pool := withdraw_pool parameters in
  _ ← lift (PoolAPI.assert
              match toAAccount parameters with
              | None => true
              | Some account => TokenAccount.sameToken account (Pool.tokenA pool)
              end
              ("Invalid account for from token A - must be "
                 ++ PoolAPI.Token_toString toBase58 (TokenAccount.mint (Pool.tokenA pool))));
  _ ← lift (PoolAPI.assert
              match toBAccount parameters with
              | None => true
              | Some account => TokenAccount.sameToken account (Pool.tokenB pool)
              end
              ("Invalid account for from token B - must be "
                 ++ PoolAPI.Token_toString toBase58 (TokenAccount.mint (Pool.tokenB pool))));
  _ ← lift (PoolAPI.assert
              (Token.equals (TokenAccount.mint (fromPoolTokenAccount parameters))
                 (Pool.poolToken pool))
              ("Invalid pool token account - must be "
                 ++ PoolAPI.Token_toString toBase58 (Pool.poolToken pool)));
  authority ← lift (Pool.tokenSwapAuthority (methods env) pool);
  (* Calculate the expected amounts for token A, B and pool token *)
  minimumAmounts ←
    lift (Pool.calculateAmountsWithSlippage (methods env) pool
            (fromPoolTokenAmount parameters) Pool.down (withdraw_slippage parameters));
  approveInstruction ←
    via (TokenOps.approveInstruction pubkey (tokenAPI env)
           (fromPoolTokenAccount parameters) authority
           (Pool.poolTokenAmount minimumAmounts));
  toAAccount ←
    match toAAccount parameters with
    | Some account => mret account
    | None =>
        request (CreateAccountForToken (TokenAccount.mint (Pool.tokenA pool)) None)
          (createAccountForToken env (TokenAccount.mint (Pool.tokenA pool)) None)
    end;
  toBAccount ←
    match toBAccount parameters with
    | Some account => mret account
    | None =>
        request (CreateAccountForToken (TokenAccount.mint (Pool.tokenB pool)) None)
          (createAccountForToken env (TokenAccount.mint (Pool.tokenB pool)) None)
    end;
  poolTokenAmount ← lift (U64.toNumberU64 (Pool.poolTokenAmount minimumAmounts));
  minimumTokenA ← lift (U64.toNumberU64 (Pool.tokenAAmount minimumAmounts));
  minimumTokenB ← lift (U64.toNumberU64 (Pool.tokenBAmount minimumAmounts));
  withdrawalInstruction ←
    lift (Instructions.withdrawInstruction (Pool.address pool) authority
            (Token.address (Pool.poolToken pool))
            (TokenAccount.address (Pool.feeAccount pool))
            (TokenAccount.address (fromPoolTokenAccount parameters))
            (TokenAccount.address (Pool.tokenA pool))
            (TokenAccount.address (Pool.tokenB pool))
            (TokenAccount.address toAAccount)
            (TokenAccount.address toBAccount)
            (swapProgramId env) TOKEN_PROGRAM_ID
            poolTokenAmount minimumTokenA minimumTokenB);
  _ ← built withdrawalInstruction;
  transaction ← makeTransaction [approveInstruction; withdrawalInstruction] [];
  sendTransaction transaction.

End PoolOps.

(** The events of the token API among the events. *)
Definition of_tokenAPI {PublicKey Account : Type}
    (trace : list (@event PublicKey Account))
    : list (@TokenOps.event PublicKey Account) :=
  omap (fun e => match e with
                 | TokenAPI e' => Some e'
                 | _ => None
                 end) trace.

End PoolOps.

(** ** Concrete collaborators for the operations of the two APIs *)
Module OpsExamples.

(** Decimals as the texts of whole numbers. *)
Definition toString (x : DecimalJs.Decimal) : string := pretty (Qfloor x).

Definition newDecimal (text : string) : DecimalJs.Decimal :=
  inject_Z (AmountText.reading text).

(** What the node answers for a token account: parsed data, with the mint
    and the balance of the account. *)
Definition parsedTokenAccount (mint amount : string) : Js.value :=
  Js.object
    [("data",
      Js.object
        [("program", Js.str "spl-token");
         ("parsed",
          Js.object
            [("info",
              Js.object
                [("mint", Js.str mint);
                 ("tokenAmount",
                  Js.object [("amount", Js.str amount); ("decimals", Js.num 2)])]);
             ("type", Js.str "account")])]);
     ("owner", Js.str "TokenkegQfeZyiNwAJbNbGKPFXCWuBvf9Ss623VQ5DA")]%string.

(** Lookups on a chain where the account at "new" is not a token account
    (yet), the accounts at "poolB" and "walletB" hold token B and every other
    account holds 150 minor units of token A. *)
Definition rpc : TokenAPI.Collaborators string DecimalJs.Decimal :=
  TokenAPI.mkCollaborators
    (fun account =>
       Js.Return
         (100,
          if String.eqb account "new" then Examples.unparsedAccount []
          else if String.eqb account "poolB" || String.eqb account "walletB"
               then parsedTokenAccount "mintB" "7"
               else parsedTokenAccount "mintA" "150"))
    (fun mint => Js.Return (Examples.mintOf mint 1000000%Q))
    (fun v => match v with
              | Js.str text => Js.Return text
              | _ => Js.Throw (Js.Error "Invalid public key input")
              end)
    (fun v => match v with
              | Js.str text => Js.Return (newDecimal text)
              | _ => Js.Throw (Js.Error "Invalid character")
              end).

Definition chain
    : @WalletAPI.Collaborators string string (@Instructions.Instruction string string) :=
  WalletAPI.mkCollaborators
    (fun w transaction => Js.Return transaction)
    (fun connection => Js.Return "blockhash")
    (fun connection signed preflightCommitment => Js.Return "signature")
    (fun connection transaction signers preflightCommitment => Js.Return "signature")
    (fun connection to lamports => Js.Return "airdrop")
    (fun signature commitment => Js.Return tt).

(** The token API on devnet, with a connected wallet that holds three
    accounts, the second of which the node does not parse. *)
Definition tokenAPI (walletState : WalletAPI.state) : @TokenOps.Environment string string :=
  TokenOps.mkEnvironment "devnet" "TokenkegQfeZyiNwAJbNbGKPFXCWuBvf9Ss623VQ5DA"
    (Some [TokenOps.mkTokenConfig "mintB" "Token B" "TKB";
           TokenOps.mkTokenConfig "mintA" "Token A" "TKA";
           TokenOps.mkTokenConfig "mintA" "Token A again" "TKA2"])
    walletState chain rpc
    (fun mint => Js.Return (TokenOps.mkMintInfo 2 1000000%Q None))
    (fun owner =>
       Js.Return [("walletA", parsedTokenAccount "mintA" "150");
                  ("walletC", Examples.unparsedAccount []);
                  ("walletB", parsedTokenAccount "mintB" "7")])
    (fun newAccount layout programId =>
       Js.Return (Instructions.NewAccountInstruction newAccount layout programId))
    "new" (Some "[1,2,3]") (fun key => Js.Return "airdropAccount")
    (fun to lamports => Js.Return "airdrop").

Definition connected : @TokenOps.Environment string string :=
  tokenAPI StateExamples.connectedState.

(** The pool API over it. *)
Definition poolAPI : @PoolOps.Environment string string :=
  PoolOps.mkEnvironment "swapProgram" connected Examples.methods
    (fun address => Js.Return (PoolOps.mkSwapInfo "poolA" "poolB" "fees" "poolMint" 255 3 1000))
    (fun seed programId => Js.Return ("authority", 255))
    "idv"
    (fun decimals mintAuthority => Js.Return (Examples.mintOf "poolMint" 0%Q))
    (fun token owner => Js.Return (Examples.accountOf (Token.address token) "created" 0%Q))
    (fun parameters => Js.Return "signature").

(** A withdrawal of 100 pool tokens into accounts still to be created. *)
Definition withdrawal : @PoolOps.WithdrawalParameters string :=
  PoolOps.mkWithdrawalParameters Examples.pool (Some 1%Q)
    (Examples.accountOf "poolMint" "walletPool" 400%Q) None None 100%Q.

(** The same for 10 pool tokens: the amounts of token A and token B to
    expect at least, 19.8 and 39.6, are not whole. *)
Definition fractionalWithdrawal : @PoolOps.WithdrawalParameters string :=
  PoolOps.mkWithdrawalParameters Examples.pool (Some 1%Q)
    (Examples.accountOf "poolMint" "walletPool" 400%Q) None None 10%Q.

(** A withdrawal whose target account for token A holds a third token. *)
Definition foreignWithdrawal : @PoolOps.WithdrawalParameters string :=
  PoolOps.mkWithdrawalParameters Examples.pool (Some 1%Q)
    (Examples.accountOf "poolMint" "walletPool" 40%Q)
    (Some (Examples.accountOf "mintC" "walletC" 150%Q)) None 10%Q.

(** A pool to be created from two donor accounts, all of the first and 500
    units of the second. *)
Definition creation : @PoolOps.PoolCreationParameters string :=
  PoolOps.mkPoolCreationParameters
    (Examples.accountOf "mintA" "walletA" 150%Q)
    (Examples.accountOf "mintB" "walletB" 1000%Q)
    3%Q 1000%Q (Some 0%Q) (Some 500%Q).

End OpsExamples.

(** * Properties *)

(** ** decimal.js: what rounding leaves alone *)
Module DecimalJsFacts.
Import DecimalJs.

Lemma log10_aux_spec (fuel : nat) : forall n : Z,
  0 < n -> n < 2 ^ Z.of_nat fuel ->
  0 <= log10_aux fuel n /\ 10 ^ log10_aux fuel n <= n < 10 ^ (log10_aux fuel n + 1).
Proof.
  induction fuel as [|fuel IH]; intros n Hpos Hlt.
  - simpl in Hlt. lia.
  - cbn [log10_aux]. destruct (Z.ltb_spec n 10) as [Hs|Hs].
    + simpl. lia.
    + assert (Hq : 0 < n / 10) by (apply Z.div_str_pos; lia).
      assert (Hf : n / 10 < 2 ^ Z.of_nat fuel).
      { apply Z.div_lt_upper_bound; [lia|].
        rewrite Nat2Z.inj_succ, Z.pow_succ_r in Hlt by lia. lia. }
      destruct (IH _ Hq Hf) as (H0 & Hlo & Hhi).
      split; [lia|].
      replace (1 + log10_aux fuel (n / 10) + 1)
        with (Z.succ (log10_aux fuel (n / 10) + 1)) by lia.
      replace (1 + log10_aux fuel (n / 10)) with (Z.succ (log10_aux fuel (n / 10))) by lia.
      rewrite !Z.pow_succ_r by lia.
      pose proof (Z.div_mod n 10 ltac:(lia)) as Hdm.
      pose proof (Z.mod_pos_bound n 10 ltac:(lia)) as Hmb.
      lia.
Qed.

(** [log10 n] is the number of digits of [n], less one. *)
Lemma log10_spec (n : Z) :
  0 < n -> 0 <= log10 n /\ 10 ^ log10 n <= n < 10 ^ (log10 n + 1).
Proof.
  intros Hpos. unfold log10. apply log10_aux_spec; [done|].
  rewrite Nat2Z.inj_succ, Z2Nat.id by apply Z.log2_nonneg.
  apply Z.log2_spec in Hpos. lia.
Qed.

Lemma pow10_pos (e : Z) : (0 < pow10 e)%Q.
Proof. apply Qpower_0_lt. reflexivity. Qed.

Lemma pow10_add (a b : Z) : (pow10 (a + b) == pow10 a * pow10 b)%Q.
Proof. apply Qpower_plus. discriminate. Qed.

Lemma pow10_inject (e : Z) : 0 <= e -> (pow10 e == inject_Z (10 ^ e))%Q.
Proof. intros He. unfold pow10. now rewrite (Zpower_Qpower 10 e He). Qed.

Lemma pow10_cancel (a : Z) : (pow10 a * pow10 (- a) == 1)%Q.
Proof. rewrite <- pow10_add, Z.add_opp_diag_r. reflexivity. Qed.

Lemma pow10_lt_inv (a b : Z) : (pow10 a < pow10 b)%Q -> a < b.
Proof. intros H. apply (Qpower_lt_compat_l_inv 10 a b H). reflexivity. Qed.

Lemma Qnum_sgn_comp (p q : Q) : (p == q)%Q -> Z.sgn (Qnum p) = Z.sgn (Qnum q).
Proof.
  destruct p as [a b], q as [c d]. unfold Qeq. simpl. intros H. nia.
Qed.

#[export] Instance round_half_up_comp : Proper (Qeq ==> eq) round_half_up.
Proof.
  intros p q Hpq. unfold round_half_up.
  rewrite (Qnum_sgn_comp p q Hpq). f_equal.
  apply Qfloor_comp. now rewrite Hpq.
Qed.

Lemma round_half_up_inject (z : Z) : round_half_up (inject_Z z) = z.
Proof.
  unfold round_half_up, inject_Z, Qabs, Qplus, Qfloor. cbn [Qnum Qden].
  change (Z.pos (1 * 2)) with 2. rewrite Z.mul_1_r.
  replace ((Z.abs z * 2 + 1) / 2) with (Z.abs z).
  - rewrite Z.mul_comm. apply Z.abs_sgn.
  - apply Z.div_unique with (r := 1); lia.
Qed.

Lemma round_half_up_integer (q : Q) (z : Z) :
  (q == inject_Z z)%Q -> round_half_up q = z.
Proof. intros ->. apply round_half_up_inject. Qed.

#[export] Instance toDecimalPlaces_comp (dp : Z) : Proper (Qeq ==> Qeq) (toDecimalPlaces dp).
Proof. intros p q Hpq. unfold toDecimalPlaces. now rewrite Hpq. Qed.

(** A number of at most [dp] decimal places is left as it is. *)
Lemma toDecimalPlaces_exact (dp : Z) (x : Q) (z : Z) :
  (x * pow10 dp == inject_Z z)%Q -> (toDecimalPlaces dp x == x)%Q.
Proof.
  intros H. unfold toDecimalPlaces.
  rewrite (round_half_up_integer _ _ H), <- H, <- Qmult_assoc, pow10_cancel.
  apply Qmult_1_r.
Qed.

Lemma Qabs_frac (q : Q) : (Qabs q * inject_Z (Z.pos (Qden q)) == inject_Z (Z.abs (Qnum q)))%Q.
Proof.
  destruct q as [n d]. unfold Qabs, Qeq, Qmult, inject_Z. simpl. lia.
Qed.

(** [exponent] is the decimal exponent. *)
Lemma exponent_bounds (q : Q) :
  ~ (q == 0)%Q -> (pow10 (exponent q) <= Qabs q < pow10 (exponent q + 1))%Q.
Proof.
  intros Hq.
  assert (Hn : 0 < Z.abs (Qnum q)).
  { destruct q as [n d]. unfold Qeq in Hq. simpl in *. lia. }
  destruct (log10_spec _ Hn) as (Ha0 & Halo & Hahi).
  destruct (log10_spec (Z.pos (Qden q)) ltac:(lia)) as (Hb0 & Hblo & Hbhi).
  set (a := log10 (Z.abs (Qnum q))) in *.
  set (b := log10 (Z.pos (Qden q))) in *.
  pose proof (Qabs_frac q) as Hfrac.
  assert (Hd : (0 < inject_Z (Z.pos (Qden q)))%Q) by (unfold Qlt; simpl; lia).
  unfold exponent. fold a b.
  destruct (Qle_bool (pow10 (a - b)) (Qabs q)) eqn:Hle.
  - split; [now apply Qle_bool_iff|].
    (* |n| < 10^(a+1) and 10^b <= d *)
    apply (Qmult_lt_r _ _ _ Hd). rewrite Hfrac.
    apply Qlt_le_trans with (y := (pow10 (a + 1))).
    + rewrite pow10_inject by lia. rewrite <- Zlt_Qlt. lia.
    + replace (a + 1) with ((a - b + 1) + b) by lia.
      rewrite pow10_add. apply Qmult_le_l; [apply pow10_pos|].
      rewrite pow10_inject by lia. rewrite <- Zle_Qle. lia.
  - assert (Hlt : (Qabs q < pow10 (a - b))%Q).
    { apply Qnot_le_lt. intros H. apply Qle_bool_iff in H. congruence. }
    split.
    + apply (Qmult_le_r _ _ _ Hd). rewrite Hfrac.
      apply Qle_trans with (y := (pow10 a)).
      * replace a with ((a - b - 1) + (b + 1)) at 2 by lia.
        rewrite pow10_add. apply Qmult_le_l; [apply pow10_pos|].
        rewrite pow10_inject by lia. rewrite <- Zle_Qle. lia.
      * rewrite pow10_inject by lia. rewrite <- Zle_Qle. lia.
    + now replace (a - b - 1 + 1) with (a - b) by lia.
Qed.

Lemma exponent_unique (q : Q) (e : Z) :
  (pow10 e <= Qabs q < pow10 (e + 1))%Q -> ~ (q == 0)%Q -> exponent q = e.
Proof.
  intros [Hlo Hhi] Hq. destruct (exponent_bounds q Hq) as [Hlo' Hhi'].
  assert (H1 : exponent q < e + 1).
  { apply pow10_lt_inv. eapply Qle_lt_trans; eassumption. }
  assert (H2 : e < exponent q + 1).
  { apply pow10_lt_inv. eapply Qle_lt_trans; eassumption. }
  lia.
Qed.

#[export] Instance toSD_comp (sd : Z) : Proper (Qeq ==> Qeq) (toSD sd).
Proof.
  intros p q Hpq. unfold toSD.
  destruct (Qeq_bool p 0) eqn:Hp.
  - apply Qeq_bool_iff in Hp.
    assert (Hq0 : Qeq_bool q 0 = true) by (apply Qeq_bool_iff; now rewrite <- Hpq).
    now rewrite Hq0.
  - apply Qeq_bool_neq in Hp.
    assert (Hq : ~ (q == 0)%Q) by (now rewrite <- Hpq).
    destruct (Qeq_bool q 0) eqn:Hq0; [apply Qeq_bool_iff in Hq0; contradiction|].
    assert (He : exponent p = exponent q).
    { apply exponent_unique; [|exact Hp]. rewrite Hpq. now apply exponent_bounds. }
    rewrite He. now rewrite Hpq.
Qed.

(** A number of at most [sd] significant digits is left as it is. *)
Lemma toSD_exact (sd m j : Z) :
  Z.abs m < 10 ^ sd -> 0 <= sd ->
  (toSD sd (inject_Z m * pow10 j) == inject_Z m * pow10 j)%Q.
Proof.
  intros Hm Hsd. unfold toSD.
  set (q := (inject_Z m * pow10 j)%Q).
  destruct (Qeq_bool q 0) eqn:Hq0; [reflexivity|].
  apply Qeq_bool_neq in Hq0.
  destruct (exponent_bounds q Hq0) as [Hlo _].
  assert (He : exponent q < sd + j).
  { apply pow10_lt_inv. eapply Qle_lt_trans; [exact Hlo|].
    unfold q. rewrite Qabs_Qmult, (Qabs_pos (pow10 j)), pow10_add
      by (apply Qlt_le_weak, pow10_pos).
    apply Qmult_lt_r; [apply pow10_pos|].
    rewrite pow10_inject by lia.
    replace (Qabs (inject_Z m)) with (inject_Z (Z.abs m)) by reflexivity.
    now rewrite <- Zlt_Qlt. }
  set (dp := sd - 1 - exponent q) in *.
  apply toDecimalPlaces_exact with (z := m * 10 ^ (j + dp)).
  unfold q. rewrite <- Qmult_assoc, <- pow10_add, inject_Z_mult.
  rewrite (pow10_inject (j + dp)) by lia. reflexivity.
Qed.

#[export] Instance round_comp : Proper (Qeq ==> Qeq) round.
Proof. intros p q Hpq. unfold round. now rewrite Hpq. Qed.

#[export] Instance mul_comp : Proper (Qeq ==> Qeq ==> Qeq) mul.
Proof. intros p q Hpq p' q' Hpq'. unfold mul. now rewrite Hpq, Hpq'. Qed.

#[export] Instance div_comp : Proper (Qeq ==> Qeq ==> Qeq) div.
Proof. intros p q Hpq p' q' Hpq'. unfold div. now rewrite Hpq, Hpq'. Qed.

Lemma div_exact (m j k : Z) :
  Z.abs m < 10 ^ precision ->
  (div (inject_Z m * pow10 j) (pow10 k) == inject_Z m * pow10 (j - k))%Q.
Proof.
  intros Hm. unfold div.
  assert (H : (inject_Z m * pow10 j / pow10 k == inject_Z m * pow10 (j - k))%Q).
  { unfold Qdiv. rewrite <- Qmult_assoc. apply Qmult_comp; [reflexivity|].
    unfold Z.sub. rewrite pow10_add. apply Qmult_comp; [reflexivity|].
    unfold pow10. now rewrite Qpower_opp. }
  rewrite H. apply toSD_exact; [exact Hm | discriminate].
Qed.

Lemma mul_exact (m j k : Z) :
  Z.abs m < 10 ^ precision ->
  (mul (inject_Z m * pow10 j) (pow10 k) == inject_Z m * pow10 (j + k))%Q.
Proof.
  intros Hm. unfold mul.
  rewrite <- Qmult_assoc, <- pow10_add.
  apply toSD_exact; [exact Hm | discriminate].
Qed.

End DecimalJsFacts.

(** ** Amount conversion *)
Module AmountFacts.
Import DecimalJs DecimalJsFacts Amount.

(** C2, as stated, fails: half a minor unit of a token with one decimal
    place is expressible in one decimal place, yet it comes back as one
    whole minor unit ([0.5 / 10 = 0.05] is rounded to [0.1]). *)
Lemma minor_major_minor_fractional :
  ~ (forall (T : Token.Token string Decimal) (x : Decimal),
       0 <= Token.decimals T <= 20 ->
       Examples.expressible_in_places (Token.decimals T) x ->
       (majorAmountToMinor (minorAmountToMajor x T) T == x)%Q).
Proof.
  intros H.
  specialize (H (Examples.token 1 1000) (1 # 2)%Q).
  assert (Hd : 0 <= Token.decimals (Examples.token 1 1000) <= 20) by (simpl; lia).
  assert (He : Examples.expressible_in_places
                 (Token.decimals (Examples.token 1 1000)) (1 # 2)).
  { exists 5. reflexivity. }
  specialize (H Hd He). vm_compute in H. discriminate H.
Qed.

(** C2, amended: a whole number of minor units with at most 20 significant
    digits ([m * 10^j] with [|m| < 10^20], which covers every u64 amount)
    survives the conversion to the major denomination and back, for a token
    whose [decimals] lie in the range where [10 ** decimals] is exact. *)
Theorem minor_major_minor_roundtrip {PublicKey : Type}
    (T : Token.Token PublicKey Decimal) (m j : Z) :
  0 <= Token.decimals T <= 22 ->
  0 <= j ->
  Z.abs m < 10 ^ 20 ->
  (majorAmountToMinor (minorAmountToMajor (inject_Z (m * 10 ^ j)) T) T
   == inject_Z (m * 10 ^ j))%Q.
Proof.
  intros Hd Hj Hm.
  set (d := Token.decimals T).
  assert (Hx : (inject_Z (m * 10 ^ j) == inject_Z m * pow10 j)%Q).
  { rewrite inject_Z_mult. now rewrite pow10_inject. }
  unfold majorAmountToMinor, minorAmountToMajor, toDecimal, JsNumber.pow10. fold d.
  assert (H1 : (div (inject_Z (m * 10 ^ j)) (pow10 d) == inject_Z m * pow10 (j - d))%Q).
  { rewrite Hx. now apply div_exact. }
  assert (H2 : (toDecimalPlaces d (div (inject_Z (m * 10 ^ j)) (pow10 d))
                == inject_Z m * pow10 (j - d))%Q).
  { rewrite H1. apply toDecimalPlaces_exact with (z := m * 10 ^ j).
    rewrite <- Qmult_assoc, <- pow10_add. replace (j - d + d) with j by lia.
    now symmetry. }
  assert (H3 : (mul (toDecimalPlaces d (div (inject_Z (m * 10 ^ j)) (pow10 d))) (pow10 d)
                == inject_Z (m * 10 ^ j))%Q).
  { rewrite H2, mul_exact by exact Hm. replace (j - d + d) with j by lia. now symmetry. }
  unfold round. now rewrite (round_half_up_integer _ _ H3).
Qed.

Lemma minor_major_minor_roundtrip_witness :
  (majorAmountToMinor
     (minorAmountToMajor (inject_Z (18446744073709551615 * 10 ^ 0)) (Examples.token 9 1000))
     (Examples.token 9 1000)
   == inject_Z (18446744073709551615 * 10 ^ 0))%Q.
Proof.
  apply (minor_major_minor_roundtrip (Examples.token 9 1000) 18446744073709551615 0).
  - simpl. lia.
  - lia.
  - reflexivity.
Defined.

End AmountFacts.

(** ** Slippage *)
Module PoolFacts.
Import DecimalJs Pool.

Lemma adjustForSlippage_up (amount : Decimal) (s : Q) :
  adjustForSlippage amount up s = (amount * (1 + s / 100))%Q.
Proof. reflexivity. Qed.

Lemma adjustForSlippage_down (amount : Decimal) (s : Q) :
  adjustForSlippage amount down s = (amount * (1 - s / 100))%Q.
Proof. reflexivity. Qed.

(** A slippage of 0 changes nothing, in either direction. *)
Lemma adjustForSlippage_0 (amount : Decimal) (d : direction) :
  (adjustForSlippage amount d 0 == amount)%Q.
Proof. destruct d; unfold adjustForSlippage; field. Qed.

(** C9, as stated, fails: the ordering is reversed for a negative amount. *)
Lemma adjustForSlippage_negative_amount :
  ~ (forall (amount : Decimal) (s : Q),
       (0 <= s)%Q ->
       (adjustForSlippage amount down s <= amount
        /\ amount <= adjustForSlippage amount up s)%Q).
Proof.
  intros H. destruct (H (- 100)%Q 5%Q) as [Hdown _]; [discriminate|].
  vm_compute in Hdown. apply Hdown. reflexivity.
Qed.

(** C9, amended: for an amount that is not negative and a slippage
    percentage [s >= 0], "up" is [amount * (1 + s/100)], "down" is
    [amount * (1 - s/100)], and "up" >= amount >= "down". *)
Theorem adjustForSlippage_bounds (amount : Decimal) (s : Q) :
  (0 <= amount)%Q -> (0 <= s)%Q ->
  adjustForSlippage amount up s = (amount * (1 + s / 100))%Q
  /\ adjustForSlippage amount down s = (amount * (1 - s / 100))%Q
  /\ (adjustForSlippage amount down s <= amount)%Q
  /\ (amount <= adjustForSlippage amount up s)%Q.
Proof.
  intros Ha Hs. split; [reflexivity|]. split; [reflexivity|].
  assert (Hp : (0 <= amount * (s / 100))%Q).
  { apply Qmult_le_0_compat; [exact Ha|].
    apply Qle_shift_div_l; [reflexivity|]. now rewrite Qmult_0_l. }
  unfold adjustForSlippage. split.
  - assert (E : (amount * (1 - s / 100) == amount - amount * (s / 100))%Q) by ring.
    rewrite E. lra.
  - assert (E : (amount * (1 + s / 100) == amount + amount * (s / 100))%Q) by ring.
    rewrite E. lra.
Qed.

Lemma adjustForSlippage_bounds_witness :
  (0 <= 2000)%Q /\ (0 <= 5)%Q
  /\ (adjustForSlippage 2000 down 5 <= 2000)%Q
  /\ (2000 <= adjustForSlippage 2000 up 5)%Q.
Proof.
  assert (Ha : (0 <= 2000)%Q) by discriminate.
  assert (Hs : (0 <= 5)%Q) by discriminate.
  split; [exact Ha|]. split; [exact Hs|].
  exact (proj2 (proj2 (adjustForSlippage_bounds 2000%Q 5%Q Ha Hs))).
Defined.

End PoolFacts.

(** ** TokenAccount *)
Module TokenAccountFacts.
Import DecimalJs TokenAccount.

(** The zero guard: no supply, proportion 0. *)
Lemma proportionOfTotalSupply_zero_supply {PublicKey : Type}
    (a : TokenAccount PublicKey Decimal) :
  (Token.supply (mint a) == 0)%Q -> proportionOfTotalSupply a = 0%Q.
Proof.
  intros H. unfold proportionOfTotalSupply, DecimalJs.equals.
  apply Qeq_bool_iff in H. now rewrite H.
Qed.

(** C6 at a balance of 1 out of a supply of 64: the value returned is
    [1/64 = 0.015625], which has six decimal places; no multiple of
    [10^-5] equals it. *)
Theorem proportionOfTotalSupply_not_rounded :
  (proportionOfTotalSupply (Examples.account 1 64) == 15625 # 1000000)%Q
  /\ forall n : Z, ~ (proportionOfTotalSupply (Examples.account 1 64) == n # 100000)%Q.
Proof.
  assert (E : (proportionOfTotalSupply (Examples.account 1 64) == 15625 # 1000000)%Q)
    by (vm_compute; reflexivity).
  split; [exact E|].
  intros n H. rewrite E in H. unfold Qeq in H. cbn [Qnum Qden] in H. lia.
Qed.

End TokenAccountFacts.

(** ** Serialization *)
Module SerializationFacts.
Section RoundTrip.
Context {PublicKey Decimal : Type}.
Context (toBase58 : PublicKey -> string) (newPublicKey : string -> PublicKey).
Context (toString : Decimal -> string) (newDecimal : string -> Decimal).

(** What the two libraries guarantee: a key is recovered from its base58
    text, which is never empty, and a decimal from its text. *)
Hypothesis newPublicKey_toBase58 : forall key, newPublicKey (toBase58 key) = key.
Hypothesis toBase58_not_empty : forall key, toBase58 key <> "".
Hypothesis newDecimal_toString : forall x, newDecimal (toString x) = x.

Lemma Token_from_serialize (t : Token.Token PublicKey Decimal) :
  Token.from newPublicKey toString newDecimal (Token.serialize toBase58 toString t) = t.
Proof.
  destruct t as [address decimals supply authority name symbol].
  unfold Token.from, Token.serialize, Token.new, Token.toDecimal, Token.and_newPublicKey.
  cbn. rewrite newPublicKey_toBase58, !newDecimal_toString.
  destruct authority as [key|]; cbn; [|reflexivity].
  destruct (String.eqb_spec (toBase58 key) "") as [E|_].
  - now apply toBase58_not_empty in E.
  - now rewrite newPublicKey_toBase58.
Qed.

(** C8: [TokenAccount.from (a.serialize())] is [a], every link of the
    [previous] chain included. *)
Theorem TokenAccount_from_serialize :
  forall a : TokenAccount.TokenAccount PublicKey Decimal,
    TokenAccount.from newPublicKey toString newDecimal
      (TokenAccount.serialize toBase58 toString a) = a.
Proof.
  fix IH 1. intros [mint address balance slot previous].
  cbn [TokenAccount.serialize TokenAccount.from
       TokenAccount.s_mint TokenAccount.s_address TokenAccount.s_balance
       TokenAccount.s_lastUpdatedSlot TokenAccount.s_previous
       TokenAccount.mint TokenAccount.address TokenAccount.balance
       TokenAccount.lastUpdatedSlot TokenAccount.previous].
  unfold TokenAccount.new, Token.toDecimal.
  rewrite Token_from_serialize, newPublicKey_toBase58, !newDecimal_toString.
  destruct previous as [p|]; [rewrite (IH p)|]; reflexivity.
Qed.

End RoundTrip.

Lemma TokenAccount_from_serialize_witness :
  TokenAccount.from Examples.ofText id id
    (TokenAccount.serialize Examples.toText id Examples.history)
  = Examples.history.
Proof.
  apply (TokenAccount_from_serialize Examples.toText Examples.ofText id id).
  - intros key. reflexivity.
  - intros key. discriminate.
  - intros x. reflexivity.
Defined.

End SerializationFacts.

(** ** The history chain *)
Module OnChainEntityFacts.
Import OnChainEntity.
#[local] Open Scope nat_scope.

Section Objects.
Context {Fields : Type}.
Implicit Types (h : gmap ref (object Fields)) (this entity r : ref).

Lemma alloc_fresh h o : h !! (alloc h o).2 = None.
Proof. apply not_elem_of_dom, is_fresh. Qed.

Lemma alloc_lookup h o r :
  (alloc h o).1 !! r = if decide ((alloc h o).2 = r) then Some o else h !! r.
Proof. unfold alloc. cbn. apply lookup_insert. Qed.

(** The store after one insertion, object by object. *)
Lemma addToHistory_lookup h this entity r :
  this <> entity ->
  addToHistory h this entity !! r
  = if decide (r = this) then with_previous (Some entity) <$> h !! this
    else if decide (r = entity) then with_previous (getPrevious h this) <$> h !! entity
    else h !! r.
Proof.
  intros Hne. unfold addToHistory.
  rewrite lookup_alter. case_decide as E1.
  - subst r. rewrite decide_True by reflexivity.
    now rewrite lookup_alter_ne by (intros E; apply Hne; now symmetry).
  - rewrite decide_False by (intros E; apply E1; now symmetry).
    rewrite lookup_alter. case_decide as E2.
    + subst r. now rewrite decide_True by reflexivity.
    + now rewrite decide_False by (intros E; apply E2; now symmetry).
Qed.

(** One insertion: the old previous of [this] becomes the previous of the
    inserted snapshot, and the snapshot the previous of [this]. *)
Lemma addToHistory_order h this entity :
  this <> entity -> is_Some (h !! this) -> is_Some (h !! entity) ->
  getPrevious (addToHistory h this entity) this = Some entity
  /\ getPrevious (addToHistory h this entity) entity = getPrevious h this.
Proof.
  intros Hne [o Ho] [s Hs]. split.
  - unfold getPrevious at 1. rewrite addToHistory_lookup by exact Hne.
    rewrite decide_True by reflexivity. now rewrite Ho.
  - unfold getPrevious at 1. rewrite addToHistory_lookup by exact Hne.
    rewrite decide_False by (intros E; apply Hne; now symmetry).
    rewrite decide_True by reflexivity. now rewrite Hs.
Qed.

Lemma addToHistory_other h this entity r :
  this <> entity -> r <> this -> r <> entity ->
  addToHistory h this entity !! r = h !! r.
Proof.
  intros Hne H1 H2. rewrite addToHistory_lookup by exact Hne.
  now rewrite !decide_False by assumption.
Qed.

Lemma addToHistory_is_Some h this entity r :
  is_Some (addToHistory h this entity !! r) <-> is_Some (h !! r).
Proof.
  unfold addToHistory. rewrite !lookup_alter.
  repeat case_decide; subst; rewrite ?fmap_is_Some; try reflexivity.
  all: rewrite ?lookup_alter, ?decide_True, ?fmap_is_Some by reflexivity; reflexivity.
Qed.

(** A walk of [n + 1] steps is a walk of [n] steps and one more. *)
Lemma walk_succ_r h (n : nat) this :
  walk h (S n) this = walk h n this ≫= getPrevious h.
Proof.
  revert this. induction n as [|n IH]; intros this.
  - cbn. now destruct (getPrevious h this).
  - change (walk h (S (S n)) this) with (getPrevious h this ≫= walk h (S n)).
    destruct (getPrevious h this) as [p|] eqn:Hp.
    + cbn [mbind option_bind]. rewrite IH.
      change (walk h (S n) this) with (getPrevious h this ≫= walk h n).
      now rewrite Hp.
    + cbn. now rewrite Hp.
Qed.

(** What [k] insertions leave behind. *)
Lemma addAllToHistory_spec h this (snapshots : list ref) :
  NoDup (this :: snapshots) ->
  (forall r, r ∈ this :: snapshots -> is_Some (h !! r)) ->
  let h' := addAllToHistory h this snapshots in
  getPrevious h' this = from_option Some (getPrevious h this) (last snapshots)
  /\ (forall i a b, snapshots !! i = Some a -> snapshots !! S i = Some b ->
        getPrevious h' b = Some a)
  /\ (forall a, head snapshots = Some a -> getPrevious h' a = getPrevious h this)
  /\ (forall r, r <> this -> r ∉ snapshots -> h' !! r = h !! r)
  /\ (forall r, is_Some (h' !! r) <-> is_Some (h !! r)).
Proof.
  induction snapshots as [|s l IH] using rev_ind; intros Hnd Hall h'.
  - subst h'. cbn. repeat split; intros; try done.
  - subst h'. unfold addAllToHistory. rewrite foldl_snoc.
    fold (addAllToHistory h this l). set (h' := addAllToHistory h this l).
    apply NoDup_cons in Hnd as [Hthis Hnd].
    apply NoDup_app in Hnd as (Hndl & Hdisj & _).
    assert (Hs_this : this <> s).
    { intros ->. apply Hthis. apply elem_of_app. right.
      apply list_elem_of_singleton. reflexivity. }
    assert (Hs_l : s ∉ l).
    { intros Hin. apply (Hdisj s Hin). apply list_elem_of_singleton. reflexivity. }
    assert (Hthis_l : this ∉ l).
    { intros Hin. apply Hthis. apply elem_of_app. now left. }
    destruct IH as (P1 & P2 & P3 & P4 & P5).
    { apply NoDup_cons. split; assumption. }
    { intros r Hr. apply Hall.
      apply elem_of_cons in Hr as [->|Hr]; [left|right; apply elem_of_app; now left]. }
    fold h' in P1, P2, P3, P4, P5.
    assert (Hthis_some : is_Some (h' !! this)).
    { apply P5, Hall. left. }
    assert (Hs_some : is_Some (h' !! s)).
    { apply P5, Hall. right. apply elem_of_app. right.
      apply list_elem_of_singleton. reflexivity. }
    destruct (addToHistory_order h' this s Hs_this Hthis_some Hs_some) as [O1 O2].
    assert (Hkeep : forall r, r <> this -> r <> s ->
              getPrevious (addToHistory h' this s) r = getPrevious h' r).
    { intros r H1 H2. unfold getPrevious. now rewrite addToHistory_other. }
    split; [|split; [|split; [|split]]].
    + rewrite O1, last_snoc. reflexivity.
    + intros i a b Ha Hb.
      apply lookup_snoc_Some in Hb as [[Hlt Hb]|[Hlen ->]].
      * assert (Hb_in : b ∈ l) by (eapply list_elem_of_lookup_2; eassumption).
        rewrite Hkeep by (intros ->; contradiction).
        rewrite lookup_app_l in Ha by lia. eapply P2; eassumption.
      * rewrite O2, P1.
        rewrite lookup_app_l in Ha by lia.
        rewrite last_lookup. replace (pred (length l)) with i by lia.
        now rewrite Ha.
    + intros a Ha. destruct l as [|x l'].
      * cbn in Ha. injection Ha as <-. rewrite O2. subst h'. reflexivity.
      * cbn in Ha. injection Ha as <-.
        rewrite Hkeep.
        -- apply P3. reflexivity.
        -- intros ->. apply Hthis_l. left.
        -- intros ->. apply Hs_l. left.
    + intros r H1 H2. rewrite addToHistory_other.
      * apply P4; [assumption|]. intros Hin. apply H2, elem_of_app. now left.
      * exact Hs_this.
      * exact H1.
      * intros ->. apply H2, elem_of_app. right. apply list_elem_of_singleton. reflexivity.
    + intros r. rewrite addToHistory_is_Some. apply P5.
Qed.

(** Read as walks from the entity. *)
Lemma addAllToHistory_walk h this (snapshots : list ref) :
  NoDup (this :: snapshots) ->
  (forall r, r ∈ this :: snapshots -> is_Some (h !! r)) ->
  let h' := addAllToHistory h this snapshots in
  (forall i s, reverse snapshots !! i = Some s -> walk h' (S i) this = Some s)
  /\ walk h' (S (length snapshots)) this = getPrevious h this.
Proof.
  intros Hnd Hall h'.
  destruct (addAllToHistory_spec h this snapshots Hnd Hall) as (P1 & P2 & P3 & _ & _).
  fold h' in P1, P2, P3.
  assert (Hwalk : forall i s, reverse snapshots !! i = Some s -> walk h' (S i) this = Some s).
  { induction i as [|i IH]; intros s Hs.
    - cbn. rewrite P1. rewrite <- head_lookup, head_reverse in Hs. now rewrite Hs.
    - apply reverse_lookup_Some in Hs as [Hs Hlt].
      destruct (lookup_lt_is_Some_2 (reverse snapshots) i) as [b Hb].
      { rewrite length_reverse. lia. }
      rewrite walk_succ_r, (IH b Hb). cbn.
      apply reverse_lookup_Some in Hb as [Hb _].
      apply (P2 (length snapshots - S (S i))); [exact Hs|].
      now replace (S (length snapshots - S (S i))) with (length snapshots - S i) by lia. }
  split; [exact Hwalk|].
  rewrite walk_succ_r.
  destruct (length snapshots) as [|n] eqn:Hlen.
  - apply length_zero_iff_nil in Hlen. subst snapshots. cbn. exact P1.
  - destruct (lookup_lt_is_Some_2 (reverse snapshots) n) as [b Hb].
    { rewrite length_reverse. lia. }
    rewrite (Hwalk _ _ Hb). cbn.
    apply P3. apply reverse_lookup_Some in Hb as [Hb _].
    rewrite head_lookup. now replace (length snapshots - S n) with 0 in Hb by lia.
Qed.

End Objects.

End OnChainEntityFacts.

(** ** Updates of tracked pools and token accounts *)
Module UpdateFacts.
Import OnChainEntity OnChainEntityFacts.
#[local] Open Scope nat_scope.

Section Update.
Context {PublicKey Fields : Type} (address : Fields -> PublicKey).
Implicit Types (h : gmap ref (object Fields)) (pool r : ref).

(** What one [updatePool] does to the store when the fetch succeeds: two
    fresh objects, the head it returns and the copy it inserts, and a new
    previous for the tracked pool; nothing else changes. *)
Lemma updatePool_spec (getPool : PublicKey -> Js.result (Fields * option Z))
    h pool (this : object Fields) (fetched : Fields * option Z) :
  h !! pool = Some this ->
  getPool (address (fields this)) = Js.Return fetched ->
  exists h' head copy,
    PoolAPI.updatePool address getPool h pool = Js.Return (h', head)
    /\ h !! head = None /\ h !! copy = None
    /\ head <> copy /\ head <> pool /\ copy <> pool
    /\ h' !! head
       = Some (mkObject fetched.1 fetched.2 (Some (default pool (getPrevious h pool))))
    /\ h' !! copy = Some (mkObject fetched.1 fetched.2 (getPrevious h pool))
    /\ h' !! pool = Some (with_previous (Some copy) this)
    /\ (forall r, r <> head -> r <> copy -> r <> pool -> h' !! r = h !! r).
Proof.
  intros Hpool Hfetch.
  set (o := mkObject fetched.1 fetched.2 None).
  set (head := (alloc h o).2). set (h1 := (alloc h o).1).
  assert (Hhead : h !! head = None) by apply alloc_fresh.
  assert (Hhp : head <> pool) by (intros E; rewrite E in Hhead; congruence).
  assert (H1 : forall r, h1 !! r = if decide (head = r) then Some o else h !! r)
    by (intros r; apply alloc_lookup).
  assert (Hprev1 : getPrevious h1 pool = getPrevious h pool).
  { unfold getPrevious. now rewrite H1, decide_False. }
  set (prev := default pool (getPrevious h pool)).
  set (h2 := setPrevious h1 head prev).
  set (oU := mkObject fetched.1 fetched.2 (Some prev)).
  assert (H2 : forall r, h2 !! r = if decide (head = r) then Some oU else h !! r).
  { intros r. unfold h2, setPrevious. rewrite lookup_alter.
    case_decide as E; rewrite H1.
    - now rewrite decide_True by reflexivity.
    - now rewrite decide_False by exact E. }
  set (copy := (alloc h2 oU).2). set (h3 := (alloc h2 oU).1).
  assert (Hcopy2 : h2 !! copy = None) by apply alloc_fresh.
  assert (Hhc : head <> copy).
  { intros E. rewrite H2, decide_True in Hcopy2 by exact E. discriminate. }
  assert (Hcopy : h !! copy = None).
  { rewrite H2, decide_False in Hcopy2 by exact Hhc. exact Hcopy2. }
  assert (Hcp : copy <> pool) by (intros E; rewrite E in Hcopy; congruence).
  assert (H3 : forall r, h3 !! r = if decide (copy = r) then Some oU else h2 !! r)
    by (intros r; apply alloc_lookup).
  assert (Hprev3 : getPrevious h3 pool = getPrevious h pool).
  { unfold getPrevious. now rewrite H3, decide_False, H2, decide_False. }
  exists (addToHistory h3 pool copy), head, copy.
  assert (Hpc : pool <> copy) by (intros E; now apply Hcp).
  split; [|repeat split; try assumption].
  - unfold PoolAPI.updatePool. rewrite Hpool.
    unfold mbind, result_bind. rewrite Hfetch. cbn [Js.bind].
    change (alloc h (mkObject fetched.1 fetched.2 None)) with (h1, head).
    lazy beta iota zeta. rewrite Hprev1. fold prev. fold h2.
    unfold clone. rewrite H2, decide_True by reflexivity.
    cbn [fmap option_fmap option_map].
    change (alloc h2 oU) with (h3, copy). reflexivity.
  - rewrite addToHistory_other by (try assumption; now intros E; apply Hhc).
    now rewrite H3, decide_False, H2, decide_True by (try reflexivity; intros E; now apply Hhc).
  - rewrite addToHistory_lookup by exact Hpc.
    rewrite decide_False by exact Hcp. rewrite decide_True by reflexivity.
    rewrite H3, decide_True by reflexivity. rewrite Hprev3. reflexivity.
  - rewrite addToHistory_lookup by exact Hpc. rewrite decide_True by reflexivity.
    rewrite H3, decide_False, H2, decide_False, Hpool by assumption. reflexivity.
  - intros r Hr1 Hr2 Hr3. rewrite addToHistory_other by assumption.
    rewrite H3, decide_False, H2, decide_False; [reflexivity|..];
      intros E; [now apply Hr1 | now apply Hr2].
Qed.

(** An object nobody refers to is not met on any walk that starts
    elsewhere. *)
Lemma walk_avoids h pool (head : ref) :
  pool <> head ->
  (forall r o, h !! r = Some o -> previous o <> Some head) ->
  forall n o, walk h n pool = Some o -> o <> head.
Proof.
  intros Hne Hnobody. induction n as [|n IH]; intros o Hwalk.
  - cbn in Hwalk. now injection Hwalk as <-.
  - rewrite walk_succ_r in Hwalk.
    destruct (walk h n pool) as [q|]; [|discriminate]. cbn in Hwalk.
    unfold getPrevious in Hwalk.
    destruct (h !! q) as [oq|] eqn:Hq; [|discriminate]. cbn in Hwalk.
    intros ->. exact (Hnobody q oq Hq Hwalk).
Qed.

(** [updatePool] keeps the store closed, and nothing in the store refers to
    the head it returns. *)
Lemma updatePool_closed (getPool : PublicKey -> Js.result (Fields * option Z))
    h pool (this : object Fields) (fetched : Fields * option Z) :
  closed h ->
  h !! pool = Some this ->
  getPool (address (fields this)) = Js.Return fetched ->
  exists h' head,
    PoolAPI.updatePool address getPool h pool = Js.Return (h', head)
    /\ closed h'
    /\ (forall r o, h' !! r = Some o -> previous o <> Some head).
Proof.
  intros Hclosed Hpool Hfetch.
  destruct (updatePool_spec getPool h pool this fetched Hpool Hfetch)
    as (h' & head & copy & Hupd & Hhead & Hcopy & Hhc & Hhp & Hcp & Lh & Lc & Lp & Lo).
  exists h', head. split; [exact Hupd|].
  assert (Hold : forall p, getPrevious h pool = Some p -> is_Some (h !! p)).
  { intros p Hp. unfold getPrevious in Hp. rewrite Hpool in Hp. cbn in Hp.
    exact (Hclosed pool this Hpool p Hp). }
  assert (Hlook : forall r o, h' !! r = Some o ->
            (r = head /\ previous o = Some (default pool (getPrevious h pool)))
            \/ (r = copy /\ previous o = getPrevious h pool)
            \/ (r = pool /\ previous o = Some copy)
            \/ (h !! r = Some o)).
  { intros r o Hr.
    destruct (decide (r = head)) as [->|N1].
    { left. rewrite Lh in Hr. injection Hr as <-. now split. }
    destruct (decide (r = copy)) as [->|N2].
    { right. left. rewrite Lc in Hr. injection Hr as <-. now split. }
    destruct (decide (r = pool)) as [->|N3].
    { right. right. left. rewrite Lp in Hr. injection Hr as <-. now split. }
    right. right. right. now rewrite <- (Lo r N1 N2 N3). }
  assert (Hgrow : forall p, is_Some (h !! p) -> is_Some (h' !! p)).
  { intros p Hp.
    destruct (decide (p = pool)) as [->|N3]; [rewrite Lp; eauto|].
    rewrite Lo; [exact Hp| | |exact N3].
    - intros ->. rewrite Hhead in Hp. now destruct Hp.
    - intros ->. rewrite Hcopy in Hp. now destruct Hp. }
  assert (Hdef : is_Some (h !! default pool (getPrevious h pool))).
  { destruct (getPrevious h pool) as [p|] eqn:Hp; cbn; [now apply Hold|].
    rewrite Hpool. eauto. }
  split.
  - intros r o Hr p Hprev.
    destruct (Hlook r o Hr) as [[-> E]|[[-> E]|[[-> E]|Hin]]].
    + rewrite E in Hprev. injection Hprev as <-. now apply Hgrow.
    + rewrite E in Hprev. now apply Hgrow, Hold.
    + rewrite E in Hprev. injection Hprev as <-. rewrite Lc. eauto.
    + apply Hgrow. exact (Hclosed r o Hin p Hprev).
  - intros r o Hr Hprev.
    destruct (Hlook r o Hr) as [[-> E]|[[-> E]|[[-> E]|Hin]]].
    + rewrite E in Hprev. injection Hprev as E'.
      rewrite E' in Hdef. rewrite Hhead in Hdef. now destruct Hdef.
    + rewrite E in Hprev. apply Hold in Hprev. rewrite Hhead in Hprev. now destruct Hprev.
    + rewrite E in Hprev. injection Hprev as E'. now apply Hhc.
    + pose proof (Hclosed r o Hin head Hprev) as Hs. rewrite Hhead in Hs. now destruct Hs.
Qed.

(** What [updateTokenAccountInfo] does when the account is found: one
    fresh object whose previous is the tracked account; nothing else
    changes. *)
Lemma updateTokenAccountInfo_spec
    (tokenAccountInfo : PublicKey -> Js.result (option (Fields * option Z)))
    h (tokenAccount : ref) (this : object Fields) (fetched : Fields * option Z) :
  h !! tokenAccount = Some this ->
  tokenAccountInfo (address (fields this)) = Js.Return (Some fetched) ->
  exists h' head,
    TokenAPI.updateTokenAccountInfo address tokenAccountInfo h tokenAccount
    = Js.Return (h', Some head)
    /\ h !! head = None
    /\ h' !! head = Some (mkObject fetched.1 fetched.2 (Some tokenAccount))
    /\ (forall r, r <> head -> h' !! r = h !! r).
Proof.
  intros Hta Hfetch. destruct fetched as [f slot].
  set (o := mkObject f slot None).
  set (head := (alloc h o).2). set (h1 := (alloc h o).1).
  assert (Hhead : h !! head = None) by apply alloc_fresh.
  assert (H1 : forall r, h1 !! r = if decide (head = r) then Some o else h !! r)
    by (intros r; apply alloc_lookup).
  exists (setPrevious h1 head tokenAccount), head.
  split; [|split; [exact Hhead|split]].
  - unfold TokenAPI.updateTokenAccountInfo. rewrite Hta.
    unfold mbind, result_bind. rewrite Hfetch. cbn [Js.bind].
    change (alloc h (mkObject f slot None)) with (h1, head). reflexivity.
  - unfold setPrevious. rewrite lookup_alter_eq, H1, decide_True by reflexivity.
    reflexivity.
  - intros r Hr. unfold setPrevious.
    rewrite lookup_alter_ne by (intros E; now apply Hr).
    rewrite H1, decide_False; [reflexivity|]. intros E; now apply Hr.
Qed.

(** No token account at the address: [null], and the store as it was. *)
Lemma updateTokenAccountInfo_null
    (tokenAccountInfo : PublicKey -> Js.result (option (Fields * option Z)))
    h (tokenAccount : ref) (this : object Fields) :
  h !! tokenAccount = Some this ->
  tokenAccountInfo (address (fields this)) = Js.Return None ->
  TokenAPI.updateTokenAccountInfo address tokenAccountInfo h tokenAccount
  = Js.Return (h, None).
Proof.
  intros Hta Hfetch. unfold TokenAPI.updateTokenAccountInfo. rewrite Hta.
  unfold mbind, result_bind. now rewrite Hfetch.
Qed.

(** One more update keeps the invariant. *)
Lemma updated_step (getPool : PublicKey -> Js.result (Fields * option Z))
    h pool this h' heads copies (fetched : Fields * option Z) :
  PoolAPI.updated h pool this h' heads copies ->
  getPool (address (fields this)) = Js.Return fetched ->
  exists h'' head copy,
    PoolAPI.updatePool address getPool h' pool = Js.Return (h'', head)
    /\ PoolAPI.updated h pool this h'' (head :: heads) (copy :: copies)
    /\ head <> copy
    /\ h'' !! head
       = Some (mkObject fetched.1 fetched.2 (Some (default pool (getPrevious h' pool))))
    /\ h'' !! copy = Some (mkObject fetched.1 fetched.2 (getPrevious h' pool))
    /\ (forall x, is_Some (h' !! x) -> x <> pool -> h'' !! x = h' !! x).
Proof.
  intros [Hclosed (this' & Hpool & Hfields) Hfirst Hnext Hlast Hunref Hheads Hcopies Hlen]
    Hfetch.
  rewrite <- Hfields in Hfetch.
  destruct (updatePool_spec getPool h' pool this' fetched Hpool Hfetch)
    as (h'' & head & copy & Hupd & Hhead & Hcopy & Hhc & Hhp & Hcp & Lh & Lc & Lp & Lo).
  destruct (updatePool_closed getPool h' pool this' fetched Hclosed Hpool Hfetch)
    as (h2 & head2 & Hupd2 & Hclosed2 & Hnobody).
  rewrite Hupd in Hupd2. injection Hupd2 as <- <-.
  exists h'', head, copy. split; [exact Hupd|].
  assert (Hold : forall x, is_Some (h' !! x) -> x <> pool -> h'' !! x = h' !! x).
  { intros x Hx Hxp. apply Lo; [| |exact Hxp].
    - intros ->. rewrite Hhead in Hx. now destruct Hx.
    - intros ->. rewrite Hcopy in Hx. now destruct Hx. }
  assert (Hpp : forall p, getPrevious h' pool = Some p -> p ∉ heads).
  { intros p Hp Hin. unfold getPrevious in Hp. rewrite Hpool in Hp. cbn in Hp.
    exact (Hunref pool this' Hpool p Hin Hp). }
  split; [|split; [exact Hhc|split; [exact Lh|split; [exact Lc|exact Hold]]]].
  split.
  - exact Hclosed2.
  - exists (with_previous (Some copy) this'). split; [exact Lp|exact Hfields].
  - unfold getPrevious. rewrite Lp. reflexivity.
  - intros i a b Ha Hb. destruct i as [|i].
    + cbn in Ha. injection Ha as <-.
      change (copies !! 0 = Some b) in Hb.
      unfold getPrevious at 1. rewrite Lc.
      change (getPrevious h' pool = Some b). rewrite Hfirst.
      rewrite <- head_lookup in Hb. now rewrite Hb.
    + change (copies !! i = Some a) in Ha. change (copies !! S i = Some b) in Hb.
      destruct (Hcopies a (list_elem_of_lookup_2 _ _ _ Ha)) as [Hsome Hne].
      unfold getPrevious at 1. rewrite (Hold a Hsome Hne).
      exact (Hnext i a b Ha Hb).
  - intros a Ha. destruct copies as [|c0 cs].
    + cbn in Ha. injection Ha as <-.
      unfold getPrevious at 1. rewrite Lc.
      change (getPrevious h' pool = getPrevious h pool). exact Hfirst.
    + rewrite last_cons_cons in Ha.
      assert (Hin : a ∈ c0 :: cs).
      { rewrite last_lookup in Ha. eapply list_elem_of_lookup_2. exact Ha. }
      destruct (Hcopies a Hin) as [Hsome Hne].
      unfold getPrevious at 1. rewrite (Hold a Hsome Hne). now apply Hlast.
  - intros r o Hr x Hx. apply elem_of_cons in Hx as [->|Hx]; [now apply (Hnobody r o)|].
    destruct (Hheads x Hx) as [Hxsome Hxp].
    destruct (decide (r = head)) as [->|N1].
    { rewrite Lh in Hr. injection Hr as <-.
      change (Some (default pool (getPrevious h' pool)) <> Some x). intros [= E].
      destruct (getPrevious h' pool) as [p|] eqn:Hp; cbn in E.
      - subst p. now apply (Hpp x).
      - now apply Hxp. }
    destruct (decide (r = copy)) as [->|N2].
    { rewrite Lc in Hr. injection Hr as <-.
      change (getPrevious h' pool <> Some x). intros E. now apply (Hpp x). }
    destruct (decide (r = pool)) as [->|N3].
    { rewrite Lp in Hr. injection Hr as <-. cbn. intros [= ->].
      rewrite Hcopy in Hxsome. now destruct Hxsome. }
    rewrite (Lo r N1 N2 N3) in Hr. now apply (Hunref r o Hr).
  - intros x Hx. apply elem_of_cons in Hx as [->|Hx].
    + split; [rewrite Lh; eauto|exact Hhp].
    + destruct (Hheads x Hx) as [Hsome Hne]. split; [|exact Hne].
      now rewrite (Hold x Hsome Hne).
  - intros x Hx. apply elem_of_cons in Hx as [->|Hx].
    + split; [rewrite Lc; eauto|exact Hcp].
    + destruct (Hcopies x Hx) as [Hsome Hne]. split; [|exact Hne].
      now rewrite (Hold x Hsome Hne).
  - cbn. now rewrite Hlen.
Qed.

(** [k] updates whose fetches succeed all return, and the invariant holds
    of what they leave behind. *)
Lemma updatePoolTimes_updated
    (getPool : nat -> PublicKey -> Js.result (Fields * option Z))
    (k : nat) h pool (this : object Fields) :
  closed h ->
  h !! pool = Some this ->
  (forall i, i < k -> exists fetched, getPool i (address (fields this)) = Js.Return fetched) ->
  exists h' heads copies,
    PoolAPI.updatePoolTimes address getPool k h pool = Js.Return (h', heads)
    /\ PoolAPI.updated h pool this h' heads copies
    /\ length heads = k
    /\ PoolAPI.fetched_by address getPool k this h' heads copies.
Proof.
  intros Hclosed Hpool. induction k as [|k IH]; intros Hfetch.
  - exists h, [], []. split; [reflexivity|]. split; [|split; [reflexivity|]].
    + split.
      * exact Hclosed.
      * exists this. now split.
      * reflexivity.
      * intros i a b Ha. discriminate Ha.
      * intros a Ha. discriminate Ha.
      * intros r o _ x Hx. now apply elem_of_nil in Hx.
      * intros x Hx. now apply elem_of_nil in Hx.
      * intros x Hx. now apply elem_of_nil in Hx.
      * reflexivity.
    + intros i head copy Hhead. discriminate Hhead.
  - destruct IH as (h' & heads & copies & Hrun & Hupdated & Hlen & Hfetched).
    { intros i Hi. apply Hfetch. lia. }
    destruct (Hfetch k ltac:(lia)) as [fetched Hk].
    destruct (updated_step (getPool k) h pool this h' heads copies fetched Hupdated Hk)
      as (h'' & head & copy & Hupd & Hupdated' & Hhc & Lh & Lc & Hold).
    exists h'', (head :: heads), (copy :: copies).
    split; [|split; [exact Hupdated'|split; [cbn; now rewrite Hlen|]]].
    + cbn [PoolAPI.updatePoolTimes]. unfold mbind, result_bind.
      rewrite Hrun. cbn [Js.bind fst snd]. rewrite Hupd. reflexivity.
    + intros [|i] head' copy' Hhead Hcopy.
      * cbn in Hhead, Hcopy. injection Hhead as <-. injection Hcopy as <-.
        split; [exact Hhc|].
        replace (S k - 1) with k by lia.
        eexists fetched, _, _. split; [exact Hk|].
        split; [exact Lh|]. split; [exact Lc|]. cbn. auto.
      * change (heads !! i = Some head') in Hhead.
        change (copies !! i = Some copy') in Hcopy.
        destruct (Hfetched i head' copy' Hhead Hcopy)
          as (Hne & fetched' & oh & oc & Hi & Hoh & Hoc & Hfields).
        split; [exact Hne|].
        destruct Hupdated as [_ _ _ _ _ _ Hheads Hcopies _].
        destruct (Hheads head' (list_elem_of_lookup_2 _ _ _ Hhead)) as [Hsome Hnp].
        destruct (Hcopies copy' (list_elem_of_lookup_2 _ _ _ Hcopy)) as [Hsome' Hnp'].
        exists fetched', oh, oc.
        change (S k - S (S i)) with (k - S i). split; [exact Hi|].
        rewrite (Hold head' Hsome Hnp), (Hold copy' Hsome' Hnp'). auto.
Qed.

(** After [k] updates whose fetches succeed, the [k] copies lie on the chain
    of the tracked pool newest first, the previous the pool had before
    follows them, no head handed to a caller is on the chain, and head and
    copy of each update show the pool that update fetched. *)
Theorem updatePoolTimes_history
    (getPool : nat -> PublicKey -> Js.result (Fields * option Z))
    (k : nat) h pool (this : object Fields) :
  closed h ->
  h !! pool = Some this ->
  (forall i, i < k -> exists fetched, getPool i (address (fields this)) = Js.Return fetched) ->
  exists h' heads copies,
    PoolAPI.updatePoolTimes address getPool k h pool = Js.Return (h', heads)
    /\ length heads = k /\ length copies = k
    /\ (forall i copy, copies !! i = Some copy -> walk h' (S i) pool = Some copy)
    /\ walk h' (S k) pool = getPrevious h pool
    /\ (forall n o, walk h' n pool = Some o -> o ∉ heads)
    /\ PoolAPI.fetched_by address getPool k this h' heads copies.
Proof.
  intros Hclosed Hpool Hfetch.
  destruct (updatePoolTimes_updated getPool k h pool this Hclosed Hpool Hfetch)
    as (h' & heads & copies & Hrun & Hupdated & Hlen & Hfetched).
  destruct Hupdated as [_ _ Hfirst Hnext Hlast Hunref Hheads _ Hlens].
  exists h', heads, copies.
  assert (Hwalk : forall i copy, copies !! i = Some copy -> walk h' (S i) pool = Some copy).
  { induction i as [|i IHi]; intros copy Hcopy.
    - change (getPrevious h' pool ≫= walk h' 0 = Some copy).
      rewrite Hfirst, head_lookup, Hcopy. reflexivity.
    - destruct (lookup_lt_is_Some_2 copies i) as [a Ha].
      { apply lookup_lt_Some in Hcopy. lia. }
      rewrite walk_succ_r, (IHi a Ha). exact (Hnext i a copy Ha Hcopy). }
  split; [exact Hrun|]. split; [exact Hlen|]. split; [lia|]. split; [exact Hwalk|].
  split; [|split; [|exact Hfetched]].
  - rewrite walk_succ_r. destruct k as [|k].
    + assert (copies = []) as -> by (apply length_zero_iff_nil; lia).
      cbn. exact Hfirst.
    + destruct (lookup_lt_is_Some_2 copies k) as [a Ha]; [lia|].
      rewrite (Hwalk k a Ha). cbn. apply Hlast.
      rewrite last_lookup. now replace (pred (length copies)) with k by lia.
  - intros n o Hn Hin. destruct (Hheads o Hin) as [_ Hne].
    refine (walk_avoids h' pool o _ _ n o Hn eq_refl).
    + intros E. now apply Hne.
    + intros r obj Hr. exact (Hunref r obj Hr o Hin).
Qed.

(** C1, amended.  When the fetch succeeds, [updatePool] returns the newly
    built pool, a fresh object whose previous is the previous of the tracked
    pool (or the tracked pool itself when it has none), and the tracked pool
    gets as its previous a copy of the new pool, a different object with the
    same fields, which inherits the tracked pool's old previous.
    [updateTokenAccountInfo] returns the newly built account, a fresh object
    whose previous is the tracked account, and changes no existing object. *)
Theorem update_returns_new_snapshot
    (getPool : PublicKey -> Js.result (Fields * option Z))
    (tokenAccountInfo : PublicKey -> Js.result (option (Fields * option Z)))
    h (tracked : ref) (this : object Fields) (fetched : Fields * option Z) :
  h !! tracked = Some this ->
  getPool (address (fields this)) = Js.Return fetched ->
  tokenAccountInfo (address (fields this)) = Js.Return (Some fetched) ->
  (exists h' head copy,
     PoolAPI.updatePool address getPool h tracked = Js.Return (h', head)
     /\ h !! head = None
     /\ h' !! head
        = Some (mkObject fetched.1 fetched.2 (Some (default tracked (getPrevious h tracked))))
     /\ getPrevious h' tracked = Some copy
     /\ copy <> head
     /\ h !! copy = None
     /\ h' !! copy = Some (mkObject fetched.1 fetched.2 (getPrevious h tracked)))
  /\ (exists h' head,
        TokenAPI.updateTokenAccountInfo address tokenAccountInfo h tracked
        = Js.Return (h', Some head)
        /\ h !! head = None
        /\ h' !! head = Some (mkObject fetched.1 fetched.2 (Some tracked))
        /\ (forall r, r <> head -> h' !! r = h !! r)).
Proof.
  intros Hthis Hpool Hacc. split.
  - destruct (updatePool_spec getPool h tracked this fetched Hthis Hpool)
      as (h' & head & copy & Hupd & Hhead & Hcopy & Hhc & _ & _ & Lh & Lc & Lp & _).
    exists h', head, copy. repeat split; try assumption.
    + unfold getPrevious. now rewrite Lp.
    + intros E. now apply Hhc.
  - exact (updateTokenAccountInfo_spec tokenAccountInfo h tracked this fetched Hthis Hacc).
Qed.

(** C4, amended.  After [addToHistory] of [k] snapshots on an entity, the
    snapshots follow the entity newest first: [i + 1] steps along
    [previous] reach the snapshot inserted [i]-th from last, so [k] steps
    reach the first one inserted, and [k + 1] steps reach what was the
    previous of the entity before the insertions (nothing, when it had
    none).  Each insertion hands the old previous of the entity to the
    inserted snapshot and makes the snapshot the previous of the entity.  So
    it is for a tracked pool updated [k] times by [updatePool], where the
    snapshot each update inserts is a copy of the pool that update fetched:
    another object than the head the update returns, with the same fields
    and ledger position; and none of the heads that [updatePool] returned is
    met on any walk from the tracked pool. *)
Theorem history_chain
    (getPool : nat -> PublicKey -> Js.result (Fields * option Z))
    (k : nat) h (this : ref) (snapshots : list ref) (obj : object Fields) :
  NoDup (this :: snapshots) ->
  (forall r, r ∈ this :: snapshots -> is_Some (h !! r)) ->
  closed h ->
  h !! this = Some obj ->
  (forall i, i < k -> exists fetched, getPool i (address (fields obj)) = Js.Return fetched) ->
  let h' := addAllToHistory h this snapshots in
  (forall i s, reverse snapshots !! i = Some s -> walk h' (S i) this = Some s)
  /\ walk h' (S (length snapshots)) this = getPrevious h this
  /\ (forall s, s ∈ snapshots ->
        getPrevious (addToHistory h this s) this = Some s
        /\ getPrevious (addToHistory h this s) s = getPrevious h this)
  /\ (exists h'' heads copies,
        PoolAPI.updatePoolTimes address getPool k h this = Js.Return (h'', heads)
        /\ length heads = k /\ length copies = k
        /\ (forall i copy, copies !! i = Some copy -> walk h'' (S i) this = Some copy)
        /\ walk h'' (S k) this = getPrevious h this
        /\ (forall n o, walk h'' n this = Some o -> o ∉ heads)
        /\ PoolAPI.fetched_by address getPool k obj h'' heads copies).
Proof.
  intros Hnd Hall Hclosed Hthis Hfetch h'.
  destruct (addAllToHistory_walk h this snapshots Hnd Hall) as [Hwalk Hlast].
  split; [exact Hwalk|]. split; [exact Hlast|]. split.
  - intros s Hs. apply addToHistory_order.
    + apply NoDup_cons in Hnd as [Hnotin _]. intros ->. contradiction.
    + rewrite Hthis. eauto.
    + apply Hall. now right.
  - exact (updatePoolTimes_history getPool k h this obj Hclosed Hthis Hfetch).
Qed.

End Update.

Lemma longerStore_closed : closed Examples.longerStore.
Proof.
  intros r o Hr p Hp. unfold Examples.longerStore, Examples.store in *.
  repeat (apply lookup_insert_Some in Hr as [[<- <-]|[_ Hr]]);
    try (rewrite lookup_empty in Hr; discriminate Hr);
    cbn in Hp; try discriminate Hp.
  injection Hp as <-. vm_compute. eauto.
Qed.

(** C1, as stated, fails for token accounts: after
    [updateTokenAccountInfo], [getPrevious()] of the tracked account is what
    it was before, not the newly fetched snapshot. *)
Lemma updateTokenAccountInfo_keeps_original :
  ~ (forall (h : gmap ref (object (string * Z))) (tokenAccount : ref)
            (this : object (string * Z)) (fetched : (string * Z) * option Z)
            (tokenAccountInfo : string -> Js.result (option ((string * Z) * option Z))),
       h !! tokenAccount = Some this ->
       tokenAccountInfo (fields this).1 = Js.Return (Some fetched) ->
       exists h' head shown o,
         TokenAPI.updateTokenAccountInfo fst tokenAccountInfo h tokenAccount
         = Js.Return (h', Some head)
         /\ getPrevious h' tokenAccount = Some shown
         /\ h' !! shown = Some o
         /\ fields o = fetched.1).
Proof.
  intros H.
  destruct (H Examples.store 1%positive
              (mkObject ("pool", 1000%Z) (Some 10%Z) (Some 3%positive))
              Examples.fetched Examples.tokenAccountInfo eq_refl eq_refl)
    as (h' & head & shown & o & Hupd & Hprev & Hshown & Hfields).
  destruct (updateTokenAccountInfo_spec (Fields := string * Z) fst
              Examples.tokenAccountInfo Examples.store
              1%positive _ Examples.fetched eq_refl eq_refl)
    as (h'' & head' & Hupd' & Hfresh & _ & Hsame).
  rewrite Hupd' in Hupd. injection Hupd as <- <-.
  assert (N1 : 1%positive <> head') by (intros <-; discriminate Hfresh).
  assert (N3 : 3%positive <> head') by (intros <-; discriminate Hfresh).
  unfold getPrevious in Hprev. rewrite (Hsame _ N1) in Hprev.
  vm_compute in Hprev. injection Hprev as <-.
  rewrite (Hsame _ N3) in Hshown. vm_compute in Hshown.
  injection Hshown as <-. discriminate Hfields.
Qed.

Lemma update_returns_new_snapshot_witness :
  exists h' head,
    TokenAPI.updateTokenAccountInfo fst Examples.tokenAccountInfo Examples.store 1%positive
    = Js.Return (h', Some head)
    /\ Examples.store !! head = None
    /\ h' !! head
       = Some (mkObject Examples.fetched.1 Examples.fetched.2 (Some 1%positive))
    /\ (forall r, r <> head -> h' !! r = Examples.store !! r).
Proof.
  refine (proj2 (update_returns_new_snapshot fst Examples.getPool Examples.tokenAccountInfo
                   Examples.store 1%positive
                   (mkObject ("pool", 1000%Z) (Some 10%Z) (Some 3%positive))
                   Examples.fetched _ _ _)); reflexivity.
Defined.

(** C4, as stated, fails: after one insertion, one step along [previous]
    reaches the inserted snapshot, an object that was not on the chain of the
    entity before. *)
Lemma first_step_reaches_inserted_snapshot :
  ~ (forall (h : gmap ref (object (string * Z))) (this : ref) (snapshots : list ref),
       NoDup (this :: snapshots) ->
       (forall r, r ∈ this :: snapshots -> is_Some (h !! r)) ->
       exists o m,
         walk (addAllToHistory h this snapshots) (length snapshots) this = Some o
         /\ walk h m this = Some o).
Proof.
  intros H.
  destruct (H Examples.store 1%positive [2%positive]) as (o & m & Hk & Hm).
  - apply (bool_decide_unpack _). vm_compute. reflexivity.
  - intros r Hr. apply elem_of_cons in Hr as [->|Hr]; [vm_compute; eauto|].
    apply list_elem_of_singleton in Hr as ->. vm_compute. eauto.
  - vm_compute in Hk. injection Hk as <-.
    destruct m as [|[|[|m]]]; vm_compute in Hm; discriminate Hm.
Qed.

Lemma history_chain_witness :
  (walk (addAllToHistory Examples.longerStore 1%positive [2%positive; 4%positive]) 1
     1%positive = Some 4%positive
   /\ walk (addAllToHistory Examples.longerStore 1%positive [2%positive; 4%positive]) 2
        1%positive = Some 2%positive
   /\ walk (addAllToHistory Examples.longerStore 1%positive [2%positive; 4%positive]) 3
        1%positive = Some 3%positive)
  /\ exists h'' head1 head0 copy1 copy0 o1 o0,
       PoolAPI.updatePoolTimes fst Examples.getPoolAt 2 Examples.longerStore 1%positive
       = Js.Return (h'', [head1; head0])
       /\ walk h'' 1 1%positive = Some copy1
       /\ walk h'' 2 1%positive = Some copy0
       /\ walk h'' 3 1%positive = Some 3%positive
       /\ head1 <> copy1 /\ head0 <> copy0
       /\ h'' !! copy1 = Some o1 /\ fields o1 = ("pool", 1501%Z)
       /\ h'' !! copy0 = Some o0 /\ fields o0 = ("pool", 1500%Z).
Proof.
  assert (Hnd : NoDup (1%positive :: [2%positive; 4%positive]))
    by (apply (bool_decide_unpack _); vm_compute; reflexivity).
  assert (Hall : forall r, r ∈ 1%positive :: [2%positive; 4%positive] ->
                   is_Some (Examples.longerStore !! r)).
  { intros r Hr. repeat (apply elem_of_cons in Hr as [->|Hr]; [vm_compute; eauto|]).
    now apply elem_of_nil in Hr. }
  assert (Hfetch : forall i, i < 2 ->
            exists fetched, Examples.getPoolAt i ("pool", 1000%Z).1 = Js.Return fetched)
    by (intros i _; eexists; reflexivity).
  pose proof (history_chain (Fields := string * Z) fst Examples.getPoolAt 2
                Examples.longerStore 1%positive [2%positive; 4%positive]
                (mkObject ("pool", 1000%Z) (Some 10%Z) (Some 3%positive))
                Hnd Hall longerStore_closed eq_refl Hfetch) as H.
  cbv zeta in H.
  destruct H as (Hwalk & Hlast & _ & h'' & heads & copies & Hrun & Hlh & Hlc & Hcw & Hold
                 & _ & Hfetched).
  split.
  - split; [exact (Hwalk 0 4%positive eq_refl)|].
    split; [exact (Hwalk 1 2%positive eq_refl)|].
    transitivity (getPrevious Examples.longerStore 1%positive); [exact Hlast|].
    vm_compute. reflexivity.
  - destruct heads as [|head1 [|head0 [|]]]; try discriminate Hlh.
    destruct copies as [|copy1 [|copy0 [|]]]; try discriminate Hlc.
    destruct (Hfetched 0 head1 copy1 eq_refl eq_refl)
      as (Hne1 & fetched1 & oh1 & o1 & Hget1 & _ & Ho1 & _ & _ & Hf1 & _).
    destruct (Hfetched 1 head0 copy0 eq_refl eq_refl)
      as (Hne0 & fetched0 & oh0 & o0 & Hget0 & _ & Ho0 & _ & _ & Hf0 & _).
    cbn in Hget1, Hget0. injection Hget1 as <-. injection Hget0 as <-.
    exists h'', head1, head0, copy1, copy0, o1, o0.
    split; [exact Hrun|].
    split; [exact (Hcw 0 copy1 eq_refl)|].
    split; [exact (Hcw 1 copy0 eq_refl)|].
    split.
    { transitivity (getPrevious Examples.longerStore 1%positive); [exact Hold|].
      vm_compute. reflexivity. }
    auto 10.
Defined.

End UpdateFacts.

(** ** Token API *)
Module TokenAPIFacts.
Import TokenAPI.
Section TokenAccountInfo.
Context {PublicKey Decimal : Type}.
Context (toString : Decimal -> string) (newDecimal : string -> Decimal).

(** No parsed info, no token account: the answer is [null]. *)
Lemma tokenAccountInfo_null (c : Collaborators PublicKey Decimal)
    (account : PublicKey) (slot : Z) (value : Js.value) :
  getParsedAccountInfo c account = Js.Return (slot, value) ->
  Js.truthy (extractParsedTokenAccountInfo value) = false ->
  tokenAccountInfo toString newDecimal c account = Js.Return None.
Proof.
  intros Hget Hfalsy. unfold tokenAccountInfo, mbind, result_bind.
  rewrite Hget. cbn [Js.bind snd]. now rewrite Hfalsy.
Qed.

(** That is the case when the account does not exist and when its data
    comes back as a Buffer. *)
Lemma tokenAccountInfo_unparsed (c : Collaborators PublicKey Decimal)
    (account : PublicKey) (slot : Z) (bytes : list Z) :
  getParsedAccountInfo c account = Js.Return (slot, Examples.unparsedAccount bytes)
  \/ getParsedAccountInfo c account = Js.Return (slot, Js.null) ->
  tokenAccountInfo toString newDecimal c account = Js.Return None.
Proof.
  intros [H|H]; apply (tokenAccountInfo_null c account slot _ H); reflexivity.
Qed.

(** C7 at the address of an SPL mint.  The node parses the account, so
    there is parsed info, but none of a token account: whatever the
    collaborators answer, [tokenAccountInfo] throws (at the latest when it
    reads [amount] of the missing [tokenAmount]) and never yields [null]. *)
Theorem tokenAccountInfo_parsed_mint_throws
    (tokenInfo : PublicKey -> Js.result (Token.Token PublicKey Decimal))
    (newPublicKey : Js.value -> Js.result PublicKey)
    (decimalOfBN : Js.value -> Js.result Decimal)
    (account : PublicKey) (slot : Z) :
  exists e,
    tokenAccountInfo toString newDecimal
      (mkCollaborators (fun _ => Js.Return (slot, Examples.parsedMint))
         tokenInfo newPublicKey decimalOfBN)
      account
    = Js.Throw e.
Proof.
  unfold tokenAccountInfo, mbind, result_bind. cbn.
  destruct (newPublicKey Js.undefined) as [key|e]; cbn; [|eauto].
  destruct (tokenInfo key) as [token|e]; cbn; eauto.
Qed.

End TokenAccountInfo.
End TokenAPIFacts.

(** ** Amounts of 64 bits *)
Module U64Facts.
Import U64.

(** The text of a number reads as an integer exactly when the number is
    one, below [10^21] in magnitude. *)
Lemma integerOfText_returns (number : Q) (value : Z) :
  integerOfText number = Js.Return value <->
  (number == inject_Z value)%Q /\ Z.abs value < 10 ^ 21.
Proof.
  unfold integerOfText. split.
  - destruct (Qeq_bool number (inject_Z (Qfloor number))) eqn:E; cbn [andb];
      [|discriminate].
    destruct (Z.abs (Qfloor number) <? 10 ^ 21) eqn:L; [|discriminate].
    intros [= <-]. split; [now apply Qeq_bool_iff|now apply Z.ltb_lt].
  - intros [Heq Hlt].
    assert (Hfloor : Qfloor number = value).
    { rewrite Heq. apply Qfloor_Z. }
    rewrite Hfloor.
    assert (E : Qeq_bool number (inject_Z value) = true) by now apply Qeq_bool_iff.
    apply Z.ltb_lt in Hlt. now rewrite E, Hlt.
Qed.

Lemma integerOfText_throws (number : Q) :
  (forall value, ~ (number == inject_Z value)%Q) ->
  integerOfText number = Js.Throw (Js.Error "Invalid character").
Proof.
  intros Hnot. unfold integerOfText.
  destruct (Qeq_bool number (inject_Z (Qfloor number))) eqn:E; [|reflexivity].
  apply Qeq_bool_iff in E. now destruct (Hnot (Qfloor number)).
Qed.

Lemma toU64_returns (number : Q) (amount : u64) :
  toU64 number = Js.Return amount ->
  (number == inject_Z (u64_value amount))%Q /\ Z.abs (u64_value amount) < 10 ^ 21.
Proof.
  unfold toU64, mbind, result_bind.
  destruct (integerOfText number) as [value|e] eqn:E; cbn; [|discriminate].
  intros [= <-]. now apply integerOfText_returns.
Qed.

Lemma toNumberU64_returns (number : Q) (amount : Numberu64) :
  toNumberU64 number = Js.Return amount ->
  (number == inject_Z (Numberu64_value amount))%Q
  /\ Z.abs (Numberu64_value amount) < 10 ^ 21.
Proof.
  unfold toNumberU64, mbind, result_bind.
  destruct (integerOfText number) as [value|e] eqn:E; cbn; [|discriminate].
  intros [= <-]. now apply integerOfText_returns.
Qed.

(** Both readings of the same number give the same integer. *)
Lemma toU64_toNumberU64 (number : Q) (a : u64) (b : Numberu64) :
  toU64 number = Js.Return a -> toNumberU64 number = Js.Return b ->
  b = mkNumberu64 (u64_value a).
Proof.
  unfold toU64, toNumberU64, mbind, result_bind.
  destruct (integerOfText number) as [value|e]; cbn; [|discriminate].
  now intros [= <-] [= <-].
Qed.

End U64Facts.

(** ** Pool API *)
Module PoolAPIFacts.
Import DecimalJs PoolAPI.

Section API.
Context {PublicKey : Type} `{EqDecision PublicKey}.
Context (toBase58 : PublicKey -> string).
Context (methods : Pool.Methods PublicKey) (c : @Collaborators PublicKey).
#[local] Abbreviation action := (@PoolAPI.action PublicKey).
#[local] Abbreviation event := (@PoolAPI.event PublicKey).
#[local] Abbreviation SwapParameters := (@PoolAPI.SwapParameters PublicKey).
#[local] Abbreviation DepositParameters := (@PoolAPI.DepositParameters PublicKey).
#[local] Abbreviation TransactionInstruction := (@PoolAPI.TransactionInstruction PublicKey).

Lemma bind_lift {A B : Type} (r : Js.result A) (k : A -> action B) :
  (lift r ≫= k) = match r with Js.Return a => k a | Js.Throw e => ([], Js.Throw e) end.
Proof.
  destruct r as [a|e]; [|reflexivity].
  unfold mbind, action_bind, lift. now destruct (k a).
Qed.

Lemma sameToken_spec (a b : TokenAccount.TokenAccount PublicKey Decimal) :
  TokenAccount.sameToken a b = true
  <-> Token.address (TokenAccount.mint a) = Token.address (TokenAccount.mint b).
Proof. unfold TokenAccount.sameToken, Token.equals. apply bool_decide_eq_true. Qed.

(** [validateSwapParameters] accepts exactly the parameters that match one
    of the two orders of the pool's tokens. *)
Lemma validateSwapParameters_spec (parameters : SwapParameters) :
  let pool := swap_pool parameters in
  (matches_pair parameters (Pool.tokenA pool) (Pool.tokenB pool)
   \/ matches_pair parameters (Pool.tokenB pool) (Pool.tokenA pool) ->
   validateSwapParameters toBase58 parameters = Js.Return tt)
  /\ (~ matches_pair parameters (Pool.tokenA pool) (Pool.tokenB pool) ->
      ~ matches_pair parameters (Pool.tokenB pool) (Pool.tokenA pool) ->
      exists message,
        validateSwapParameters toBase58 parameters = Js.Throw (Js.AssertionError message)).
Proof.
  intros pool.
  assert (Hbetween : forall t1 t2,
    TokenAccount.sameToken (fromAccount parameters) t1
    && match toAccount parameters with
       | None => true
       | Some to => TokenAccount.sameToken to t2
       end = true <-> matches_pair parameters t1 t2).
  { intros t1 t2. unfold matches_pair. rewrite andb_true_iff, sameToken_spec.
    destruct (toAccount parameters) as [to|].
    - rewrite sameToken_spec. split.
      + intros [H1 H2]. split; [exact H1|]. now intros ? [= <-].
      + intros [H1 H2]. split; [exact H1|]. now apply H2.
    - split.
      + intros [H1 _]. split; [exact H1|]. intros to Hto. discriminate Hto.
      + intros [H1 _]. split; [exact H1|reflexivity]. }
  unfold validateSwapParameters. fold pool. split.
  - intros Hm. unfold assert.
    destruct Hm as [Hm|Hm]; apply Hbetween in Hm; rewrite Hm;
      rewrite ?orb_true_l, ?orb_true_r; reflexivity.
  - intros N1 N2.
    assert (E1 : TokenAccount.sameToken (fromAccount parameters) (Pool.tokenA pool)
                 && match toAccount parameters with
                    | None => true
                    | Some to => TokenAccount.sameToken to (Pool.tokenB pool)
                    end = false).
    { apply not_true_is_false. intros E. now apply N1, Hbetween. }
    assert (E2 : TokenAccount.sameToken (fromAccount parameters) (Pool.tokenB pool)
                 && match toAccount parameters with
                    | None => true
                    | Some to => TokenAccount.sameToken to (Pool.tokenA pool)
                    end = false).
    { apply not_true_is_false. intros E. now apply N2, Hbetween. }
    rewrite E1, E2. cbn. eauto.
Qed.

(** C5: when the accounts of the parameters match neither
    [(pool.tokenA, pool.tokenB)] nor [(pool.tokenB, pool.tokenA)] by mint,
    [swap] throws the assertion error of [validateSwapParameters] and leaves
    no trace: no instruction was built, no request made to the chain. *)
Theorem swap_rejects_foreign_accounts (parameters : SwapParameters) :
  let pool := swap_pool parameters in
  ~ matches_pair parameters (Pool.tokenA pool) (Pool.tokenB pool) ->
  ~ matches_pair parameters (Pool.tokenB pool) (Pool.tokenA pool) ->
  exists message,
    swap toBase58 methods c parameters = ([], Js.Throw (Js.AssertionError message)).
Proof.
  intros pool N1 N2.
  destruct (proj2 (validateSwapParameters_spec parameters) N1 N2) as [message Hv].
  exists message. unfold swap. rewrite bind_lift, Hv. reflexivity.
Qed.

(** The trace and the result of a sequence. *)
Lemma bind_run {A B : Type} (m : action A) (k : A -> action B) :
  (m ≫= k)
  = match m.2 with
    | Js.Return a => (m.1 ++ (k a).1, (k a).2)
    | Js.Throw e => (m.1, Js.Throw e)
    end.
Proof.
  destruct m as [t [a|e]]; [|reflexivity].
  unfold mbind, action_bind. cbn. now destruct (k a).
Qed.

Lemma builds_only_bind {A B : Type} (P : TransactionInstruction -> Prop)
    (m : action A) (k : A -> action B) :
  builds_only P m ->
  (forall a, m.2 = Js.Return a -> builds_only P (k a)) ->
  builds_only P (m ≫= k).
Proof.
  intros Hm Hk i. rewrite bind_run. destruct m.2 as [a|e] eqn:E; cbn.
  - rewrite elem_of_app. intros [Hi|Hi]; [now apply Hm|now apply (Hk a)].
  - apply Hm.
Qed.

Lemma builds_only_lift {A : Type} (P : TransactionInstruction -> Prop) (r : Js.result A) :
  builds_only P (lift r).
Proof. intros i Hi. cbn in Hi. now apply elem_of_nil in Hi. Qed.

Lemma builds_only_mret {A : Type} (P : TransactionInstruction -> Prop) (a : A) :
  builds_only P (mret a : action A).
Proof. intros i Hi. cbn in Hi. now apply elem_of_nil in Hi. Qed.

Lemma builds_only_request {A : Type} (P : TransactionInstruction -> Prop)
    (e : event) (r : Js.result A) :
  (forall i, e = Built i -> P i) -> builds_only P (request e r).
Proof.
  intros He i Hi. cbn in Hi. apply list_elem_of_singleton in Hi. now apply He.
Qed.

(** A step that builds nothing and asks nothing of the chain. *)
Ltac quiet_step := apply builds_only_bind; [apply builds_only_lift|].

(** What a sequence that returns went through. *)
Lemma action_bind_returns {A B : Type} (m : action A) (k : A -> action B) (b : B) :
  (m ≫= k).2 = Js.Return b ->
  exists a, m.2 = Js.Return a /\ (k a).2 = Js.Return b /\ (m ≫= k).1 = m.1 ++ (k a).1.
Proof.
  rewrite bind_run. destruct m.2 as [a|e]; cbn; [|discriminate].
  intros Hb. exists a. auto.
Qed.

(** The instructions the libraries hand back. *)
Lemma createApproveInstruction_returns (programId account delegate owner : PublicKey)
    (amount : U64.u64) (i : TransactionInstruction) :
  SPLToken_createApproveInstruction programId account delegate owner amount = Js.Return i ->
  i = ApproveInstruction programId account delegate owner amount.
Proof.
  unfold SPLToken_createApproveInstruction, mbind, result_bind.
  destruct (U64.u64_toBuffer amount); cbn; [|discriminate]. now intros [= <-].
Qed.

Lemma swapInstruction_returns
    (tokenSwap authority userSource poolSource poolDestination userDestination
       poolMint feeAccount identity swapProgramId tokenProgramId : PublicKey)
    (amountIn : JsNumber.number) (minimumAmountOut : U64.Numberu64)
    (i : TransactionInstruction) :
  TokenSwap_swapInstruction tokenSwap authority userSource poolSource poolDestination
    userDestination poolMint feeAccount identity swapProgramId tokenProgramId
    amountIn minimumAmountOut = Js.Return i ->
  i = SwapInstruction tokenSwap authority userSource poolSource poolDestination
        userDestination poolMint feeAccount identity swapProgramId tokenProgramId
        amountIn minimumAmountOut.
Proof.
  unfold TokenSwap_swapInstruction, mbind, result_bind.
  destruct (U64.Numberu64_toBuffer minimumAmountOut); cbn; [|discriminate].
  now intros [= <-].
Qed.

Lemma depositInstruction_returns
    (tokenSwap authority sourceA sourceB intoA intoB poolToken poolAccount
       swapProgramId tokenProgramId : PublicKey)
    (poolTokenAmount maximumTokenA maximumTokenB : U64.Numberu64)
    (i : TransactionInstruction) :
  TokenSwap_depositInstruction tokenSwap authority sourceA sourceB intoA intoB poolToken
    poolAccount swapProgramId tokenProgramId poolTokenAmount maximumTokenA maximumTokenB
  = Js.Return i ->
  i = DepositInstruction tokenSwap authority sourceA sourceB intoA intoB poolToken
        poolAccount swapProgramId tokenProgramId poolTokenAmount maximumTokenA
        maximumTokenB.
Proof.
  unfold TokenSwap_depositInstruction, mbind, result_bind.
  destruct (U64.Numberu64_toBuffer poolTokenAmount); cbn; [|discriminate].
  destruct (U64.Numberu64_toBuffer maximumTokenA); cbn; [|discriminate].
  destruct (U64.Numberu64_toBuffer maximumTokenB); cbn; [|discriminate].
  now intros [= <-].
Qed.

(** An approval that was built: by a connected wallet, for the whole amount
    the text of [amount] reads as. *)
Lemma approveInstruction_returns
    (sourceAccount : TokenAccount.TokenAccount PublicKey Decimal) (delegate : PublicKey)
    (amount : Decimal) (instruction : TransactionInstruction) :
  (approveInstruction c sourceAccount delegate amount).2 = Js.Return instruction ->
  exists owner value,
    wallet c = Some owner
    /\ U64.toU64 amount = Js.Return value
    /\ instruction
       = ApproveInstruction (TOKEN_PROGRAM_ID c) (TokenAccount.address sourceAccount)
           delegate owner value
    /\ (approveInstruction c sourceAccount delegate amount).1 = [Built instruction].
Proof.
  unfold approveInstruction. intros Hrun.
  apply action_bind_returns in Hrun as (owner & Eowner & Hrun & T1).
  apply action_bind_returns in Hrun as (value & Evalue & Hrun & T2).
  apply action_bind_returns in Hrun as (i & Ei & Hrun & T3).
  cbn in Eowner, Evalue, Ei, Hrun. injection Hrun as <-.
  apply createApproveInstruction_returns in Ei as ->.
  exists owner, value.
  split; [unfold getWallet in Eowner; destruct (wallet c); congruence|].
  split; [exact Evalue|]. split; [reflexivity|].
  rewrite T1, T2, T3. reflexivity.
Qed.

(** A swap instruction that was built. *)
Lemma createSwapTransactionInstruction_returns (parameters : RequiredSwapParameters)
    (instruction : TransactionInstruction) :
  (createSwapTransactionInstruction methods c parameters).2 = Js.Return instruction ->
  let pool := r_pool parameters in
  let isReverse := isReverseSwap pool (r_fromAccount parameters) in
  exists amount authority minimum,
    Pool.calculateAmountInOtherToken methods pool
      (TokenAccount.mint (r_fromAccount parameters)) (r_fromAmount parameters) true
    = Js.Return amount
    /\ Pool.tokenSwapAuthority methods pool = Js.Return authority
    /\ U64.toNumberU64 (Pool.adjustForSlippage amount Pool.down (r_slippage parameters))
       = Js.Return minimum
    /\ instruction
       = SwapInstruction (Pool.address pool) authority
           (TokenAccount.address (r_fromAccount parameters))
           (TokenAccount.address (if isReverse then Pool.tokenB pool else Pool.tokenA pool))
           (TokenAccount.address (if isReverse then Pool.tokenA pool else Pool.tokenB pool))
           (TokenAccount.address (r_toAccount parameters))
           (Token.address (Pool.poolToken pool))
           (TokenAccount.address (Pool.feeAccount pool))
           (r_identity parameters) (swapProgramId c) (TOKEN_PROGRAM_ID c)
           (r_fromAmount parameters) minimum
    /\ (createSwapTransactionInstruction methods c parameters).1 = [Built instruction].
Proof.
  intros Hrun. cbv zeta. unfold createSwapTransactionInstruction in Hrun |- *.
  apply action_bind_returns in Hrun as (amount & Eamount & Hrun & T1).
  apply action_bind_returns in Hrun as (authority & Eauthority & Hrun & T2).
  apply action_bind_returns in Hrun as (minimum & Eminimum & Hrun & T3).
  apply action_bind_returns in Hrun as (i & Ei & Hrun & T4).
  cbn in Eamount, Eauthority, Eminimum, Ei, Hrun. injection Hrun as <-.
  apply swapInstruction_returns in Ei as ->.
  exists amount, authority, minimum.
  split; [exact Eamount|]. split; [exact Eauthority|]. split; [exact Eminimum|].
  split; [reflexivity|].
  rewrite T1, T2, T3, T4. reflexivity.
Qed.

(** A transaction that was made: by a connected wallet, for the blockhash
    the chain gave. *)
Lemma pool_makeTransaction_returns (instructions : list TransactionInstruction)
    (transaction : Transaction) :
  (makeTransaction c instructions).2 = Js.Return transaction ->
  exists blockhash,
    getRecentBlockhash c = Js.Return blockhash
    /\ transaction = mkTransaction blockhash instructions
    /\ (makeTransaction c instructions).1 = [GetRecentBlockhash].
Proof.
  unfold makeTransaction. intros Hrun.
  apply action_bind_returns in Hrun as ([] & _ & Hrun & T1).
  apply action_bind_returns in Hrun as (blockhash & Eblockhash & Hrun & T2).
  cbn in Eblockhash, Hrun. injection Hrun as <-.
  exists blockhash. split; [exact Eblockhash|]. split; [reflexivity|].
  rewrite T1, T2. reflexivity.
Qed.

(** A [swap] that returns, step by step. *)
Lemma swap_returns (parameters : SwapParameters) (signature : string) :
  (swap toBase58 methods c parameters).2 = Js.Return signature ->
  let pool := swap_pool parameters in
  let isReverse := isReverseSwap pool (fromAccount parameters) in
  let toToken :=
    if TokenAccount.sameToken (fromAccount parameters) (Pool.tokenB pool)
    then TokenAccount.mint (Pool.tokenA pool) else TokenAccount.mint (Pool.tokenB pool) in
  exists to authority owner value amount minimum blockhash,
    let approve :=
      ApproveInstruction (TOKEN_PROGRAM_ID c)
        (TokenAccount.address (fromAccount parameters)) authority owner value in
    let swapInstruction :=
      SwapInstruction (Pool.address pool) authority
        (TokenAccount.address (fromAccount parameters))
        (TokenAccount.address (if isReverse then Pool.tokenB pool else Pool.tokenA pool))
        (TokenAccount.address (if isReverse then Pool.tokenA pool else Pool.tokenB pool))
        (TokenAccount.address to)
        (Token.address (Pool.poolToken pool))
        (TokenAccount.address (Pool.feeAccount pool))
        (identity parameters) (swapProgramId c) (TOKEN_PROGRAM_ID c)
        (fromAmount parameters) minimum in
    let transaction := mkTransaction blockhash [approve; swapInstruction] in
    validateSwapParameters toBase58 parameters = Js.Return tt
    /\ match toAccount parameters with
       | Some account => to = account
       | None => createAccountForToken c toToken = Js.Return to
       end
    /\ Pool.tokenSwapAuthority methods pool = Js.Return authority
    /\ wallet c = Some owner
    /\ U64.toU64 (fromAmount parameters) = Js.Return value
    /\ Pool.calculateAmountInOtherToken methods pool
         (TokenAccount.mint (fromAccount parameters)) (fromAmount parameters) true
       = Js.Return amount
    /\ U64.toNumberU64
         (Pool.adjustForSlippage amount Pool.down (Pool.DEFAULT_SLIPPAGE methods))
       = Js.Return minimum
    /\ sendTransaction c transaction = Js.Return signature
    /\ (swap toBase58 methods c parameters).1
       = match toAccount parameters with
         | Some _ => []
         | None => [CreateAccountForToken toToken]
         end
         ++ [Built approve; Built swapInstruction; GetRecentBlockhash;
             SendTransaction transaction].
Proof.
  intros Hrun. cbv zeta. unfold swap in Hrun |- *.
  apply action_bind_returns in Hrun as ([] & Evalid & Hrun & T1).
  apply action_bind_returns in Hrun as (to & Eto & Hrun & T2).
  apply action_bind_returns in Hrun as (authority & Eauthority & Hrun & T3).
  apply action_bind_returns in Hrun as (approve & Eapprove & Hrun & T4).
  apply action_bind_returns in Hrun as (swapInstruction & Eswap & Hrun & T5).
  apply action_bind_returns in Hrun as (transaction & Etx & Hrun & T6).
  cbn in Evalid, Eauthority, Hrun.
  destruct (approveInstruction_returns _ _ _ _ Eapprove)
    as (owner & value & Eowner & Evalue & -> & T7).
  destruct (createSwapTransactionInstruction_returns _ _ Eswap)
    as (amount & authority' & minimum & Eamount & Eauthority' & Eminimum & -> & T8).
  cbn [r_pool r_fromAccount r_fromAmount r_slippage r_toAccount r_identity]
    in Eamount, Eauthority', Eminimum, T8 |- *.
  rewrite Eauthority in Eauthority'. injection Eauthority' as <-.
  destruct (pool_makeTransaction_returns _ _ Etx) as (blockhash & Eblockhash & -> & T9).
  exists to, authority, owner, value, amount, minimum, blockhash. cbv zeta.
  split; [exact Evalid|].
  split; [destruct (toAccount parameters); cbn in Eto; congruence|].
  split; [exact Eauthority|]. split; [exact Eowner|]. split; [exact Evalue|].
  split; [exact Eamount|]. split; [exact Eminimum|]. split; [exact Hrun|].
  rewrite T1, T2, T3, T4, T5, T6, T7, T8, T9.
  destruct (toAccount parameters); reflexivity.
Qed.

(** A [deposit] that returns, step by step. *)
Lemma deposit_returns (parameters : DepositParameters) (signature : string) :
  (deposit toBase58 methods c parameters).2 = Js.Return signature ->
  let pool := deposit_pool parameters in
  exists authority poolTokenAmount amounts account owner valueA valueB
         maximumPoolTokenAmount maximumTokenA maximumTokenB blockhash,
    let maxTokenAAmount :=
      Qmin (Pool.tokenAAmount amounts) (TokenAccount.balance (fromAAccount parameters)) in
    let maxTokenBAmount :=
      Qmin (Pool.tokenBAmount amounts) (TokenAccount.balance (fromBAccount parameters)) in
    let approveA :=
      ApproveInstruction (TOKEN_PROGRAM_ID c)
        (TokenAccount.address (fromAAccount parameters)) authority owner valueA in
    let approveB :=
      ApproveInstruction (TOKEN_PROGRAM_ID c)
        (TokenAccount.address (fromBAccount parameters)) authority owner valueB in
    let depositInstruction :=
      DepositInstruction (Pool.address pool) authority
        (TokenAccount.address (fromAAccount parameters))
        (TokenAccount.address (fromBAccount parameters))
        (TokenAccount.address (Pool.tokenA pool))
        (TokenAccount.address (Pool.tokenB pool))
        (Token.address (Pool.poolToken pool))
        (TokenAccount.address account)
        (swapProgramId c) (TOKEN_PROGRAM_ID c)
        maximumPoolTokenAmount maximumTokenA maximumTokenB in
    let transaction := mkTransaction blockhash [approveA; approveB; depositInstruction] in
    Pool.tokenSwapAuthority methods pool = Js.Return authority
    /\ Pool.getPoolTokenValueOfTokenAAmount methods pool (fromAAmount parameters)
       = Js.Return poolTokenAmount
    /\ Pool.calculateAmountsWithSlippage methods pool poolTokenAmount Pool.up
         (deposit_slippage parameters)
       = Js.Return amounts
    /\ match poolTokenAccount parameters with
       | Some given => account = given
       | None => createAccountForToken c (Pool.poolToken pool) = Js.Return account
       end
    /\ wallet c = Some owner
    /\ U64.toU64 maxTokenAAmount = Js.Return valueA
    /\ U64.toU64 maxTokenBAmount = Js.Return valueB
    /\ U64.toNumberU64 (Pool.poolTokenAmount amounts) = Js.Return maximumPoolTokenAmount
    /\ U64.toNumberU64 maxTokenAAmount = Js.Return maximumTokenA
    /\ U64.toNumberU64 maxTokenBAmount = Js.Return maximumTokenB
    /\ sendTransaction c transaction = Js.Return signature
    /\ (deposit toBase58 methods c parameters).1
       = match poolTokenAccount parameters with
         | Some _ => []
         | None => [CreateAccountForToken (Pool.poolToken pool)]
         end
         ++ [Built approveA; Built approveB; Built depositInstruction;
             GetRecentBlockhash; SendTransaction transaction].
Proof.
  intros Hrun. cbv zeta. unfold deposit in Hrun |- *.
  apply action_bind_returns in Hrun as ([] & _ & Hrun & T1).
  apply action_bind_returns in Hrun as ([] & _ & Hrun & T2).
  apply action_bind_returns in Hrun as ([] & _ & Hrun & T3).
  apply action_bind_returns in Hrun as (authority & Eauthority & Hrun & T4).
  apply action_bind_returns in Hrun as (poolTokenAmount & Epool & Hrun & T5).
  apply action_bind_returns in Hrun as (amounts & Eamounts & Hrun & T6).
  apply action_bind_returns in Hrun as (account & Eaccount & Hrun & T7).
  apply action_bind_returns in Hrun as (approveA & EapproveA & Hrun & T8).
  apply action_bind_returns in Hrun as (approveB & EapproveB & Hrun & T9).
  apply action_bind_returns in Hrun as (maximumPool & EmaximumPool & Hrun & T10).
  apply action_bind_returns in Hrun as (maximumA & EmaximumA & Hrun & T11).
  apply action_bind_returns in Hrun as (maximumB & EmaximumB & Hrun & T12).
  apply action_bind_returns in Hrun as (depositInstruction & Edeposit & Hrun & T13).
  apply action_bind_returns in Hrun as ([] & _ & Hrun & T14).
  apply action_bind_returns in Hrun as (transaction & Etx & Hrun & T15).
  cbn in Eauthority, Epool, Eamounts, EmaximumPool, EmaximumA, EmaximumB, Edeposit, Hrun.
  destruct (approveInstruction_returns _ _ _ _ EapproveA)
    as (owner & valueA & Eowner & EvalueA & -> & T16).
  destruct (approveInstruction_returns _ _ _ _ EapproveB)
    as (owner' & valueB & Eowner' & EvalueB & -> & T17).
  rewrite Eowner in Eowner'. injection Eowner' as <-.
  apply depositInstruction_returns in Edeposit as ->.
  destruct (pool_makeTransaction_returns _ _ Etx) as (blockhash & Eblockhash & -> & T18).
  exists authority, poolTokenAmount, amounts, account, owner, valueA, valueB,
    maximumPool, maximumA, maximumB, blockhash. cbv zeta.
  split; [exact Eauthority|]. split; [exact Epool|]. split; [exact Eamounts|].
  split; [destruct (poolTokenAccount parameters); cbn in Eaccount; congruence|].
  split; [exact Eowner|]. split; [exact EvalueA|]. split; [exact EvalueB|].
  split; [exact EmaximumPool|]. split; [exact EmaximumA|]. split; [exact EmaximumB|].
  split; [exact Hrun|].
  rewrite T1, T2, T3, T4, T5, T6, T7, T8, T9, T10, T11, T12, T13, T14, T15, T16, T17, T18.
  destruct (poolTokenAccount parameters); reflexivity.
Qed.

(** C3: [swap] does not depend on the slippage of its parameters; every
    swap instruction it builds carries as minimum the amount in the other
    token adjusted downwards by [DEFAULT_SLIPPAGE]; and a [swap] that returns
    has built exactly one swap instruction, which carries that minimum, and
    sent it, after the approval, in the one transaction it sends. *)
Theorem swap_uses_default_slippage (parameters : SwapParameters) :
  (forall slippage,
     swap toBase58 methods c (with_slippage slippage parameters)
     = swap toBase58 methods c parameters)
  /\ builds_only (default_minimum methods parameters) (swap toBase58 methods c parameters)
  /\ (forall signature,
        (swap toBase58 methods c parameters).2 = Js.Return signature ->
        exists before approve swapInstruction blockhash,
          (swap toBase58 methods c parameters).1
          = before ++ [Built approve; Built swapInstruction; GetRecentBlockhash;
                       SendTransaction (mkTransaction blockhash [approve; swapInstruction])]
          /\ (forall i, Built i ∈ before -> False)
          /\ ~ is_swap approve
          /\ is_swap swapInstruction
          /\ default_minimum methods parameters swapInstruction).
Proof.
  split; [reflexivity|]. split.
  - unfold swap.
    quiet_step. intros _ _.
    apply builds_only_bind.
    { destruct (toAccount parameters); [apply builds_only_mret|].
      apply builds_only_request. intros i [=]. }
    intros account _.
    quiet_step. intros delegate _.
    apply builds_only_bind.
    { unfold approveInstruction.
      quiet_step. intros owner _.
      quiet_step. intros value _.
      quiet_step. intros approve Happrove.
      cbn in Happrove. apply createApproveInstruction_returns in Happrove as ->.
      apply builds_only_request. intros i [= <-]. exact I. }
    intros approve _.
    apply builds_only_bind.
    { unfold createSwapTransactionInstruction. cbn [r_pool r_fromAccount r_fromAmount
        r_slippage r_toAccount r_identity].
      quiet_step. intros amount Hamount.
      quiet_step. intros authority _.
      quiet_step. intros minimum Hminimum.
      quiet_step. intros instruction Hinstruction.
      cbn in Hinstruction. apply swapInstruction_returns in Hinstruction as ->.
      apply builds_only_request. intros i [= <-]. cbn. exists amount.
      split; [exact Hamount|exact Hminimum]. }
    intros swapInstruction _.
    apply builds_only_bind.
    { unfold makeTransaction.
      quiet_step. intros _ _.
      apply builds_only_bind; [|intros; apply builds_only_mret].
      apply builds_only_request. intros i [=]. }
    intros transaction _. apply builds_only_request. intros i [=].
  - intros signature Hrun.
    destruct (swap_returns parameters signature Hrun)
      as (to & authority & owner & value & amount & minimum & blockhash
          & _ & _ & _ & _ & _ & Eamount & Eminimum & _ & Htrace).
    eexists _, _, _, blockhash. split; [exact Htrace|].
    split.
    { intros i Hin. destruct (toAccount parameters).
      - now apply elem_of_nil in Hin.
      - apply list_elem_of_singleton in Hin. discriminate Hin. }
    split; [intros []|]. split; [exact I|].
    cbn. exists amount. split; [exact Eamount|exact Eminimum].
Qed.

(** C10: every approve instruction [deposit] builds is for the token A
    or the token B source account and approves the minimum of the
    slippage-adjusted amount and the balance of that account, the deposit
    instruction carries the same two minimums as its maximums, and none
    exceeds the balance; and a [deposit] that returns has sent one
    transaction, made of the approval for the token A source account, the
    approval for the token B source account and the deposit instruction, in
    which the amount approved and the maximum passed on are, for each of the
    two accounts, the same whole number: that minimum. *)
Theorem deposit_within_balances (parameters : DepositParameters) :
  builds_only (within_balances methods parameters) (deposit toBase58 methods c parameters)
  /\ (forall signature,
        (deposit toBase58 methods c parameters).2 = Js.Return signature ->
        exists before approveA approveB depositInstruction blockhash,
          (deposit toBase58 methods c parameters).1
          = before ++ [Built approveA; Built approveB; Built depositInstruction;
                       GetRecentBlockhash;
                       SendTransaction
                         (mkTransaction blockhash [approveA; approveB; depositInstruction])]
          /\ (forall i, Built i ∈ before -> False)
          /\ sent_within_balances methods parameters approveA approveB depositInstruction).
Proof.
  split.
  - unfold deposit.
    quiet_step. intros _ _.
    quiet_step. intros _ _.
    quiet_step. intros _ _.
    quiet_step. intros authority _.
    quiet_step. intros poolTokenAmount Hpta.
    quiet_step. intros amounts Hamounts.
    assert (Hgood : forall i,
      match i with
      | ApproveInstruction _ account _ _ amount =>
          (account = TokenAccount.address (fromAAccount parameters)
           /\ U64.toU64 (Qmin (Pool.tokenAAmount amounts)
                           (TokenAccount.balance (fromAAccount parameters)))
              = Js.Return amount)
          \/ (account = TokenAccount.address (fromBAccount parameters)
              /\ U64.toU64 (Qmin (Pool.tokenBAmount amounts)
                              (TokenAccount.balance (fromBAccount parameters)))
                 = Js.Return amount)
      | DepositInstruction _ _ sourceA sourceB _ _ _ _ _ _ _ maximumTokenA maximumTokenB =>
          sourceA = TokenAccount.address (fromAAccount parameters)
          /\ sourceB = TokenAccount.address (fromBAccount parameters)
          /\ U64.toNumberU64 (Qmin (Pool.tokenAAmount amounts)
                                (TokenAccount.balance (fromAAccount parameters)))
             = Js.Return maximumTokenA
          /\ U64.toNumberU64 (Qmin (Pool.tokenBAmount amounts)
                                (TokenAccount.balance (fromBAccount parameters)))
             = Js.Return maximumTokenB
      | SwapInstruction _ _ _ _ _ _ _ _ _ _ _ _ _ => False
      end -> within_balances methods parameters i).
    { intros i Hi. exists poolTokenAmount, amounts. cbv zeta.
      split; [exact Hpta|]. split; [exact Hamounts|].
      split; [apply Q.le_min_r|]. split; [apply Q.le_min_r|]. exact Hi. }
    apply builds_only_bind.
    { destruct (poolTokenAccount parameters); [apply builds_only_mret|].
      apply builds_only_request. intros i [=]. }
    intros account _.
    apply builds_only_bind.
    { unfold approveInstruction.
      quiet_step. intros owner _.
      quiet_step. intros value Hvalue.
      quiet_step. intros approve Happrove.
      cbn in Happrove. apply createApproveInstruction_returns in Happrove as ->.
      apply builds_only_request. intros i [= <-]. apply Hgood. left. now split. }
    intros approveA _.
    apply builds_only_bind.
    { unfold approveInstruction.
      quiet_step. intros owner _.
      quiet_step. intros value Hvalue.
      quiet_step. intros approve Happrove.
      cbn in Happrove. apply createApproveInstruction_returns in Happrove as ->.
      apply builds_only_request. intros i [= <-]. apply Hgood. right. now split. }
    intros approveB _.
    quiet_step. intros maximumPool _.
    quiet_step. intros maximumA HmaximumA.
    quiet_step. intros maximumB HmaximumB.
    quiet_step. intros depositInstruction Hdeposit.
    cbn in Hdeposit. apply depositInstruction_returns in Hdeposit as ->.
    apply builds_only_bind.
    { apply builds_only_request. intros i [= <-]. apply Hgood. now repeat split. }
    intros _ _.
    apply builds_only_bind.
    { unfold makeTransaction.
      quiet_step. intros _ _.
      apply builds_only_bind; [|intros; apply builds_only_mret].
      apply builds_only_request. intros i [=]. }
    intros transaction _. apply builds_only_request. intros i [=].
  - intros signature Hrun.
    destruct (deposit_returns parameters signature Hrun)
      as (authority & poolTokenAmount & amounts & account & owner & valueA & valueB
          & maximumPool & maximumA & maximumB & blockhash
          & _ & Epool & Eamounts & _ & _ & EvalueA & EvalueB & _ & EmaximumA & EmaximumB
          & _ & Htrace).
    eexists _, _, _, _, blockhash. split; [exact Htrace|].
    split.
    { intros i Hin. destruct (poolTokenAccount parameters).
      - now apply elem_of_nil in Hin.
      - apply list_elem_of_singleton in Hin. discriminate Hin. }
    pose proof (U64Facts.toU64_toNumberU64 _ _ _ EvalueA EmaximumA) as ->.
    pose proof (U64Facts.toU64_toNumberU64 _ _ _ EvalueB EmaximumB) as ->.
    apply U64Facts.toU64_returns in EvalueA as [HA _], EvalueB as [HB _].
    exists poolTokenAmount, amounts, (U64.u64_value valueA), (U64.u64_value valueB).
    cbv zeta. split; [exact Epool|]. split; [exact Eamounts|].
    split; [now symmetry|]. split; [now symmetry|].
    split; [rewrite <- HA; apply Q.le_min_r|].
    split; [rewrite <- HB; apply Q.le_min_r|].
    split; [split; [reflexivity|now destruct valueA]|].
    split; [split; [reflexivity|now destruct valueB]|].
    repeat split; reflexivity.
Qed.

End API.

Lemma swap_rejects_foreign_accounts_witness :
  exists message,
    swap id Examples.methods Examples.collaborators
      (Examples.swapParameters None "mintC" 100%Q)
    = ([], Js.Throw (Js.AssertionError message)).
Proof.
  apply (swap_rejects_foreign_accounts id Examples.methods Examples.collaborators
           (Examples.swapParameters None "mintC" 100%Q)).
  - intros [H _]. vm_compute in H. discriminate H.
  - intros [H _]. vm_compute in H. discriminate H.
Defined.

Lemma swap_uses_default_slippage_witness :
  exists before approve swapInstruction blockhash,
    (swap id Examples.methods Examples.collaborators
       (Examples.swapParameters (Some 50%Q) "mintA" 100%Q)).2 = Js.Return "signature"
    /\ (swap id Examples.methods Examples.collaborators
          (Examples.swapParameters (Some 50%Q) "mintA" 100%Q)).1
       = before ++ [Built approve; Built swapInstruction; GetRecentBlockhash;
                    SendTransaction (mkTransaction blockhash [approve; swapInstruction])]
    /\ minimumAmountOut_of swapInstruction = Some (U64.mkNumberu64 190).
Proof.
  assert (Hrun : (swap id Examples.methods Examples.collaborators
                    (Examples.swapParameters (Some 50%Q) "mintA" 100%Q)).2
                 = Js.Return "signature") by (vm_compute; reflexivity).
  destruct (proj2 (proj2 (swap_uses_default_slippage id Examples.methods
                            Examples.collaborators
                            (Examples.swapParameters (Some 50%Q) "mintA" 100%Q)))
              "signature" Hrun)
    as (before & approve & swapInstruction & blockhash & Htrace & _ & _ & Hswap & Hminimum).
  exists before, approve, swapInstruction, blockhash.
  split; [exact Hrun|]. split; [exact Htrace|].
  destruct swapInstruction; try contradiction.
  destruct Hminimum as (amount & Hamount & Hminimum).
  cbn in Hamount. injection Hamount as <-.
  vm_compute in Hminimum. injection Hminimum as <-. reflexivity.
Defined.

Lemma deposit_within_balances_witness :
  exists before approveA approveB depositInstruction blockhash,
    (deposit id Examples.methods Examples.collaborators
       (Examples.depositParameters 100%Q)).2 = Js.Return "signature"
    /\ (deposit id Examples.methods Examples.collaborators
          (Examples.depositParameters 100%Q)).1
       = before ++ [Built approveA; Built approveB; Built depositInstruction;
                    GetRecentBlockhash;
                    SendTransaction
                      (mkTransaction blockhash [approveA; approveB; depositInstruction])]
    /\ approved_amount approveA = Some ("walletA", U64.mkU64 101)
    /\ approved_amount approveB = Some ("walletB", U64.mkU64 202)
    /\ maximums_of depositInstruction = Some (U64.mkNumberu64 101, U64.mkNumberu64 202).
Proof.
  assert (Hrun : (deposit id Examples.methods Examples.collaborators
                    (Examples.depositParameters 100%Q)).2 = Js.Return "signature")
    by (vm_compute; reflexivity).
  destruct (proj2 (deposit_within_balances id Examples.methods Examples.collaborators
                     (Examples.depositParameters 100%Q)) "signature" Hrun)
    as (before & approveA & approveB & depositInstruction & blockhash & Htrace & _ & Hsent).
  exists before, approveA, approveB, depositInstruction, blockhash.
  split; [exact Hrun|]. split; [exact Htrace|].
  destruct Hsent as (poolTokenAmount & amounts & amountA & amountB
                     & Epool & Eamounts & HA & HB & _ & _ & HapproveA & HapproveB & Hdeposit).
  cbn in Epool. injection Epool as <-. cbn in Eamounts. injection Eamounts as <-.
  assert (amountA = 101) as ->.
  { assert (Hmin : (inject_Z amountA == 101)%Q) by (rewrite HA; vm_compute; reflexivity).
    unfold Qeq in Hmin. cbn in Hmin. lia. }
  assert (amountB = 202) as ->.
  { assert (Hmin : (inject_Z amountB == 202)%Q) by (rewrite HB; vm_compute; reflexivity).
    unfold Qeq in Hmin. cbn in Hmin. lia. }
  destruct approveA; try contradiction. destruct HapproveA as [-> ->].
  destruct approveB; try contradiction. destruct HapproveB as [-> ->].
  destruct depositInstruction; try contradiction.
  destruct Hdeposit as (_ & _ & -> & ->). auto.
Defined.

End PoolAPIFacts.

(** ** Pool API: what a swap and a deposit send *)
Module PoolFlowFacts.
Import DecimalJs PoolAPI PoolAPIFacts PoolAPIShapes.

Section API.
Context {PublicKey : Type} `{EqDecision PublicKey}.
Context (toBase58 : PublicKey -> string).
Context (methods : Pool.Methods PublicKey) (c : @Collaborators PublicKey).
#[local] Abbreviation action := (@PoolAPI.action PublicKey).
#[local] Abbreviation event := (@PoolAPI.event PublicKey).
#[local] Abbreviation SwapParameters := (@PoolAPI.SwapParameters PublicKey).
#[local] Abbreviation DepositParameters := (@PoolAPI.DepositParameters PublicKey).
#[local] Abbreviation TransactionInstruction := (@PoolAPI.TransactionInstruction PublicKey).
#[local] Abbreviation TokenAccount := (TokenAccount.TokenAccount PublicKey Decimal).

Lemma equals_spec (t u : Token.Token PublicKey Decimal) :
  Token.equals t u = true <-> Token.address t = Token.address u.
Proof. unfold Token.equals. apply bool_decide_eq_true. Qed.

(** X1: [deposit] checks its accounts before anything else.  When the
    token A source account does not hold the token of the pool's token A
    account, or the token B source account not that of the pool's token B
    account, or the pool token account given is not one of the pool token, it
    throws an assertion error and leaves no trace: nothing was built,
    nothing asked of the chain. *)
Theorem deposit_rejects_foreign_accounts (parameters : DepositParameters) :
  let pool := deposit_pool parameters in
  Token.address (TokenAccount.mint (fromAAccount parameters))
    <> Token.address (TokenAccount.mint (Pool.tokenA pool))
  \/ Token.address (TokenAccount.mint (fromBAccount parameters))
       <> Token.address (TokenAccount.mint (Pool.tokenB pool))
  \/ (exists account, poolTokenAccount parameters = Some account
        /\ Token.address (TokenAccount.mint account) <> Token.address (Pool.poolToken pool)) ->
  exists message,
    deposit toBase58 methods c parameters = ([], Js.Throw (Js.AssertionError message)).
Proof.
  intros pool Hbad. unfold deposit. fold pool.
  destruct (TokenAccount.sameToken (fromAAccount parameters) (Pool.tokenA pool)) eqn:EA;
    [|rewrite bind_lift; cbn; eauto].
  rewrite bind_lift. cbn [assert].
  destruct (TokenAccount.sameToken (fromBAccount parameters) (Pool.tokenB pool)) eqn:EB;
    [|rewrite bind_lift; cbn; eauto].
  rewrite bind_lift. cbn [assert].
  apply sameToken_spec in EA, EB.
  destruct Hbad as [N|[N|(account & Hacc & N)]]; [contradiction..|].
  rewrite Hacc.
  destruct (Token.equals (TokenAccount.mint account) (Pool.poolToken pool)) eqn:EP.
  - apply equals_spec in EP. contradiction.
  - rewrite bind_lift. cbn. eauto.
Qed.

(** X2: a [swap] that returns has sent one transaction, the last thing it
    did, made of exactly the two instructions it built, the approval first;
    the signature returned is the one of that transaction; before building,
    it asked for nothing but, at most, a new token account; and the approval
    delegates exactly [fromAmount] of [fromAccount], on behalf of the
    connected wallet, to the authority under which the swap instruction
    takes that amount out of that account. *)
Theorem swap_sends_approval_and_swap (parameters : SwapParameters) (signature : string) :
  (swap toBase58 methods c parameters).2 = Js.Return signature ->
  exists before approve swapInstruction blockhash,
    let transaction := mkTransaction blockhash [approve; swapInstruction] in
    (swap toBase58 methods c parameters).1
    = before ++ [Built approve; Built swapInstruction; GetRecentBlockhash;
                 SendTransaction transaction]
    /\ Forall creates_account before
    /\ sendTransaction c transaction = Js.Return signature
    /\ approved_swap c parameters approve swapInstruction.
Proof.
  intros Hrun.
  destruct (swap_returns toBase58 methods c parameters signature Hrun)
    as (to & authority & owner & value & amount & minimum & blockhash
        & _ & _ & _ & Eowner & Evalue & _ & _ & Esend & Htrace).
  eexists _, _, _, blockhash. cbv zeta. split; [exact Htrace|].
  split.
  { destruct (toAccount parameters); [constructor|].
    repeat constructor. eexists; reflexivity. }
  split; [exact Esend|].
  cbn. repeat split. exists owner, value. auto.
Qed.

(** X5: a [deposit] that returns has sent one transaction, the last thing
    it did, made of exactly the three instructions it built, in the order
    approval for token A, approval for token B, deposit; the signature
    returned is the one of that transaction; before building, it asked for
    nothing but, at most, a new pool token account; and each approval
    delegates to the authority of the deposit exactly the maximum the
    deposit may take from that source account. *)
Theorem deposit_sends_approvals_and_deposit (parameters : DepositParameters)
    (signature : string) :
  (deposit toBase58 methods c parameters).2 = Js.Return signature ->
  exists before approveA approveB depositInstruction blockhash,
    let transaction := mkTransaction blockhash [approveA; approveB; depositInstruction] in
    (deposit toBase58 methods c parameters).1
    = before ++ [Built approveA; Built approveB; Built depositInstruction;
                 GetRecentBlockhash; SendTransaction transaction]
    /\ Forall creates_account before
    /\ sendTransaction c transaction = Js.Return signature
    /\ approved_deposit c parameters approveA approveB depositInstruction.
Proof.
  intros Hrun.
  destruct (deposit_returns toBase58 methods c parameters signature Hrun)
    as (authority & poolTokenAmount & amounts & account & owner & valueA & valueB
        & maximumPool & maximumA & maximumB & blockhash
        & _ & _ & _ & _ & Eowner & EvalueA & EvalueB & _ & EmaximumA & EmaximumB
        & Esend & Htrace).
  eexists _, _, _, _, blockhash. cbv zeta. split; [exact Htrace|].
  split.
  { destruct (poolTokenAccount parameters); [constructor|].
    repeat constructor. eexists; reflexivity. }
  split; [exact Esend|].
  cbn. repeat split. eexists _, _.
  split; [exact EmaximumA|]. split; [exact EmaximumB|].
  split; [exists owner, valueA|exists owner, valueB]; auto.
Qed.

(** X3: with no wallet connected, [swap] and [deposit] both throw, and
    neither builds an instruction, asks for a blockhash or sends a
    transaction: the only request either can have made by then is the one
    for a new token account. *)
Theorem swap_and_deposit_need_a_wallet (swapParameters : SwapParameters)
    (depositParameters : DepositParameters) :
  wallet c = None ->
  (exists e, (swap toBase58 methods c swapParameters).2 = Js.Throw e)
  /\ Forall creates_account (swap toBase58 methods c swapParameters).1
  /\ (exists e, (deposit toBase58 methods c depositParameters).2 = Js.Throw e)
  /\ Forall creates_account (deposit toBase58 methods c depositParameters).1.
Proof.
  intros EW.
  assert (Hone : forall token : Token.Token PublicKey Decimal,
    Forall creates_account [CreateAccountForToken token]).
  { intros token. repeat constructor. eexists; reflexivity. }
  assert (Hswap :
    (exists e, (swap toBase58 methods c swapParameters).2 = Js.Throw e)
    /\ Forall creates_account (swap toBase58 methods c swapParameters).1).
  { unfold swap, approveInstruction, getWallet. rewrite EW.
    destruct (validateSwapParameters toBase58 swapParameters) as [[]|e];
      [|cbn; split; [eauto|constructor]].
    rewrite bind_lift.
    set (toToken := if TokenAccount.sameToken _ _ then _ else _).
    destruct (toAccount swapParameters) as [to|];
      [|destruct (createAccountForToken c toToken)];
      destruct (Pool.tokenSwapAuthority methods (swap_pool swapParameters));
      cbn; (split; [eauto|]); solve [constructor | apply Hone]. }
  assert (Hdeposit :
    (exists e, (deposit toBase58 methods c depositParameters).2 = Js.Throw e)
    /\ Forall creates_account (deposit toBase58 methods c depositParameters).1).
  { unfold deposit, approveInstruction, getWallet. rewrite EW.
    destruct (assert (TokenAccount.sameToken (fromAAccount depositParameters) _) _)
      as [[]|e]; [|cbn; split; [eauto|constructor]].
    rewrite bind_lift.
    destruct (assert (TokenAccount.sameToken (fromBAccount depositParameters) _) _)
      as [[]|e]; [|cbn; split; [eauto|constructor]].
    rewrite bind_lift.
    destruct (assert _ _) as [[]|e]; [|cbn; split; [eauto|constructor]].
    rewrite bind_lift.
    destruct (Pool.tokenSwapAuthority methods (deposit_pool depositParameters))
      as [authority|e]; [|cbn; split; [eauto|constructor]].
    rewrite bind_lift.
    destruct (Pool.getPoolTokenValueOfTokenAAmount methods _ _) as [poolTokenAmount|e];
      [|cbn; split; [eauto|constructor]].
    rewrite bind_lift.
    destruct (Pool.calculateAmountsWithSlippage methods _ _ _ _) as [amounts|e];
      [|cbn; split; [eauto|constructor]].
    rewrite bind_lift.
    destruct (poolTokenAccount depositParameters) as [account|];
      [|destruct (createAccountForToken c _)];
      cbn; (split; [eauto|]); solve [constructor | apply Hone]. }
  tauto.
Qed.

(** A step that builds nothing and asks nothing of the chain. *)
Ltac quiet_step := apply builds_only_bind; [apply builds_only_lift|].

(** X4: every swap instruction [swap] builds moves the tokens the right
    way round.  The pool account it pays into holds the token of the source
    account, the pool account it pays out of is the other one of the pool,
    and the target account is the one of the parameters, which holds the
    token paid out, or else the account created for that token. *)
Theorem swap_routes_tokens (parameters : SwapParameters) :
  builds_only (routed c parameters) (swap toBase58 methods c parameters).
Proof.
  unfold swap.
  quiet_step. intros [] Hvalid.
  assert (Hpairs :
    let pool := swap_pool parameters in
    matches_pair parameters (Pool.tokenA pool) (Pool.tokenB pool)
    \/ matches_pair parameters (Pool.tokenB pool) (Pool.tokenA pool)).
  { cbn in Hvalid. unfold validateSwapParameters, assert in Hvalid.
    match type of Hvalid with (if ?b then _ else _) = _ => destruct b eqn:E end;
      [|discriminate].
    apply orb_true_iff in E. unfold matches_pair.
    destruct E as [E|E]; apply andb_true_iff in E as [E1 E2];
      apply sameToken_spec in E1; [left|right]; (split; [exact E1|]);
      intros to Hto; rewrite Hto in E2; now apply sameToken_spec in E2. }
  clear Hvalid. cbv zeta in Hpairs.
  set (pool := swap_pool parameters) in *.
  set (isReverse := TokenAccount.sameToken (fromAccount parameters) (Pool.tokenB pool)).
  assert (Hrev : isReverseSwap pool (fromAccount parameters) = isReverse).
  { unfold isReverseSwap, isReverse, TokenAccount.sameToken, Token.equals.
    apply bool_decide_ext. split; congruence. }
  set (into := if isReverse then Pool.tokenB pool else Pool.tokenA pool).
  set (out := if isReverse then Pool.tokenA pool else Pool.tokenB pool).
  assert (Hinto : Token.address (TokenAccount.mint (fromAccount parameters))
                  = Token.address (TokenAccount.mint into)
                  /\ forall to, toAccount parameters = Some to ->
                       Token.address (TokenAccount.mint to)
                       = Token.address (TokenAccount.mint out)).
  { unfold into, out. destruct isReverse eqn:E.
    - apply sameToken_spec in E. split; [exact E|].
      intros to Hto. destruct Hpairs as [[H1 H2]|[H1 H2]]; [|now apply H2].
      rewrite (H2 to Hto). congruence.
    - destruct Hpairs as [[H1 H2]|[H1 H2]]; [now split|].
      apply sameToken_spec in H1. fold isReverse in H1. congruence. }
  assert (Hsides : (into = Pool.tokenA pool /\ out = Pool.tokenB pool)
                   \/ (into = Pool.tokenB pool /\ out = Pool.tokenA pool)).
  { unfold into, out. destruct isReverse; auto. }
  assert (Htoken : (if isReverse then TokenAccount.mint (Pool.tokenA pool)
                    else TokenAccount.mint (Pool.tokenB pool)) = TokenAccount.mint out).
  { unfold out. now destruct isReverse. }
  rewrite Htoken.
  apply builds_only_bind.
  { destruct (toAccount parameters); [apply builds_only_mret|].
    apply builds_only_request. intros i [=]. }
  intros account Haccount.
  quiet_step. intros delegate _.
  apply builds_only_bind.
  { unfold approveInstruction. quiet_step. intros owner _.
    quiet_step. intros value _.
    quiet_step. intros built Hbuilt.
    cbn in Hbuilt. apply createApproveInstruction_returns in Hbuilt as ->.
    apply builds_only_request. intros i [= <-]. exact I. }
  intros approve _.
  apply builds_only_bind.
  { unfold createSwapTransactionInstruction.
    cbn [r_pool r_fromAccount r_fromAmount r_slippage r_toAccount r_identity].
    rewrite Hrev. fold into out.
    quiet_step. intros amount _.
    quiet_step. intros authority _.
    quiet_step. intros minimum _.
    quiet_step. intros built Hbuilt.
    cbn in Hbuilt. apply swapInstruction_returns in Hbuilt as ->.
    apply builds_only_request. intros i [= <-]. cbn. fold pool.
    exists into, out, account. repeat (split; [first [exact Hsides|reflexivity|apply Hinto]|]).
    destruct (toAccount parameters) as [to|] eqn:Eto.
    - left. cbn in Haccount. injection Haccount as <-. split; [reflexivity|].
      now apply Hinto.
    - right. split; [reflexivity|]. exact Haccount. }
  intros swapInstruction _.
  apply builds_only_bind.
  { unfold makeTransaction. quiet_step. intros _ _.
    apply builds_only_bind; [|intros; apply builds_only_mret].
    apply builds_only_request. intros i [=]. }
  intros transaction _. apply builds_only_request. intros i [=].
Qed.

End API.

Lemma swap_sends_approval_and_swap_witness :
  exists before approve swapInstruction blockhash,
    (swap id Examples.methods Examples.collaborators
       (Examples.swapParameters None "mintA" 100%Q)).1
    = before ++ [Built approve; Built swapInstruction; GetRecentBlockhash;
                 SendTransaction (mkTransaction blockhash [approve; swapInstruction])]
    /\ Forall creates_account before
    /\ sendTransaction Examples.collaborators
         (mkTransaction blockhash [approve; swapInstruction])
       = Js.Return "signature"
    /\ approved_swap Examples.collaborators (Examples.swapParameters None "mintA" 100%Q)
         approve swapInstruction.
Proof.
  apply (swap_sends_approval_and_swap id Examples.methods Examples.collaborators
           (Examples.swapParameters None "mintA" 100%Q) "signature").
  reflexivity.
Defined.

Lemma swap_routes_tokens_witness :
  exists tokenSwap authority poolMint feeAccount identity programId tokenProgramId
         amountIn minimumAmountOut,
    routed Examples.collaborators (Examples.swapParameters None "mintA" 100%Q)
      (SwapInstruction tokenSwap authority "walletSource" "poolA" "poolB" "created"
         poolMint feeAccount identity programId tokenProgramId amountIn minimumAmountOut).
Proof.
  do 9 eexists.
  apply (swap_routes_tokens id Examples.methods Examples.collaborators
           (Examples.swapParameters None "mintA" 100%Q)).
  apply (list_elem_of_lookup_2 _ 2%nat). reflexivity.
Defined.

Lemma deposit_sends_approvals_and_deposit_witness :
  exists before approveA approveB depositInstruction blockhash,
    (deposit id Examples.methods Examples.collaborators
       (Examples.depositParameters 100%Q)).1
    = before ++ [Built approveA; Built approveB; Built depositInstruction;
                 GetRecentBlockhash;
                 SendTransaction
                   (mkTransaction blockhash [approveA; approveB; depositInstruction])]
    /\ Forall creates_account before
    /\ sendTransaction Examples.collaborators
         (mkTransaction blockhash [approveA; approveB; depositInstruction])
       = Js.Return "signature"
    /\ approved_deposit Examples.collaborators (Examples.depositParameters 100%Q)
         approveA approveB depositInstruction.
Proof.
  apply (deposit_sends_approvals_and_deposit id Examples.methods Examples.collaborators
           (Examples.depositParameters 100%Q) "signature").
  reflexivity.
Defined.

Lemma swap_and_deposit_need_a_wallet_witness :
  (exists e, (swap id Examples.methods MoreExamples.disconnected
                (Examples.swapParameters None "mintA" 100%Q)).2 = Js.Throw e)
  /\ (exists e, (deposit id Examples.methods MoreExamples.disconnected
                   (Examples.depositParameters 100%Q)).2 = Js.Throw e).
Proof.
  destruct (swap_and_deposit_need_a_wallet id Examples.methods MoreExamples.disconnected
              (Examples.swapParameters None "mintA" 100%Q)
              (Examples.depositParameters 100%Q) eq_refl)
    as (Hswap & _ & Hdeposit & _).
  split; [exact Hswap|exact Hdeposit].
Defined.

Lemma deposit_rejects_foreign_accounts_witness :
  exists message,
    deposit id Examples.methods Examples.collaborators MoreExamples.foreignDeposit
    = ([], Js.Throw (Js.AssertionError message)).
Proof.
  apply (deposit_rejects_foreign_accounts id Examples.methods Examples.collaborators
           MoreExamples.foreignDeposit).
  left. discriminate.
Defined.

End PoolFlowFacts.

(** ** Amounts as text *)
Module AmountTextFacts.
Import AmountText.

Lemma substring_all (s : string) : String.substring 0 (String.length s) s = s.
Proof. induction s as [|c s IH]; simpl; [reflexivity|now rewrite IH]. Qed.

Lemma substring_none (s : string) : String.substring (String.length s) 0 s = ""%string.
Proof. induction s as [|c s IH]; simpl; [reflexivity|exact IH]. Qed.

(** A string is its first [k] characters followed by the rest. *)
Lemma substring_split (s : string) : forall k : nat,
  (k <= String.length s)%nat ->
  (String.substring 0 k s ++ String.substring k (String.length s - k) s)%string = s
  /\ String.length (String.substring k (String.length s - k) s)
     = (String.length s - k)%nat.
Proof.
  induction s as [|c s IH]; intros [|k] Hk; simpl in *; try lia.
  - auto.
  - now rewrite substring_all.
  - destruct (IH k ltac:(lia)) as [H1 H2]. split; [|exact H2].
    change (String c (String.substring 0 k s
                        ++ String.substring k (String.length s - k) s)%string = String c s).
    now rewrite H1.
Qed.

Lemma reading_from_app (w f : string) : forall acc,
  reading_from acc (w ++ f) = reading_from (reading_from acc w) f.
Proof. induction w as [|c w IH]; intros acc; simpl; [reflexivity|apply IH]. Qed.

Lemma reading_from_shift (f : string) : forall acc,
  reading_from acc f = acc * 10 ^ Z.of_nat (String.length f) + reading f.
Proof.
  unfold reading. induction f as [|c f IH]; intros acc.
  - simpl. lia.
  - cbn [reading_from String.length]. rewrite (IH (10 * acc + digit c)), (IH (10 * 0 + digit c)).
    rewrite Nat2Z.inj_succ, Z.pow_succ_r by lia. ring.
Qed.

Lemma formatValueWithDecimals_parts (value : string) (decimals : Z) :
  let k := Z.to_nat (Z.max 0 (Z.min (Z.of_nat (String.length value) - decimals)
                                   (Z.of_nat (String.length value)))) in
  formatValueWithDecimals value decimals
  = (String.substring 0 k value ++ "."
     ++ String.substring k (String.length value - k) value)%string.
Proof.
  intros k. unfold formatValueWithDecimals, substring. cbn [from_option].
  set (len := String.length value) in *.
  set (c := Z.max 0 (Z.min (Z.of_nat len - decimals) (Z.of_nat len))) in *.
  assert (Hc : 0 <= c <= Z.of_nat len) by lia.
  replace (Z.max 0 (Z.min 0 (Z.of_nat len))) with 0 by lia.
  replace (Z.min 0 c) with 0 by lia. replace (Z.max 0 c - 0) with c by lia.
  replace (Z.min c (Z.of_nat len)) with c by lia.
  replace (Z.max c (Z.of_nat len) - c) with (Z.of_nat len - c) by lia.
  fold k. replace (Z.to_nat (Z.of_nat len - c)) with (len - k)%nat by lia.
  reflexivity.
Qed.

(** X7: for [0 <= decimals <= value.length], [formatValueWithDecimals]
    puts the point before the last [decimals] characters and changes nothing
    else; for a string of digits, the text therefore reads as the number
    [value / 10^decimals]: the digits before the point times [10^decimals]
    plus the digits after it make up the number [value] reads as. *)
Theorem formatValueWithDecimals_reads (value : string) (decimals : Z) :
  0 <= decimals <= Z.of_nat (String.length value) ->
  exists whole fraction : string,
    formatValueWithDecimals value decimals = (whole ++ "." ++ fraction)%string
    /\ (whole ++ fraction)%string = value
    /\ Z.of_nat (String.length fraction) = decimals
    /\ reading value = reading whole * 10 ^ decimals + reading fraction.
Proof.
  intros Hd. rewrite formatValueWithDecimals_parts. cbv zeta.
  set (k := Z.to_nat _).
  assert (Hk : (k <= String.length value)%nat) by lia.
  destruct (substring_split value k Hk) as [Hsplit Hlen].
  eexists _, _. split; [reflexivity|]. split; [exact Hsplit|].
  assert (Hf : Z.of_nat (String.length
                 (String.substring k (String.length value - k) value)) = decimals) by lia.
  split; [exact Hf|].
  rewrite <- Hsplit at 1. unfold reading at 1.
  rewrite reading_from_app, reading_from_shift, Hf. reflexivity.
Qed.

(** X8: no zeros are filled in.  A value with no more than [decimals]
    characters comes back with the point in front of it and all its
    characters behind: ["5"] with 2 decimals gives [".5"]. *)
Theorem formatValueWithDecimals_short (value : string) (decimals : Z) :
  Z.of_nat (String.length value) <= decimals ->
  formatValueWithDecimals value decimals = ("." ++ value)%string.
Proof.
  intros Hd. rewrite formatValueWithDecimals_parts. cbv zeta.
  replace (Z.to_nat _) with 0%nat by lia.
  rewrite Nat.sub_0_r, substring_all. now destruct value.
Qed.

Lemma formatValueWithDecimals_reads_witness :
  exists whole fraction : string,
    formatValueWithDecimals "12345" 2 = (whole ++ "." ++ fraction)%string
    /\ (whole ++ fraction)%string = "12345"%string
    /\ Z.of_nat (String.length fraction) = 2
    /\ reading "12345" = reading whole * 10 ^ 2 + reading fraction.
Proof. apply (formatValueWithDecimals_reads "12345" 2). simpl. lia. Defined.

Lemma formatValueWithDecimals_short_witness :
  formatValueWithDecimals "5" 2 = ".5"%string.
Proof. apply (formatValueWithDecimals_short "5" 2). simpl. lia. Defined.

End AmountTextFacts.

(** ** Amount conversion, the other way round *)
Module AmountMoreFacts.
Import DecimalJs DecimalJsFacts Amount.

(** X6: an amount in major denomination with at most [decimals] decimal
    places and at most 20 significant digits ([m / 10^decimals] with
    [|m| < 10^20]) is converted to exactly [m] minor units, and converting
    those back gives the amount again. *)
Theorem major_minor_major_roundtrip {PublicKey : Type}
    (T : Token.Token PublicKey Decimal) (m : Z) :
  0 <= Token.decimals T <= 22 ->
  Z.abs m < 10 ^ 20 ->
  (majorAmountToMinor (inject_Z m * pow10 (- Token.decimals T)) T == inject_Z m)%Q
  /\ (minorAmountToMajor (majorAmountToMinor (inject_Z m * pow10 (- Token.decimals T)) T) T
      == inject_Z m * pow10 (- Token.decimals T))%Q.
Proof.
  intros Hd Hm.
  set (d := Token.decimals T).
  assert (H1 : (majorAmountToMinor (inject_Z m * pow10 (- d)) T == inject_Z m)%Q).
  { unfold majorAmountToMinor, JsNumber.pow10. fold d.
    assert (E : (mul (inject_Z m * pow10 (- d)) (pow10 d) == inject_Z m)%Q).
    { rewrite mul_exact by exact Hm. replace (- d + d) with 0 by lia.
      unfold pow10. simpl. ring. }
    unfold round. now rewrite (round_half_up_integer _ _ E). }
  split; [exact H1|].
  unfold minorAmountToMajor, toDecimal, JsNumber.pow10. fold d.
  rewrite H1.
  assert (E0 : (inject_Z m == inject_Z m * pow10 0)%Q) by (unfold pow10; simpl; ring).
  rewrite E0 at 1. rewrite div_exact by exact Hm. replace (0 - d) with (- d) by lia.
  apply toDecimalPlaces_exact with (z := m).
  rewrite <- Qmult_assoc, <- pow10_add. replace (- d + d) with 0 by lia.
  unfold pow10. simpl. ring.
Qed.

Lemma major_minor_major_roundtrip_witness :
  (minorAmountToMajor
     (majorAmountToMinor (inject_Z 123456 * pow10 (- 2)) (Examples.token 2 1000))
     (Examples.token 2 1000)
   == inject_Z 123456 * pow10 (- 2))%Q.
Proof.
  apply (major_minor_major_roundtrip (Examples.token 2 1000) 123456).
  - simpl. lia.
  - reflexivity.
Defined.

End AmountMoreFacts.

(** ** Airdrops for the tests *)
Module AirdropFacts.
Import Trace Airdrop.
#[local] Open Scope nat_scope.

Section Airdrop.
Context {PublicKey Account : Type}.
Context (publicKey : Account -> PublicKey).
Context (connection : @Connection PublicKey).
#[local] Abbreviation event := (@Airdrop.event PublicKey).

Lemma polls_app (t t' : list event) : polls (t ++ t') = polls t + polls t'.
Proof. unfold polls. now rewrite List.filter_app, length_app. Qed.

(** One turn of the loop. *)
Lemma poll_unfold (recipient : PublicKey) (lamports oldBalance : Z) (retries n : nat) :
  poll connection recipient lamports oldBalance retries n
  = match getBalance connection n recipient with
    | Js.Return newBalance =>
        if (lamports =? newBalance - oldBalance)%Z
        then ([Sleep 500; GetBalance recipient], Js.Return true)
        else match retries with
             | S (S _ as retries') =>
                 let rest := poll connection recipient lamports oldBalance retries' (S n) in
                 (Sleep 500 :: GetBalance recipient :: rest.1, rest.2)
             | _ => ([Sleep 500; GetBalance recipient], Js.Return false)
             end
    | Js.Throw e => ([Sleep 500; GetBalance recipient], Js.Throw e)
    end.
Proof.
  destruct retries as [|[|retries]]; cbn;
    (destruct (getBalance connection n recipient) as [newBalance|e]; cbn; [|reflexivity]);
    destruct (lamports =? newBalance - oldBalance)%Z; reflexivity.
Qed.

Lemma poll_bounded (recipient : PublicKey) (lamports oldBalance : Z) (retries : nat) :
  forall n, polls (poll connection recipient lamports oldBalance (S retries) n).1
            <= S retries.
Proof.
  induction retries as [|retries IH]; intros n; rewrite poll_unfold;
    destruct (getBalance connection n recipient) as [newBalance|e]; cbn; try lia;
    destruct (lamports =? newBalance - oldBalance)%Z; cbn; try lia.
  specialize (IH (S n)). unfold polls in *. cbn in *. lia.
Qed.

(** X9: whatever the connection answers, [airdropTo] asks for the balance
    at most 61 times: once before the airdrop and at most 60 times after
    it. *)
Theorem airdropTo_polls_at_most_60_times (recipient : PublicKey)
    (lamports : option Z) (ignoreError : option bool) :
  polls (airdropTo connection recipient lamports ignoreError).1 <= 61.
Proof.
  unfold airdropTo, mbind, trace_bind, Trace.bind.
  cbn [request fst snd].
  destruct (getBalance connection 0 recipient) as [oldBalance|e]; [|cbn; lia].
  destruct (requestAirdrop connection recipient (default 8000000%Z lamports))
    as [signature|e]; [|cbn; lia].
  pose proof (poll_bounded recipient (default 8000000%Z lamports) oldBalance 59 1) as Hb.
  destruct (poll connection recipient (default 8000000%Z lamports) oldBalance 60 1)
    as [trace [[]|e]]; cbn [fst snd] in *;
    repeat (rewrite ?polls_app; cbn [app]);
    try destruct (negb (default true ignoreError)); cbn; rewrite ?polls_app;
    unfold polls in *; cbn in *; lia.
Qed.

(** When the connection answers every question, the loop yields whether
    one of its [retries] answers showed the balance up by [lamports]. *)
Lemma poll_result (recipient : PublicKey) (lamports oldBalance : Z)
    (balance : nat -> Z) (retries : nat) :
  (forall n, getBalance connection n recipient = Js.Return (balance n)) ->
  forall n,
    (poll connection recipient lamports oldBalance (S retries) n).2
    = Js.Return (existsb (fun i => (lamports =? balance i - oldBalance)%Z)
                   (seq n (S retries))).
Proof.
  intros Hget. induction retries as [|retries IH]; intros n;
    rewrite poll_unfold, Hget;
    destruct (lamports =? balance n - oldBalance)%Z eqn:E.
  - cbn. now rewrite E.
  - cbn. now rewrite E.
  - cbn. now rewrite E.
  - cbn [snd]. rewrite IH. cbn [seq existsb]. now rewrite E.
Qed.

Lemma airdropTo_result (recipient : PublicKey) (lamports : Z) (ignoreError : option bool)
    (balance : nat -> Z) (signature : string) :
  (forall n, getBalance connection n recipient = Js.Return (balance n)) ->
  requestAirdrop connection recipient lamports = Js.Return signature ->
  (airdropTo connection recipient (Some lamports) ignoreError).2
  = if existsb (fun i => (lamports =? balance i - balance 0%nat)%Z) (seq 1 60)
    then Js.Return tt
    else if negb (default true ignoreError)
         then Js.Throw (Js.Error ("Airdrop of " ++ pretty lamports ++ " failed"))
         else Js.Return tt.
Proof.
  intros Hget Hrequest.
  unfold airdropTo, mbind, trace_bind, Trace.bind.
  cbn [request fst snd default]. rewrite Hget. cbn [fst snd]. unfold id.
  rewrite Hrequest. cbn [fst snd].
  rewrite (poll_result recipient lamports (balance 0) balance 59 Hget 1).
  destruct (existsb _ _); [reflexivity|].
  destruct ignoreError as [[]|]; reflexivity.
Qed.

(** X10: [airdropTo] with [ignoreError] false, on a connection that
    answers every question.  It returns when one of the 60 answers after
    the request shows the balance up by exactly [lamports], and throws
    "Airdrop of ... failed" when none does: a balance that went up by more
    or by less does not count. *)
Theorem airdropTo_reports_failure (recipient : PublicKey) (lamports : Z)
    (balance : nat -> Z) (signature : string) :
  (forall n, getBalance connection n recipient = Js.Return (balance n)) ->
  requestAirdrop connection recipient lamports = Js.Return signature ->
  let result :=
    (airdropTo connection recipient (Some lamports) (Some false)).2 in
  ((exists i, 1 <= i <= 60 /\ (balance i - balance 0%nat)%Z = lamports) ->
   result = Js.Return tt)
  /\ ((forall i, 1 <= i <= 60 -> (balance i - balance 0%nat)%Z <> lamports) ->
      result = Js.Throw (Js.Error ("Airdrop of " ++ pretty lamports ++ " failed"))).
Proof.
  intros Hget Hrequest result. unfold result.
  rewrite (airdropTo_result recipient lamports (Some false) balance signature Hget Hrequest).
  destruct (existsb _ _) eqn:E.
  - split; [reflexivity|]. intros Hnone.
    apply existsb_exists in E as (i & Hi & Hhit).
    apply in_seq in Hi. apply Z.eqb_eq in Hhit.
    exfalso. apply (Hnone i); [lia|]. now symmetry.
  - split; [|reflexivity]. intros (i & Hi & Hhit).
    assert (Htrue : existsb (fun i => (lamports =? balance i - balance 0%nat)%Z) (seq 1 60)
                    = true).
    { apply existsb_exists. exists i. split; [apply in_seq; lia|].
      apply Z.eqb_eq. now symmetry. }
    congruence.
Qed.

(** X11: [ignoreError] is true by default, so on a connection that answers
    every question [airdropTo] returns normally whatever the balances were,
    and [createAndFundAccount] returns the account whether or not the
    airdrop arrived. *)
Theorem createAndFundAccount_hides_failure (account : Account) (lamports : Z)
    (balance : nat -> Z) (signature : string) :
  (forall n, getBalance connection n (publicKey account) = Js.Return (balance n)) ->
  requestAirdrop connection (publicKey account) lamports = Js.Return signature ->
  (airdropTo connection (publicKey account) (Some lamports) None).2
  = Js.Return tt
  /\ (createAndFundAccount publicKey connection account lamports).2
     = Js.Return account.
Proof.
  intros Hget Hrequest.
  assert (H : (airdropTo connection (publicKey account) (Some lamports)
                 None).2 = Js.Return tt).
  { rewrite (airdropTo_result _ lamports None balance signature Hget Hrequest).
    now destruct (existsb _ _). }
  split; [exact H|].
  unfold createAndFundAccount, mbind, trace_bind, Trace.bind. now rewrite H.
Qed.

End Airdrop.

Lemma airdropTo_reports_failure_witness :
  (Airdrop.airdropTo StateExamples.neverArrives "recipient" (Some 5000%Z) (Some false)).2
  = Js.Throw (Js.Error "Airdrop of 5000 failed").
Proof.
  apply (airdropTo_reports_failure StateExamples.neverArrives "recipient" 5000%Z
           (fun _ => 1000%Z) "airdrop").
  - intros n. reflexivity.
  - reflexivity.
  - intros i _. lia.
Defined.

Lemma createAndFundAccount_hides_failure_witness :
  (Airdrop.createAndFundAccount id StateExamples.neverArrives "account" 5000%Z).2
  = Js.Return "account".
Proof.
  apply (createAndFundAccount_hides_failure id StateExamples.neverArrives "account" 5000%Z
           (fun _ => 1000%Z) "airdrop").
  - intros n. reflexivity.
  - reflexivity.
Defined.

End AirdropFacts.

(** ** Connections *)
Module ConnectionAPIFacts.
Import ConnectionAPI.
#[local] Open Scope nat_scope.

Section ConnectionAPI.
Context (DEFAULT_COMMITMENT : string).
Context (clusterApiUrl : option string -> Js.result string).

(** A call for a given cluster leaves the module in a state where the same
    call, and the call without a cluster, find the connection again. *)
Lemma getConnection_settles (cluster : option string) (s s' : state)
    (connection : Connection) :
  given cluster = true ->
  getConnection DEFAULT_COMMITMENT clusterApiUrl cluster s = (Js.Return connection, s') ->
  getConnection DEFAULT_COMMITMENT clusterApiUrl cluster s' = (Js.Return connection, s')
  /\ getConnection DEFAULT_COMMITMENT clusterApiUrl None s' = (Js.Return connection, s').
Proof.
  intros Hgiven. unfold getConnection. rewrite Hgiven. cbn [given currentCluster].
  destruct (getNetwork clusterApiUrl cluster) as [network|e] eqn:En; [|discriminate].
  unfold createConnection. cbn [connections currentCluster].
  destruct (connections s !! network) as [c|] eqn:Ec.
  - intros [= <- <-]. cbn [connections currentCluster]. rewrite En, Ec. auto.
  - intros [= <- <-]. cbn [connections currentCluster].
    rewrite En, lookup_insert_eq. cbn [currentCluster connections]. auto.
Qed.

(** X12: once [getConnection] has returned the connection of a given
    cluster, the same call and the call without a cluster both return that
    very connection and leave the module as it is; the first call made at
    most one connection. *)
Theorem getConnection_again (cluster : option string) (s s' : state)
    (connection : Connection) :
  given cluster = true ->
  getConnection DEFAULT_COMMITMENT clusterApiUrl cluster s = (Js.Return connection, s') ->
  getConnection DEFAULT_COMMITMENT clusterApiUrl cluster s' = (Js.Return connection, s')
  /\ getConnection DEFAULT_COMMITMENT clusterApiUrl None s' = (Js.Return connection, s')
  /\ size (connections s') <= S (size (connections s)).
Proof.
  intros Hgiven Hget.
  destruct (getConnection_settles cluster s s' connection Hgiven Hget) as [H1 H2].
  split; [exact H1|]. split; [exact H2|].
  unfold getConnection in Hget. rewrite Hgiven in Hget.
  destruct (getNetwork clusterApiUrl cluster) as [network|e]; [|discriminate].
  unfold createConnection in Hget. cbn [connections currentCluster] in Hget.
  destruct (connections s !! network) as [c|] eqn:Ec.
  - injection Hget as <- <-. cbn. lia.
  - injection Hget as <- <-. cbn. rewrite map_size_insert_None by exact Ec. lia.
Qed.

Lemma createConnection_ok (network : string) (s : state) :
  cache_ok s ->
  let '(c, s') := createConnection DEFAULT_COMMITMENT network s in
  cache_ok s' /\ connections s' !! network = Some c
  /\ connections s ⊆ connections s' /\ currentCluster s' = currentCluster s.
Proof.
  intros Hok. unfold createConnection.
  destruct (connections s !! network) as [c|] eqn:Ec.
  - auto.
  - unfold cache_ok. cbn [connections currentCluster].
    split; [|split; [apply lookup_insert_eq|split;
      [now apply insert_subseteq|reflexivity]]].
    intros n c. rewrite lookup_insert. case_decide as En.
    + intros [= <-]. cbn. rewrite map_size_insert_None by exact Ec. split; [congruence|lia].
    + intros Hc. destruct (Hok n c Hc) as [H1 H2]. split; [exact H1|].
      rewrite map_size_insert_None by exact Ec. lia.
Qed.

Lemma getConnection_ok (cluster : option string) (s : state) :
  cache_ok s ->
  let '(r, s') := getConnection DEFAULT_COMMITMENT clusterApiUrl cluster s in
  cache_ok s' /\ connections s ⊆ connections s'
  /\ forall c, r = Js.Return c -> connections s' !! endpoint c = Some c.
Proof.
  intros Hok. unfold getConnection.
  set (s1 := if given cluster then _ else s).
  assert (H1 : cache_ok s1 /\ connections s1 = connections s).
  { unfold s1. destruct (given cluster); auto. }
  destruct H1 as [Hok1 Hsame].
  destruct (getNetwork clusterApiUrl _) as [network|e].
  - pose proof (createConnection_ok network s1 Hok1) as Hc.
    destruct (createConnection DEFAULT_COMMITMENT network s1) as [c s2].
    destruct Hc as (Hok2 & Hin & Hsub & _). rewrite <- Hsame.
    split; [exact Hok2|]. split; [exact Hsub|].
    intros c' [= <-]. destruct (Hok2 network c Hin) as [-> _]. exact Hin.
  - rewrite Hsame. split; [exact Hok1|]. split; [reflexivity|]. intros c [=].
Qed.

Lemma getConnections_ok (clusters : list (option string)) : forall s : state,
  cache_ok s ->
  let '(rs, s') := getConnections DEFAULT_COMMITMENT clusterApiUrl clusters s in
  cache_ok s' /\ connections s ⊆ connections s'
  /\ forall c, Js.Return c ∈ rs -> connections s' !! endpoint c = Some c.
Proof.
  induction clusters as [|cluster rest IH]; intros s Hok; cbn [getConnections].
  - split; [exact Hok|]. split; [reflexivity|]. intros c Hc. now apply elem_of_nil in Hc.
  - pose proof (getConnection_ok cluster s Hok) as H1.
    destruct (getConnection DEFAULT_COMMITMENT clusterApiUrl cluster s) as [r s1].
    destruct H1 as (Hok1 & Hsub1 & Hr).
    pose proof (IH s1 Hok1) as H2.
    destruct (getConnections DEFAULT_COMMITMENT clusterApiUrl rest s1) as [rs s2].
    destruct H2 as (Hok2 & Hsub2 & Hrs).
    split; [exact Hok2|]. split; [now transitivity (connections s1)|].
    intros c Hc. apply elem_of_cons in Hc as [Hc|Hc]; [|now apply Hrs].
    eapply lookup_weaken; [|exact Hsub2]. now apply Hr.
Qed.

(** X13: however often and in whatever order [getConnection] is called,
    starting from the initial state, two connections it returns for the
    same network are one and the same object. *)
Theorem one_connection_per_network (clusters : list (option string)) (a b : Connection) :
  let results := (getConnections DEFAULT_COMMITMENT clusterApiUrl clusters initial).1 in
  Js.Return a ∈ results -> Js.Return b ∈ results ->
  endpoint a = endpoint b -> a = b.
Proof.
  intros results Ha Hb Hsame. unfold results in *.
  assert (Hinit : cache_ok initial).
  { intros network c Hc. cbn in Hc. now rewrite lookup_empty in Hc. }
  pose proof (getConnections_ok clusters initial Hinit) as H.
  destruct (getConnections DEFAULT_COMMITMENT clusterApiUrl clusters initial) as [rs s'].
  destruct H as (_ & _ & Hrs). cbn [fst] in Ha, Hb.
  apply Hrs in Ha, Hb. rewrite Hsame in Ha. congruence.
Qed.

End ConnectionAPI.

Lemma getConnection_again_witness :
  let s' :=
    (getConnection "max" StateExamples.clusterApiUrl (Some "devnet") initial).2 in
  exists connection,
    getConnection "max" StateExamples.clusterApiUrl None s' = (Js.Return connection, s').
Proof.
  intros s'.
  exists (mkConnection "https://devnet.solana.com" "max" proxiedFunctions 0).
  apply (getConnection_again "max" StateExamples.clusterApiUrl (Some "devnet") initial s'
           (mkConnection "https://devnet.solana.com" "max" proxiedFunctions 0)).
  - reflexivity.
  - vm_compute. reflexivity.
Defined.

Lemma one_connection_per_network_witness :
  let results :=
    (getConnections "max" StateExamples.clusterApiUrl
       [Some "devnet"; Some "testnet"; None; Some "devnet"]%string initial).1 in
  let devnet := mkConnection "https://devnet.solana.com" "max" proxiedFunctions 0 in
  Js.Return devnet ∈ results /\ devnet = devnet.
Proof.
  intros results devnet.
  assert (H : Js.Return devnet ∈ results) by (vm_compute; constructor).
  split; [exact H|].
  exact (one_connection_per_network "max" StateExamples.clusterApiUrl
           [Some "devnet"; Some "testnet"; None; Some "devnet"]%string devnet devnet
           H H eq_refl).
Defined.

End ConnectionAPIFacts.

(** ** The wallet *)
Module WalletAPIFacts.
Import Trace WalletAPI.

Section WalletAPI.
Context {PublicKey Account Instruction : Type}.
Context (publicKey : Account -> PublicKey) (pubkey : Wallet -> PublicKey).
Context (DEFAULT_COMMITMENT : string) (postTransactionSleepMS : option Z).
Context (clusterApiUrl : option string -> Js.result string).
Context (c : @Collaborators PublicKey Account Instruction).
#[local] Abbreviation Transaction := (@WalletAPI.Transaction PublicKey Account Instruction).
#[local] Abbreviation event := (@WalletAPI.event PublicKey Account Instruction).

(** X14: while no wallet is set, [makeTransaction], [sendTransaction],
    [sendTransactionFromAccount] and [airdropTo] throw "Connect first"
    without asking anything of the wallet or the chain, [getWallet] throws
    "notification.error.noWallet", [airdrop] yields nothing and does not
    throw, and [disconnect] does nothing. *)
Theorem nothing_before_connect (s : state)
    (instructions : list Instruction) (signers : list Account)
    (transaction : Transaction) (signer : Account)
    (commitment preflightCommitment : option string) (to : PublicKey) :
  wallet s = None ->
  makeTransaction publicKey pubkey c instructions signers s
    = ([], Js.Throw (Js.Error "Connect first"))
  /\ sendTransaction DEFAULT_COMMITMENT postTransactionSleepMS c transaction
       commitment preflightCommitment s
     = ([], Js.Throw (Js.Error "Connect first"))
  /\ sendTransactionFromAccount DEFAULT_COMMITMENT postTransactionSleepMS c transaction
       signer commitment preflightCommitment s
     = ([], Js.Throw (Js.Error "Connect first"))
  /\ airdropTo c to s = ([], Js.Throw (Js.Error "Connect first"))
  /\ getWallet s = Js.Throw (Js.Error "notification.error.noWallet")
  /\ airdrop pubkey c s = ([], Js.Return None)
  /\ disconnect (PublicKey := PublicKey) (Account := Account) (Instruction := Instruction) s
     = ([], s).
Proof.
  intros Hw.
  unfold makeTransaction, sendTransaction, sendTransactionFromAccount, airdropTo,
    getWallet, airdrop, disconnect, connected.
  rewrite Hw. repeat split; reflexivity.
Qed.

Lemma disconnect_state (s : state) :
  (disconnect (PublicKey := PublicKey) (Account := Account) (Instruction := Instruction)
     s).2 = s.
Proof. unfold disconnect. now destruct (wallet s). Qed.

Lemma connect_keeps (cluster : string) (type : WalletType) (s : state) :
  is_Some (wallet s) -> is_Some (connection s) ->
  is_Some (wallet (connect DEFAULT_COMMITMENT clusterApiUrl cluster type s).2)
  /\ is_Some (connection (connect DEFAULT_COMMITMENT clusterApiUrl cluster type s).2).
Proof.
  intros Hw Hc. unfold connect.
  destruct (createWallet clusterApiUrl type cluster) as [newWallet|e]; [|auto].
  destruct (ConnectionAPI.getConnection _ _ _ _) as [[made|e] api]; cbn; eauto.
Qed.

(** X15: the module never forgets its wallet.  After a [connect] that
    succeeded, [getWallet] returns a wallet whatever calls of [connect] and
    [disconnect] follow, and after calls of [disconnect] alone it still
    returns the wallet of that [connect]. *)
Theorem connected_for_good (cluster : string) (type : WalletType) (s s1 : state)
    (w : Wallet) (operations : list operation) :
  connect DEFAULT_COMMITMENT clusterApiUrl cluster type s = (Js.Return w, s1) ->
  let s2 :=
    foldl (after (PublicKey := PublicKey) (Account := Account)
             (Instruction := Instruction) DEFAULT_COMMITMENT clusterApiUrl)
      s1 operations in
  (exists w', getWallet s2 = Js.Return w')
  /\ (Forall (fun op => op = DisconnectWallet) operations -> getWallet s2 = Js.Return w).
Proof.
  intros Hconnect s2.
  assert (H1 : wallet s1 = Some w /\ is_Some (connection s1)).
  { unfold connect in Hconnect.
    destruct (createWallet clusterApiUrl type cluster) as [newWallet|e]; [|discriminate].
    destruct (ConnectionAPI.getConnection _ _ _ _) as [[made|e] api]; [|discriminate].
    injection Hconnect as <- <-. cbn. eauto. }
  destruct H1 as [Hw Hc].
  assert (Hget : forall s w, wallet s = Some w -> is_Some (connection s) ->
                   getWallet s = Js.Return w).
  { intros s' w' Hw' [conn Hc']. unfold getWallet, connected. now rewrite Hw', Hc'. }
  split.
  - assert (H2 : is_Some (wallet s2) /\ is_Some (connection s2)).
    { unfold s2. clear s2 Hconnect. assert (Hw1 : is_Some (wallet s1)) by eauto.
      clear Hw. revert s1 Hw1 Hc.
      induction operations as [|op rest IH]; intros s1 Hw1 Hc; cbn [foldl]; [auto|].
      apply IH; destruct op as [cl ty|]; cbn [after];
        rewrite ?disconnect_state; try assumption; now apply connect_keeps. }
    destruct H2 as [[w' Hw'] Hc']. exists w'. now apply Hget.
  - intros Hall. unfold s2. clear s2 Hconnect. revert s1 Hw Hc.
    induction Hall as [|op rest -> _ IH]; intros s1 Hw Hc; cbn [foldl].
    + now apply Hget.
    + apply IH; cbn [after]; rewrite disconnect_state; assumption.
Qed.

(** X16: a [connect] that succeeds makes its cluster the current one of
    the connection module: [getConnection()] without a cluster, which is how
    [confirmTransaction] finds its connection, then returns the connection
    the wallet module holds. *)
Theorem connect_selects_the_connection (cluster : string) (type : WalletType)
    (s s1 : state) (w : Wallet) :
  cluster <> ""%string ->
  connect DEFAULT_COMMITMENT clusterApiUrl cluster type s = (Js.Return w, s1) ->
  exists made,
    connection s1 = Some made
    /\ ConnectionAPI.getConnection DEFAULT_COMMITMENT clusterApiUrl None (connectionAPI s1)
       = (Js.Return made, connectionAPI s1).
Proof.
  intros Hcluster. unfold connect.
  destruct (createWallet clusterApiUrl type cluster) as [newWallet|e]; [|discriminate].
  destruct (ConnectionAPI.getConnection _ _ _ _) as [[made|e] api] eqn:Eget;
    [|discriminate].
  intros [= <- <-]. exists made. split; [reflexivity|]. cbn [connectionAPI].
  assert (Hgiven : ConnectionAPI.given (Some cluster) = true).
  { cbn. now destruct (String.eqb_spec cluster ""). }
  exact (proj2 (ConnectionAPIFacts.getConnection_settles DEFAULT_COMMITMENT clusterApiUrl
                  (Some cluster) _ _ made Hgiven Eget)).
Qed.

(** X17: [sendTransaction] on a connected module.  When the wallet
    refuses to sign, nothing else happens.  When it returns, it has, in this
    order, had the transaction signed by the wallet, sent the signed
    transaction, awaited the confirmation of the signature the chain gave,
    announced the confirmation and slept; it returns that signature. *)
Theorem sendTransaction_sends_what_the_wallet_signed (transaction : Transaction)
    (commitment preflightCommitment : option string) (s : state)
    (w : Wallet) (conn : ConnectionAPI.Connection) :
  wallet s = Some w -> connection s = Some conn ->
  let run :=
    sendTransaction DEFAULT_COMMITMENT postTransactionSleepMS c transaction
      commitment preflightCommitment s in
  (forall e, sign c w transaction = Js.Throw e -> run = ([Sign transaction], Js.Throw e))
  /\ (forall signature, run.2 = Js.Return signature ->
      exists signed,
        sign c w transaction = Js.Return signed
        /\ sendRawTransaction c conn signed (default DEFAULT_COMMITMENT preflightCommitment)
           = Js.Return signature
        /\ run.1
           = [Sign transaction;
              SendRawTransaction signed (default DEFAULT_COMMITMENT preflightCommitment);
              ConfirmTransaction signature (default DEFAULT_COMMITMENT commitment);
              EmitConfirmed signature;
              Sleep (POST_TRANSACTION_SLEEP_MS postTransactionSleepMS)]).
Proof.
  intros Hw Hc run. unfold run, sendTransaction, awaitConfirmation, connected.
  rewrite Hw, Hc. unfold mbind, trace_bind, Trace.bind. cbn [lift request fst snd app].
  split.
  - intros e He. now rewrite He.
  - intros signature. destruct (sign c w transaction) as [signed|e]; [|discriminate].
    cbn [fst snd].
    destruct (sendRawTransaction c conn signed _) as [sig|e] eqn:Eraw; [|discriminate].
    cbn [fst snd].
    destruct (confirmTransaction c sig _) as [[]|e]; [|discriminate].
    cbn. intros [= <-]. exists signed. auto.
Qed.

End WalletAPI.

Lemma nothing_before_connect_witness :
  getWallet initial = Js.Throw (Js.Error "notification.error.noWallet")
  /\ airdrop StateExamples.pubkey StateExamples.chain initial = ([], Js.Return None).
Proof.
  destruct (nothing_before_connect id StateExamples.pubkey "max" None StateExamples.chain
              initial ["approve"]%string [] StateExamples.transaction "signer" None None
              "to" eq_refl)
    as (_ & _ & _ & _ & Hwallet & Hairdrop & _).
  split; [exact Hwallet|exact Hairdrop].
Defined.

Lemma connected_for_good_witness :
  getWallet
    (foldl (after (PublicKey := string) (Account := string) (Instruction := string)
              "max" StateExamples.clusterApiUrl)
       StateExamples.connectedState [DisconnectWallet; DisconnectWallet])
  = Js.Return (SolletWallet "https://devnet.solana.com").
Proof.
  apply (connected_for_good (PublicKey := string) (Account := string)
           (Instruction := string) "max" StateExamples.clusterApiUrl
           "devnet" SOLLET initial StateExamples.connectedState
           (SolletWallet "https://devnet.solana.com")
           [DisconnectWallet; DisconnectWallet]).
  - vm_compute. reflexivity.
  - repeat constructor.
Defined.

Lemma connect_selects_the_connection_witness :
  exists made,
    connection StateExamples.connectedState = Some made
    /\ ConnectionAPI.getConnection "max" StateExamples.clusterApiUrl None
         (connectionAPI StateExamples.connectedState)
       = (Js.Return made, connectionAPI StateExamples.connectedState).
Proof.
  apply (connect_selects_the_connection "max" StateExamples.clusterApiUrl
           "devnet" SOLLET initial StateExamples.connectedState
           (SolletWallet "https://devnet.solana.com")).
  - discriminate.
  - vm_compute. reflexivity.
Defined.

Lemma sendTransaction_sends_what_the_wallet_signed_witness :
  (sendTransaction "max" None StateExamples.chain StateExamples.transaction None None
     StateExamples.connectedState).1
  = [Sign StateExamples.transaction;
     SendRawTransaction StateExamples.transaction "max";
     ConfirmTransaction "signature" "max";
     EmitConfirmed "signature";
     Sleep 500].
Proof.
  destruct (proj2 (sendTransaction_sends_what_the_wallet_signed "max" None
                     StateExamples.chain StateExamples.transaction None None
                     StateExamples.connectedState
                     (SolletWallet "https://devnet.solana.com")
                     (ConnectionAPI.mkConnection "https://devnet.solana.com" "max"
                        ConnectionAPI.proxiedFunctions 0)
                     ltac:(vm_compute; reflexivity) ltac:(vm_compute; reflexivity))
              "signature" ltac:(vm_compute; reflexivity))
    as (signed & Hsigned & _ & Htrace).
  injection Hsigned as <-. exact Htrace.
Defined.

End WalletAPIFacts.

(** ** The global slice *)
Module GlobalSliceFacts.
Import GlobalSlice.

Section Reducer.
Context (isPendingAction isRejectedAction isFulfilledAction : action -> bool).
#[local] Abbreviation dispatch :=
  (GlobalSlice.dispatch isPendingAction isRejectedAction isFulfilledAction).
#[local] Abbreviation reducer :=
  (GlobalSlice.reducer isPendingAction isRejectedAction isFulfilledAction).

Lemma loading_caseReducer (state : GlobalState) (a : action) :
  loading (caseReducer state a) = loading state.
Proof. now destruct a. Qed.

Lemma dispatch_loading (state : GlobalState) (a : action) :
  0 <= loading state -> 0 <= loading (dispatch state a).
Proof.
  intros H. unfold GlobalSlice.dispatch, GlobalSlice.reducer.
  pose proof (loading_caseReducer state a) as Hc.
  destruct (isPendingAction a), (isRejectedAction a), (isFulfilledAction a);
    try destruct (action_error a) as [message|]; cbn; lia.
Qed.

(** X18: whatever actions are dispatched, from the initial state on,
    [loading] never drops below 0. *)
Theorem loading_never_negative (actions : list action) :
  0 <= loading (foldl dispatch initialState actions).
Proof.
  assert (H : forall state, 0 <= loading state ->
                0 <= loading (foldl dispatch state actions)).
  { induction actions as [|a rest IH]; intros state Hs; cbn [foldl]; [exact Hs|].
    apply IH. now apply dispatch_loading. }
  apply H. cbn. lia.
Qed.

(** X19: [loading] counts the requests under way.  A pending action
    raises it by one and the rejected or fulfilled action that follows
    brings it back to where it was; a rejected or fulfilled action that
    comes with nothing pending leaves it at 0. *)
Theorem loading_counts_pending_requests (state : GlobalState) (pending settled : action) :
  0 <= loading state ->
  isPendingAction pending = true -> isRejectedAction pending = false ->
  isFulfilledAction pending = false ->
  isPendingAction settled = false ->
  xorb (isRejectedAction settled) (isFulfilledAction settled) = true ->
  (isRejectedAction settled = true -> is_Some (action_error settled)) ->
  loading (dispatch state pending) = loading state + 1
  /\ loading (dispatch (dispatch state pending) settled) = loading state
  /\ loading (dispatch initialState settled) = 0.
Proof.
  intros Hs Hp1 Hp2 Hp3 Hs1 Hs2 Herr.
  unfold GlobalSlice.dispatch, GlobalSlice.reducer.
  rewrite Hp1, Hp2, Hp3, Hs1. cbn.
  pose proof (loading_caseReducer state pending) as Hc.
  pose proof (fun s => loading_caseReducer s settled) as Hc'.
  destruct (isRejectedAction settled), (isFulfilledAction settled); try discriminate.
  - destruct (Herr eq_refl) as [message ->]. cbn.
    rewrite !Hc'. cbn. rewrite Hc. lia.
  - cbn. rewrite !Hc'. cbn. rewrite Hc. lia.
Qed.

(** X20: only a rejected action touches [error]: an action that is not
    rejected, a fulfilled one included, leaves the error of an earlier
    failure in place. *)
Theorem success_keeps_the_error (state : GlobalState) (a : action) :
  isRejectedAction a = false ->
  error (dispatch state a) = error state.
Proof.
  intros Hr. unfold GlobalSlice.dispatch, GlobalSlice.reducer. rewrite Hr.
  assert (Hc : error (caseReducer state a) = error state) by now destruct a.
  destruct (isPendingAction a), (isFulfilledAction a); cbn; exact Hc.
Qed.

End Reducer.

Lemma loading_counts_pending_requests_witness :
  let pending := StateExamples.endsWith "/pending" in
  let rejected := StateExamples.endsWith "/rejected" in
  let fulfilled := StateExamples.endsWith "/fulfilled" in
  loading
    (dispatch pending rejected fulfilled
       (dispatch pending rejected fulfilled initialState StateExamples.pendingAction)
       StateExamples.rejectedAction)
  = loading initialState.
Proof.
  intros pending rejected fulfilled.
  apply (loading_counts_pending_requests pending rejected fulfilled initialState
           StateExamples.pendingAction StateExamples.rejectedAction).
  - simpl. lia.
  - reflexivity.
  - reflexivity.
  - reflexivity.
  - reflexivity.
  - reflexivity.
  - intros _. eexists. reflexivity.
Defined.

Lemma success_keeps_the_error_witness :
  let pending := StateExamples.endsWith "/pending" in
  let rejected := StateExamples.endsWith "/rejected" in
  let fulfilled := StateExamples.endsWith "/fulfilled" in
  let failed := dispatch pending rejected fulfilled initialState StateExamples.rejectedAction in
  error (dispatch pending rejected fulfilled failed (GetAvailableTokensFulfilled []))
  = error failed.
Proof.
  intros pending rejected fulfilled failed.
  apply (success_keeps_the_error pending rejected fulfilled failed
           (GetAvailableTokensFulfilled [])).
  reflexivity.
Defined.

End GlobalSliceFacts.

(** ** Sequences of calls *)
Module TraceFacts.
Import Trace.
Section Trace.
Context {E : Type}.

Lemma bind_lift_return {A B : Type} (a : A) (k : A -> @action E B) :
  (lift (Js.Return a) ≫= k) = k a.
Proof. unfold mbind, trace_bind, Trace.bind, lift. cbn. now destruct (k a). Qed.

Lemma bind_lift_throw {A B : Type} (e : Js.error) (k : A -> @action E B) :
  (lift (Js.Throw e) ≫= k) = ([], Js.Throw e).
Proof. reflexivity. Qed.

(** What a sequence that returns went through. *)
Lemma bind_returns {A B : Type} (m : @action E A) (k : A -> @action E B) (b : B) :
  (m ≫= k).2 = Js.Return b ->
  exists a, m.2 = Js.Return a /\ (k a).2 = Js.Return b /\ (m ≫= k).1 = m.1 ++ (k a).1.
Proof.
  unfold mbind, trace_bind, Trace.bind.
  destruct m.2 as [a|e]; cbn; [|discriminate]. intros Hb. exists a. auto.
Qed.

(** The events of a sequence begin with those of its first step. *)
Lemma bind_trace {A B : Type} (m : @action E A) (k : A -> @action E B) :
  exists rest, (m ≫= k).1 = m.1 ++ rest
    /\ (forall e, m.2 = Js.Throw e -> rest = [] /\ (m ≫= k).2 = Js.Throw e)
    /\ (forall a, m.2 = Js.Return a -> rest = (k a).1 /\ (m ≫= k).2 = (k a).2).
Proof.
  unfold mbind, trace_bind, Trace.bind.
  destruct m.2 as [a|e]; cbn.
  - exists (k a).1. split; [reflexivity|]. split; [discriminate|]. now intros ? [= <-].
  - exists []. rewrite app_nil_r. split; [reflexivity|]. split; [|discriminate].
    now intros ? [= <-].
Qed.

End Trace.
End TraceFacts.

(** ** Token API, the operations *)
Module TokenOpsFacts.
Import Trace TraceFacts TokenOps.

Section TokenOps.
Context {PublicKey Account : Type} `{EqDecision PublicKey}.
Context (toBase58 : PublicKey -> string) (publicKey : Account -> PublicKey).
Context (pubkey : WalletAPI.Wallet -> PublicKey).
Context (toString : DecimalJs.Decimal -> string) (newDecimal : string -> DecimalJs.Decimal).
Context (DEFAULT_COMMITMENT : string) (postTransactionSleepMS : option Z).
Context (env : @Environment PublicKey Account).
#[local] Abbreviation Instruction := (@Instructions.Instruction PublicKey Account).
#[local] Abbreviation Transaction := (@WalletAPI.Transaction PublicKey Account Instruction).
#[local] Abbreviation event := (@TokenOps.event PublicKey Account).
#[local] Abbreviation Token := (Token.Token PublicKey DecimalJs.Decimal).
#[local] Abbreviation TokenAccount := (TokenAccount.TokenAccount PublicKey DecimalJs.Decimal).

Lemma getWalletPubkey_returns (owner : PublicKey) :
  getWalletPubkey pubkey env = Js.Return owner ->
  exists w conn,
    WalletAPI.wallet (walletState env) = Some w
    /\ WalletAPI.connection (walletState env) = Some conn
    /\ owner = pubkey w.
Proof.
  unfold getWalletPubkey, WalletAPI.getWallet, WalletAPI.connected.
  destruct (WalletAPI.wallet (walletState env)) as [w|]; [|discriminate].
  destruct (WalletAPI.connection (walletState env)) as [conn|]; [|discriminate].
  cbn. intros [= <-]. eauto.
Qed.

Lemma getWalletPubkey_throws :
  WalletAPI.wallet (walletState env) = None ->
  getWalletPubkey pubkey env = Js.Throw (Js.Error "notification.error.noWallet").
Proof.
  intros Hw. unfold getWalletPubkey, WalletAPI.getWallet, WalletAPI.connected.
  now rewrite Hw.
Qed.

(** A transaction that was made: by a connected wallet, which signs
    first, for the blockhash the chain gave. *)
Lemma makeTransaction_returns (instructions : list Instruction) (signers : list Account)
    (transaction : Transaction) :
  (makeTransaction publicKey pubkey env instructions signers).2 = Js.Return transaction ->
  exists owner blockhash,
    getWalletPubkey pubkey env = Js.Return owner
    /\ transaction
       = WalletAPI.mkTransaction blockhash (owner :: map publicKey signers)
           instructions signers
    /\ (makeTransaction publicKey pubkey env instructions signers).1
       = [Wallet WalletAPI.GetRecentBlockhash].
Proof.
  unfold makeTransaction, via, WalletAPI.makeTransaction, getWalletPubkey,
    WalletAPI.getWallet, WalletAPI.connected.
  destruct (WalletAPI.wallet (walletState env)) as [w|]; [|discriminate].
  destruct (WalletAPI.connection (walletState env)) as [conn|]; [|discriminate].
  rewrite bind_lift_return. cbn.
  destruct (WalletAPI.getRecentBlockhash (chain env) conn) as [blockhash|e];
    [|discriminate].
  cbn. intros [= <-]. eauto.
Qed.

(** A transaction that was sent: signed by the wallet, sent as signed,
    confirmed under the signature that is returned. *)
Lemma sendTransaction_returns (transaction : Transaction) (signature : string) :
  (sendTransaction DEFAULT_COMMITMENT postTransactionSleepMS env transaction).2
  = Js.Return signature ->
  exists signed,
    (sendTransaction DEFAULT_COMMITMENT postTransactionSleepMS env transaction).1
    = [Wallet (WalletAPI.Sign transaction);
       Wallet (WalletAPI.SendRawTransaction signed DEFAULT_COMMITMENT);
       Wallet (WalletAPI.ConfirmTransaction signature DEFAULT_COMMITMENT);
       Wallet (WalletAPI.EmitConfirmed signature);
       Wallet (WalletAPI.Sleep (WalletAPI.POST_TRANSACTION_SLEEP_MS postTransactionSleepMS))].
Proof.
  unfold sendTransaction, via, WalletAPI.sendTransaction, WalletAPI.awaitConfirmation,
    WalletAPI.connected.
  destruct (WalletAPI.wallet (walletState env)) as [w|]; [|discriminate].
  destruct (WalletAPI.connection (walletState env)) as [conn|]; [|discriminate].
  rewrite bind_lift_return. cbn [fst snd].
  unfold mbind, trace_bind, Trace.bind, request, lift. cbn [fst snd default].
  destruct (WalletAPI.sign (chain env) w transaction) as [signed|e]; [|discriminate].
  cbn [fst snd].
  destruct (WalletAPI.sendRawTransaction (chain env) conn signed _) as [sig|e];
    [|discriminate].
  cbn [fst snd].
  destruct (WalletAPI.confirmTransaction (chain env) sig _) as [[]|e]; [|discriminate].
  cbn. intros [= <-]. eauto.
Qed.

#[local] Abbreviation createToken :=
  (TokenOps.createToken publicKey pubkey DEFAULT_COMMITMENT postTransactionSleepMS env).
#[local] Abbreviation createAccountForToken :=
  (TokenOps.createAccountForToken publicKey pubkey toString newDecimal
     DEFAULT_COMMITMENT postTransactionSleepMS env).
#[local] Abbreviation mintTo :=
  (TokenOps.mintTo toBase58 publicKey pubkey DEFAULT_COMMITMENT postTransactionSleepMS env).
#[local] Abbreviation airdropToWallet :=
  (TokenOps.airdropToWallet publicKey pubkey toString newDecimal
     DEFAULT_COMMITMENT postTransactionSleepMS env).

Lemma built_returns (i : Instruction) :
  (built i : @action event Instruction) = ([Built i], Js.Return i).
Proof. reflexivity. Qed.

(** X25: a [createToken] that returns has built one instruction to
    initialise the mint at the key of the new account, with 2 decimals when
    none or 0 were asked for and with the decimals asked for otherwise, with
    the authority given or else the wallet's key as mint authority and with
    no freeze authority; it had the wallet sign one transaction, made of the
    instruction that creates the account and this one, with the wallet and the
    new account as signers; and it returns what [tokenInfo] knows of the new
    mint. *)
Theorem createToken_defaults (decimals : option Z) (mintAuthority : option PublicKey)
    (token : Token) :
  (createToken decimals mintAuthority).2 = Js.Return token ->
  let mintAccount := newAccount env in
  exists created d authority owner blockhash,
    let initMint :=
      Instructions.InitMintInstruction (TOKEN_PROGRAM_ID env) (publicKey mintAccount) d
        authority None in
    makeNewAccountInstruction env (publicKey mintAccount) Instructions.MintLayout
      (TOKEN_PROGRAM_ID env) = Js.Return created
    /\ (decimals = None \/ decimals = Some 0 -> d = 2)
    /\ (forall n, decimals = Some n -> n <> 0 -> d = n)
    /\ getWalletPubkey pubkey env = Js.Return owner
    /\ authority = default owner mintAuthority
    /\ instructions_built (createToken decimals mintAuthority).1 = [initMint]
    /\ transactions_signed (createToken decimals mintAuthority).1
       = [WalletAPI.mkTransaction blockhash [owner; publicKey mintAccount]
            [created; initMint] [mintAccount]]
    /\ TokenAPI.tokenInfo (rpc env) (publicKey mintAccount) = Js.Return token.
Proof.
  intros Hrun mintAccount. unfold TokenOps.createToken in *. fold mintAccount in Hrun |- *.
  apply bind_returns in Hrun as (created & Ecreated & Hrun & T1).
  apply bind_returns in Hrun as (authority & Eauthority & Hrun & T2).
  apply bind_returns in Hrun as (initMint & Einit & Hrun & T3).
  apply bind_returns in Hrun as (transaction & Etx & Hrun & T4).
  apply bind_returns in Hrun as (signature & Esend & Hrun & T5).
  cbn in Ecreated, Eauthority, Einit, Hrun. injection Einit as <-.
  destruct (makeTransaction_returns _ _ _ Etx) as (owner & blockhash & Eowner & -> & T6).
  destruct (sendTransaction_returns _ _ Esend) as (signed & T7).
  set (d := match decimals with
            | Some d => if d =? 0 then 2 else d
            | None => 2
            end) in *.
  exists created, d, authority, owner, blockhash.
  split; [exact Ecreated|].
  split; [intros [->| ->]; reflexivity|].
  split; [intros n -> Hn; unfold d; now destruct (Z.eqb_spec n 0)|].
  split; [exact Eowner|].
  split.
  { destruct mintAuthority as [key|]; cbn in *; congruence. }
  rewrite T1, T2, T3, T4, T5, T6, T7. cbn. auto.
Qed.

(** X26: [mintTo] leaves no trace and throws an assertion error when the
    token of the recipient has no mint authority, or has one that is not the
    key of the connected wallet; a [mintTo] that returns was called by the
    mint authority and has built one instruction, which mints the amount to
    the recipient under that authority. *)
Theorem mintTo_requires_mint_authority (recipient : TokenAccount)
    (tokenAmount : JsNumber.number) :
  let token := TokenAccount.mint recipient in
  (Token.mintAuthority token = None ->
   exists message, mintTo recipient tokenAmount = ([], Js.Throw (Js.AssertionError message)))
  /\ (forall authority owner,
        Token.mintAuthority token = Some authority ->
        getWalletPubkey pubkey env = Js.Return owner ->
        owner <> authority ->
        exists message,
          mintTo recipient tokenAmount = ([], Js.Throw (Js.AssertionError message)))
  /\ (forall signature,
        (mintTo recipient tokenAmount).2 = Js.Return signature ->
        exists owner,
          Token.mintAuthority token = Some owner
          /\ getWalletPubkey pubkey env = Js.Return owner
          /\ instructions_built (mintTo recipient tokenAmount).1
             = [Instructions.MintToInstruction (TOKEN_PROGRAM_ID env) (Token.address token)
                  (TokenAccount.address recipient) owner [] tokenAmount]).
Proof.
  intros token. unfold TokenOps.mintTo. fold token. split; [|split].
  - intros ->. eexists. rewrite bind_lift_return. cbn [PoolAPI.assert].
    rewrite bind_lift_throw. reflexivity.
  - intros authority owner -> Howner Hne. eexists. rewrite Howner.
    cbn [mbind result_bind Js.bind mret result_ret].
    rewrite bind_lift_return. rewrite bool_decide_eq_false_2 by exact Hne.
    cbn [PoolAPI.assert]. rewrite bind_lift_throw. reflexivity.
  - intros signature Hrun.
    apply bind_returns in Hrun as (authorised & Eauth & Hrun & T1).
    apply bind_returns in Hrun as ([] & Eassert & Hrun & T2).
    apply bind_returns in Hrun as (owner & Eowner & Hrun & T3).
    apply bind_returns in Hrun as (instruction & Ebuilt & Hrun & T4).
    apply bind_returns in Hrun as (transaction & Etx & Hrun & T5).
    cbn in Eauth, Eassert, Eowner, Ebuilt. injection Ebuilt as <-.
    destruct authorised; [|discriminate].
    destruct (makeTransaction_returns _ _ _ Etx) as (owner' & blockhash & _ & -> & T6).
    destruct (sendTransaction_returns _ _ Hrun) as (signed & T7).
    destruct (Token.mintAuthority token) as [authority|]; [|discriminate].
    rewrite Eowner in Eauth. cbn in Eauth. injection Eauth as Eauth.
    apply bool_decide_eq_true in Eauth. subst authority.
    exists owner. split; [reflexivity|]. split; [exact Eowner|].
    rewrite T1, T2, T3, T4, T5, T6, T7. reflexivity.
Qed.

(** X27: [createAccountForToken] with a wallet connected.  When the token
    cannot be found it throws what [tokenInfo] threw and leaves no trace.
    When the transaction that creates the account went through and the
    account still is not found to be a token account, it throws "Unable to
    retrieve the created token account": by then it has built the
    instruction that initialises the account, owned by the owner given or else
    by the wallet, and had the transaction signed. *)
Theorem createAccountForToken_checks_before_and_after (token : Token)
    (owner : option PublicKey) (walletKey : PublicKey) :
  getWalletPubkey pubkey env = Js.Return walletKey ->
  let account := newAccount env in
  (forall e,
     TokenAPI.tokenInfo (rpc env) (Token.address token) = Js.Throw e ->
     createAccountForToken token owner = ([], Js.Throw e))
  /\ (forall checkToken created transaction signature,
        TokenAPI.tokenInfo (rpc env) (Token.address token) = Js.Return checkToken ->
        makeNewAccountInstruction env (publicKey account) Instructions.AccountLayout
          (TOKEN_PROGRAM_ID env) = Js.Return created ->
        let initAccount :=
          Instructions.InitAccountInstruction (TOKEN_PROGRAM_ID env) (Token.address token)
            (publicKey account) (default walletKey owner) in
        (makeTransaction publicKey pubkey env [created; initAccount] [account]).2
        = Js.Return transaction ->
        (sendTransaction DEFAULT_COMMITMENT postTransactionSleepMS env transaction).2
        = Js.Return signature ->
        TokenAPI.tokenAccountInfo toString newDecimal (rpc env) (publicKey account)
        = Js.Return None ->
        (createAccountForToken token owner).2
        = Js.Throw (Js.Error "Unable to retrieve the created token account")
        /\ instructions_built (createAccountForToken token owner).1 = [initAccount]
        /\ transactions_signed (createAccountForToken token owner).1 = [transaction]).
Proof.
  intros Hwallet account. unfold TokenOps.createAccountForToken. fold account.
  rewrite Hwallet, bind_lift_return. split.
  - intros e ->. now rewrite bind_lift_throw.
  - intros checkToken created transaction signature -> Hcreated.
    set (initAccount := Instructions.InitAccountInstruction _ _ _ _).
    intros Htx Hsend Hinfo.
    rewrite bind_lift_return.
    assert (Howner : match owner with
                     | Some key => Js.Return key
                     | None => Js.Return walletKey
                     end = Js.Return (default walletKey owner)) by now destruct owner.
    rewrite Howner, bind_lift_return, Hcreated, bind_lift_return, Hinfo.
    fold initAccount.
    destruct (sendTransaction_returns _ _ Hsend) as (signed & Tsend).
    destruct (makeTransaction_returns _ _ _ Htx) as (w & blockhash & _ & Etx & Tmake).
    unfold mbind, trace_bind, Trace.bind.
    rewrite built_returns. cbn [fst snd]. rewrite Htx. cbn [fst snd]. rewrite Hsend.
    cbn [fst snd lift]. rewrite Tmake, Tsend. cbn. auto.
Qed.

(** What is known once every promise is fulfilled. *)
Lemma promise_all_returns {A : Type} (promises : list (Js.result A)) :
  forall values, promise_all promises = Js.Return values -> promises = map Js.Return values.
Proof.
  induction promises as [|[a|e] rest IH]; intros values; cbn.
  - now intros [= <-].
  - destruct (promise_all rest) as [values'|e]; [|discriminate].
    intros [= <-]. cbn. now rewrite (IH values' eq_refl).
  - discriminate.
Qed.

(** [secondTokenAccount] yields an account exactly for the data the node
    parsed: at the address it was given, with no ledger position and no
    earlier snapshot. *)
Lemma secondTokenAccount_returns (accountResult : PublicKey * Js.value)
    (found : option TokenAccount) :
  secondTokenAccount toString newDecimal env accountResult = Js.Return found ->
  match found with
  | Some account =>
      Js.truthy (TokenAPI.extractParsedTokenAccountInfo accountResult.2) = true
      /\ TokenAccount.address account = accountResult.1
      /\ TokenAccount.lastUpdatedSlot account = None
      /\ TokenAccount.previous account = None
  | None => Js.truthy (TokenAPI.extractParsedTokenAccountInfo accountResult.2) = false
  end.
Proof.
  unfold secondTokenAccount.
  destruct (Js.truthy (TokenAPI.extractParsedTokenAccountInfo accountResult.2)); cbn.
  - unfold mbind, result_bind.
    destruct (Js.member _ "mint") as [mintText|e]; cbn; [|discriminate].
    destruct (TokenAPI.newPublicKey (rpc env) mintText) as [key|e]; cbn; [|discriminate].
    destruct (TokenAPI.tokenInfo (rpc env) key) as [token|e]; cbn; [|discriminate].
    destruct (Js.member _ "tokenAmount") as [tokenAmount|e]; cbn; [|discriminate].
    destruct (Js.member tokenAmount "amount") as [amount|e]; cbn; [|discriminate].
    destruct (TokenAPI.decimalOfBN (rpc env) amount) as [balance|e]; cbn; [|discriminate].
    intros [= <-]. cbn. auto.
  - now intros [= <-].
Qed.

Lemma accounts_of_results (infos : list (PublicKey * Js.value)) :
  forall found : list (option TokenAccount),
    map (secondTokenAccount toString newDecimal env) infos = map Js.Return found ->
    map TokenAccount.address (omap id found)
    = map fst (List.filter
                 (fun info => Js.truthy (TokenAPI.extractParsedTokenAccountInfo info.2))
                 infos)
    /\ Forall (fun account => TokenAccount.lastUpdatedSlot account = None
                              /\ TokenAccount.previous account = None)
         (omap id found).
Proof.
  induction infos as [|info infos IH]; intros [|first found] Hmap; try discriminate.
  - split; [reflexivity|constructor].
  - cbn [map] in Hmap. injection Hmap as Hfirst Hrest.
    destruct (IH found Hrest) as [IH1 IH2].
    apply secondTokenAccount_returns in Hfirst.
    destruct first as [account|]; cbn [List.filter].
    + destruct Hfirst as (-> & Haddress & Hslot & Hprevious).
      cbn. rewrite IH1, Haddress. split; [reflexivity|]. now constructor.
    + rewrite Hfirst. cbn. auto.
Qed.

(** X28: [getAccountsForWallet], when it returns, lists one account for
    each account of the wallet that the node parsed, in the order of the
    node's answer and at the address given there, with no ledger position
    and no earlier snapshot; [getAccountsForToken] returns those of them
    whose mint has the address of the token, all of them and no other, in
    the same order. *)
Theorem getAccountsForWallet_lists_parsed_accounts :
  (forall accounts,
     getAccountsForWallet pubkey toString newDecimal env = Js.Return accounts ->
     exists owner infos,
       getWalletPubkey pubkey env = Js.Return owner
       /\ getParsedTokenAccountsByOwner env owner = Js.Return infos
       /\ map TokenAccount.address accounts
          = map fst (List.filter
                       (fun info =>
                          Js.truthy (TokenAPI.extractParsedTokenAccountInfo info.2))
                       infos)
       /\ Forall (fun account => TokenAccount.lastUpdatedSlot account = None
                                 /\ TokenAccount.previous account = None) accounts)
  /\ (forall token accounts,
        getAccountsForToken pubkey toString newDecimal env token = Js.Return accounts ->
        exists all,
          getAccountsForWallet pubkey toString newDecimal env = Js.Return all
          /\ accounts
             = List.filter
                 (fun account =>
                    bool_decide (Token.address (TokenAccount.mint account)
                                 = Token.address token))
                 all).
Proof.
  split.
  - intros accounts. unfold getAccountsForWallet, mbind, result_bind.
    destruct (getWalletPubkey pubkey env) as [owner|e]; cbn [Js.bind]; [|discriminate].
    destruct (getParsedTokenAccountsByOwner env owner) as [infos|e] eqn:Einfos;
      cbn [Js.bind]; [|discriminate].
    destruct (promise_all _) as [found|e] eqn:Eall; cbn [Js.bind]; [|discriminate].
    intros [= <-]. apply promise_all_returns in Eall.
    destruct (accounts_of_results infos found Eall) as [H1 H2].
    exists owner, infos. auto.
  - intros token accounts. unfold getAccountsForToken, mbind, result_bind.
    destruct (getWalletPubkey pubkey env) as [owner|e]; cbn [Js.bind]; [|discriminate].
    destruct (getAccountsForWallet pubkey toString newDecimal env) as [all|e];
      cbn [Js.bind]; [|discriminate].
    intros [= <-]. exists all. split; [reflexivity|].
    apply List.filter_ext. intros account. unfold Token.equals.
    apply bool_decide_ext. split; congruence.
Qed.

(** X29: [airdropToWallet] throws "No airdrop key available for ..."
    without a trace when the cluster has no airdrop key.  When the wallet
    has accounts for the token and the call returns, it has asked for two
    airdrops of 1000000 lamports, to the wallet and to the airdrop key, built
    one instruction that mints the amount to the first of those accounts
    under the authority of the airdrop key, and sent it signed by the airdrop
    key: the wallet was not asked to sign. *)
Theorem airdropToWallet_mints_to_the_first_account (token : Token)
    (tokenAmount : JsNumber.number) :
  (airdropKey env = None \/ airdropKey env = Some ""%string ->
   airdropToWallet token tokenAmount
   = ([], Js.Throw (Js.Error ("No airdrop key available for " ++ cluster env))))
  /\ (forall first others signature,
        getAccountsForToken pubkey toString newDecimal env token
        = Js.Return (first :: others) ->
        (airdropToWallet token tokenAmount).2 = Js.Return signature ->
        exists key airdropAccount owner blockhash,
          let mintToInstruction :=
            Instructions.MintToInstruction (TOKEN_PROGRAM_ID env) (Token.address token)
              (TokenAccount.address first) (publicKey airdropAccount) [] tokenAmount in
          let transaction :=
            WalletAPI.mkTransaction blockhash [owner] [mintToInstruction] [] in
          airdropKey env = Some key
          /\ accountOfKey env key = Js.Return airdropAccount
          /\ getWalletPubkey pubkey env = Js.Return owner
          /\ (airdropToWallet token tokenAmount).1
             = [RequestAirdrop owner 1000000;
                RequestAirdrop (publicKey airdropAccount) 1000000;
                Built mintToInstruction;
                Wallet WalletAPI.GetRecentBlockhash;
                Wallet (WalletAPI.SendTransaction transaction [airdropAccount]
                          DEFAULT_COMMITMENT);
                Wallet (WalletAPI.ConfirmTransaction signature DEFAULT_COMMITMENT);
                Wallet (WalletAPI.EmitConfirmed signature);
                Wallet (WalletAPI.Sleep
                          (WalletAPI.POST_TRANSACTION_SLEEP_MS postTransactionSleepMS))]).
Proof.
  unfold TokenOps.airdropToWallet. split.
  - intros [->| ->]; reflexivity.
  - intros first others signature Haccounts Hrun.
    apply bind_returns in Hrun as (key & Ekey & Hrun & T1).
    apply bind_returns in Hrun as (airdropAccount & Eaccount & Hrun & T2).
    apply bind_returns in Hrun as (tokenAccounts & Etokens & Hrun & T3).
    apply bind_returns in Hrun as (owner & Eowner & Hrun & T4).
    apply bind_returns in Hrun as (s1 & Eair1 & Hrun & T5).
    apply bind_returns in Hrun as (s2 & Eair2 & Hrun & T6).
    cbn [lift snd] in Etokens. rewrite Haccounts in Etokens. injection Etokens as <-.
    apply bind_returns in Hrun as (recipient & Erecipient & Hrun & T7).
    cbn in Erecipient. injection Erecipient as <-.
    apply bind_returns in Hrun as (instruction & Ebuilt & Hrun & T8).
    cbn in Ebuilt. injection Ebuilt as <-.
    apply bind_returns in Hrun as (transaction & Etx & Hrun & T9).
    destruct (makeTransaction_returns _ _ _ Etx) as (owner' & blockhash & Eowner' & -> & T10).
    cbn [lift snd] in Ekey, Eaccount, Eowner. rewrite Eowner in Eowner'.
    injection Eowner' as <-.
    exists key, airdropAccount, owner, blockhash. cbv zeta.
    split.
    { destruct (airdropKey env) as [key'|]; [|discriminate].
      destruct (String.eqb key' ""); [discriminate|]. congruence. }
    split; [exact Eaccount|]. split; [exact Eowner|].
    rewrite T1, T2, T3, T4, T5, T6, T7, T8, T9, T10. cbn [lift request fst app mret trace_ret].
    do 4 f_equal.
    revert Hrun. unfold TokenOps.sendTransactionFromAccount, via,
      WalletAPI.sendTransactionFromAccount, WalletAPI.awaitConfirmation, WalletAPI.connected.
    destruct (getWalletPubkey_returns _ Eowner) as (w & conn & -> & -> & _).
    rewrite bind_lift_return.
    unfold mbind, trace_bind, Trace.bind, request, lift. cbn [fst snd default].
    destruct (WalletAPI.connectionSendTransaction (chain env) conn _ _ _) as [sig|e];
      [|discriminate].
    cbn [fst snd].
    destruct (WalletAPI.confirmTransaction (chain env) sig _) as [[]|e]; [|discriminate].
    cbn. now intros [= <-].
Qed.

(** X30: the token [tokenInfoUncached] returns is at the address asked
    for; its name and symbol are those of the first entry of the cluster's
    token configuration whose mint address is the base58 text of that
    address, and it has neither when the cluster has no configuration or no
    such entry. *)
Theorem tokenInfoUncached_names_from_the_configuration (mint : PublicKey) (token : Token) :
  tokenInfoUncached toBase58 toString newDecimal env mint = Js.Return token ->
  Token.address token = mint
  /\ (clusterConfig env = None -> Token.name token = None /\ Token.symbol token = None)
  /\ (forall config,
        clusterConfig env = Some config ->
        (Forall (fun entry => mintAddress entry <> toBase58 mint) config ->
         Token.name token = None /\ Token.symbol token = None)
        /\ (forall before entry after,
              config = before ++ entry :: after ->
              Forall (fun earlier => mintAddress earlier <> toBase58 mint) before ->
              mintAddress entry = toBase58 mint ->
              Token.name token = Some (tokenName entry)
              /\ Token.symbol token = Some (tokenSymbol entry))).
Proof.
  unfold tokenInfoUncached, mbind, result_bind.
  destruct (getMintInfo env mint) as [mintInfo|e]; cbn; [|discriminate].
  intros [= <-]. cbn. split; [reflexivity|]. unfold getConfigForToken. split.
  - intros ->. auto.
  - intros config ->. split.
    + intros Hnone.
      assert (Hfind : List.find (fun entry => String.eqb (toBase58 mint) (mintAddress entry))
                        config = None).
      { induction Hnone as [|entry rest Hne _ IH]; [reflexivity|]. cbn.
        destruct (String.eqb_spec (toBase58 mint) (mintAddress entry)); [congruence|].
        exact IH. }
      rewrite Hfind. auto.
    + intros before entry after -> Hbefore Hentry.
      assert (Hfind : List.find (fun entry => String.eqb (toBase58 mint) (mintAddress entry))
                        (before ++ entry :: after) = Some entry).
      { induction Hbefore as [|earlier rest Hne _ IH]; cbn.
        - rewrite Hentry, String.eqb_refl. reflexivity.
        - destruct (String.eqb_spec (toBase58 mint) (mintAddress earlier)); [congruence|].
          exact IH. }
      rewrite Hfind. auto.
Qed.

End TokenOps.

Lemma createToken_defaults_witness :
  instructions_built
    (TokenOps.createToken id StateExamples.pubkey "max" None OpsExamples.connected
       (Some 0) None).1
  = [Instructions.InitMintInstruction "TokenkegQfeZyiNwAJbNbGKPFXCWuBvf9Ss623VQ5DA"
       "new" 2 "wallet" None].
Proof.
  destruct (createToken_defaults id StateExamples.pubkey "max" None OpsExamples.connected
              (Some 0) None (Examples.mintOf "new" 1000000%Q) eq_refl)
    as (created & d & authority & owner & blockhash & _ & Hd & _ & Howner & -> & -> & _).
  rewrite (Hd (or_intror eq_refl)). injection Howner as <-. reflexivity.
Defined.

Lemma createAccountForToken_checks_before_and_after_witness :
  (TokenOps.createAccountForToken id StateExamples.pubkey OpsExamples.toString
     OpsExamples.newDecimal "max" None OpsExamples.connected
     (Examples.mintOf "mintA" 1000000%Q) None).2
  = Js.Throw (Js.Error "Unable to retrieve the created token account").
Proof.
  apply (proj2 (createAccountForToken_checks_before_and_after id StateExamples.pubkey
                  OpsExamples.toString OpsExamples.newDecimal "max" None
                  OpsExamples.connected (Examples.mintOf "mintA" 1000000%Q) None
                  "wallet" eq_refl)
           (Examples.mintOf "mintA" 1000000%Q)
           (Instructions.NewAccountInstruction "new" Instructions.AccountLayout
              "TokenkegQfeZyiNwAJbNbGKPFXCWuBvf9Ss623VQ5DA")
           (WalletAPI.mkTransaction "blockhash" ["wallet"; "new"]
              [Instructions.NewAccountInstruction "new" Instructions.AccountLayout
                 "TokenkegQfeZyiNwAJbNbGKPFXCWuBvf9Ss623VQ5DA";
               Instructions.InitAccountInstruction
                 "TokenkegQfeZyiNwAJbNbGKPFXCWuBvf9Ss623VQ5DA" "mintA" "new" "wallet"]
              ["new"])
           "signature");
    reflexivity.
Defined.

Lemma mintTo_requires_mint_authority_witness :
  exists message,
    TokenOps.mintTo id id StateExamples.pubkey "max" None OpsExamples.connected
      (Examples.accountOf "mintA" "walletA" 150%Q) 5%Q
    = ([], Js.Throw (Js.AssertionError message)).
Proof.
  apply (proj1 (mintTo_requires_mint_authority id id StateExamples.pubkey "max" None
                  OpsExamples.connected (Examples.accountOf "mintA" "walletA" 150%Q) 5%Q)).
  reflexivity.
Defined.

Lemma getAccountsForWallet_lists_parsed_accounts_witness :
  exists accounts forTokenA,
    TokenOps.getAccountsForWallet StateExamples.pubkey OpsExamples.toString
      OpsExamples.newDecimal OpsExamples.connected = Js.Return accounts
    /\ map TokenAccount.address accounts = ["walletA"; "walletB"]%string
    /\ TokenOps.getAccountsForToken StateExamples.pubkey OpsExamples.toString
         OpsExamples.newDecimal OpsExamples.connected (Examples.mintOf "mintA" 1000000%Q)
       = Js.Return forTokenA
    /\ map TokenAccount.address forTokenA = ["walletA"]%string.
Proof.
  assert (Hall : exists accounts,
            TokenOps.getAccountsForWallet StateExamples.pubkey OpsExamples.toString
              OpsExamples.newDecimal OpsExamples.connected = Js.Return accounts)
    by (eexists; vm_compute; reflexivity).
  destruct Hall as [accounts Hall].
  assert (Hfor : exists forTokenA,
            TokenOps.getAccountsForToken StateExamples.pubkey OpsExamples.toString
              OpsExamples.newDecimal OpsExamples.connected
              (Examples.mintOf "mintA" 1000000%Q) = Js.Return forTokenA)
    by (eexists; vm_compute; reflexivity).
  destruct Hfor as [forTokenA Hfor].
  exists accounts, forTokenA. split; [exact Hall|].
  destruct (proj1 (getAccountsForWallet_lists_parsed_accounts StateExamples.pubkey
                     OpsExamples.toString OpsExamples.newDecimal OpsExamples.connected)
              accounts Hall) as (owner & infos & Howner & Hinfos & Haddresses & _).
  cbn in Howner. injection Howner as <-. cbn in Hinfos. injection Hinfos as <-.
  split; [exact Haddresses|]. split; [exact Hfor|].
  destruct (proj2 (getAccountsForWallet_lists_parsed_accounts StateExamples.pubkey
                     OpsExamples.toString OpsExamples.newDecimal OpsExamples.connected)
              _ forTokenA Hfor) as (all & Hall' & ->).
  rewrite Hall in Hall'. injection Hall' as <-.
  vm_compute in Hall. injection Hall as <-. reflexivity.
Defined.

Lemma airdropToWallet_mints_to_the_first_account_witness :
  TokenOps.transactions_signed
    (TokenOps.airdropToWallet id StateExamples.pubkey OpsExamples.toString
       OpsExamples.newDecimal "max" None OpsExamples.connected
       (Examples.mintOf "mintA" 1000000%Q) 5%Q).1
  = [].
Proof.
  assert (Haccounts : exists first others,
            TokenOps.getAccountsForToken StateExamples.pubkey OpsExamples.toString
              OpsExamples.newDecimal OpsExamples.connected
              (Examples.mintOf "mintA" 1000000%Q) = Js.Return (first :: others))
    by (do 2 eexists; vm_compute; reflexivity).
  destruct Haccounts as (first & others & Haccounts).
  assert (Hrun : (TokenOps.airdropToWallet id StateExamples.pubkey OpsExamples.toString
                    OpsExamples.newDecimal "max" None OpsExamples.connected
                    (Examples.mintOf "mintA" 1000000%Q) 5%Q).2 = Js.Return "signature")
    by (vm_compute; reflexivity).
  destruct (proj2 (airdropToWallet_mints_to_the_first_account id StateExamples.pubkey
                     OpsExamples.toString OpsExamples.newDecimal "max" None
                     OpsExamples.connected (Examples.mintOf "mintA" 1000000%Q) 5%Q)
              first others "signature" Haccounts Hrun)
    as (key & airdropAccount & owner & blockhash & _ & _ & _ & ->).
  reflexivity.
Defined.

Lemma tokenInfoUncached_names_from_the_configuration_witness :
  Token.name (Token.mkToken "mintA" 2 1000000%Q None (Some "Token A"%string) (Some "TKA"%string)) = Some "Token A"%string.
Proof.
  destruct (tokenInfoUncached_names_from_the_configuration id OpsExamples.toString
              OpsExamples.newDecimal OpsExamples.connected "mintA"
              (Token.mkToken "mintA" 2 1000000%Q None (Some "Token A"%string) (Some "TKA"%string)) eq_refl)
    as (_ & _ & Hconfig).
  destruct (Hconfig _ eq_refl) as [_ Hfirst].
  apply (Hfirst [TokenOps.mkTokenConfig "mintB" "Token B" "TKB"]
           (TokenOps.mkTokenConfig "mintA" "Token A" "TKA")
           [TokenOps.mkTokenConfig "mintA" "Token A again" "TKA2"] eq_refl).
  - repeat constructor. discriminate.
  - reflexivity.
Defined.

End TokenOpsFacts.

(** ** Pool API, the other operations *)
Module PoolOpsFacts.
Import Trace TraceFacts PoolOps.

Section PoolOps.
Context {PublicKey Account : Type} `{EqDecision PublicKey}.
Context (toBase58 : PublicKey -> string) (publicKey : Account -> PublicKey).
Context (pubkey : WalletAPI.Wallet -> PublicKey).
Context (toString : DecimalJs.Decimal -> string) (newDecimal : string -> DecimalJs.Decimal).
Context (DEFAULT_COMMITMENT : string) (postTransactionSleepMS : option Z).
Context (env : @Environment PublicKey Account).
#[local] Abbreviation WithdrawalParameters := (@PoolOps.WithdrawalParameters PublicKey).
#[local] Abbreviation withdraw :=
  (PoolOps.withdraw toBase58 publicKey pubkey DEFAULT_COMMITMENT postTransactionSleepMS env).

(** Unfolding one step of a sequence. *)
Ltac run :=
  unfold mbind, trace_bind, Trace.bind, mret, trace_ret, lift, request;
  cbn [fst snd app map].

Lemma sameToken_address (a b : TokenAccount.TokenAccount PublicKey DecimalJs.Decimal) :
  TokenAccount.sameToken a b = true
  <-> Token.address (TokenAccount.mint a) = Token.address (TokenAccount.mint b).
Proof. unfold TokenAccount.sameToken, Token.equals. apply bool_decide_eq_true. Qed.


(** X21: [withdraw] checks before it acts.  When a target account given
    does not hold the token of the matching pool account, or the source
    account is not one of the pool token, it throws an assertion error and
    leaves no trace; and with no wallet connected it throws without a trace as
    well: the approval is built before any account is asked for, so, unlike
    [swap] and [deposit], it creates no account that goes unused. *)
Theorem withdraw_leaves_no_trace (parameters : WithdrawalParameters) :
  let pool := withdraw_pool parameters in
  let foreign :=
    (exists account, toAAccount parameters = Some account
       /\ Token.address (TokenAccount.mint account)
          <> Token.address (TokenAccount.mint (Pool.tokenA pool)))
    \/ (exists account, toBAccount parameters = Some account
          /\ Token.address (TokenAccount.mint account)
             <> Token.address (TokenAccount.mint (Pool.tokenB pool)))
    \/ Token.address (TokenAccount.mint (fromPoolTokenAccount parameters))
       <> Token.address (Pool.poolToken pool) in
  (foreign -> exists message, withdraw parameters = ([], Js.Throw (Js.AssertionError message)))
  /\ (WalletAPI.wallet (TokenOps.walletState (tokenAPI env)) = None ->
      exists e, withdraw parameters = ([], Js.Throw e)).
Proof.
  intros pool foreign.
  assert (HA : forall b message (k : unit -> @action (@event PublicKey Account) string),
            b = false ->
            (lift (PoolAPI.assert b message) ≫= k)
            = ([], Js.Throw (Js.AssertionError message))).
  { intros b message k ->. reflexivity. }
  assert (HT : forall message (k : unit -> @action (@event PublicKey Account) string),
            (lift (PoolAPI.assert true message) ≫= k) = k tt).
  { intros message k. run. cbn. now destruct (k tt). }
  split.
  - intros Hforeign. unfold PoolOps.withdraw. fold pool.
    destruct (match toAAccount parameters with
              | Some account => TokenAccount.sameToken account (Pool.tokenA pool)
              | None => true
              end) eqn:EA; [|rewrite HA by reflexivity; eauto].
    rewrite HT.
    destruct (match toBAccount parameters with
              | Some account => TokenAccount.sameToken account (Pool.tokenB pool)
              | None => true
              end) eqn:EB; [|rewrite HA by reflexivity; eauto].
    rewrite HT.
    destruct (Token.equals (TokenAccount.mint (fromPoolTokenAccount parameters))
                (Pool.poolToken pool)) eqn:EP; [|rewrite HA by reflexivity; eauto].
    exfalso. destruct Hforeign as [(account & Hacc & N)|[(account & Hacc & N)|N]].
    + rewrite Hacc in EA. now apply sameToken_address in EA.
    + rewrite Hacc in EB. now apply sameToken_address in EB.
    + apply N. unfold Token.equals in EP. now apply bool_decide_eq_true in EP.
  - intros Hw. unfold PoolOps.withdraw. fold pool.
    destruct (match toAAccount parameters with
              | Some account => TokenAccount.sameToken account (Pool.tokenA pool)
              | None => true
              end); [|rewrite HA by reflexivity; eauto].
    rewrite HT.
    destruct (match toBAccount parameters with
              | Some account => TokenAccount.sameToken account (Pool.tokenB pool)
              | None => true
              end); [|rewrite HA by reflexivity; eauto].
    rewrite HT.
    destruct (Token.equals (TokenAccount.mint (fromPoolTokenAccount parameters))
                (Pool.poolToken pool)); [|rewrite HA by reflexivity; eauto].
    rewrite HT.
    unfold TokenOps.approveInstruction, PoolOps.via.
    rewrite (TokenOpsFacts.getWalletPubkey_throws pubkey (tokenAPI env) Hw).
    destruct (Pool.tokenSwapAuthority (methods env) pool) as [authority|e];
      [|run; eauto].
    destruct (Pool.calculateAmountsWithSlippage (methods env) pool _ _ _)
      as [minimumAmounts|e]; run; eauto.
Qed.

#[local] Abbreviation createPool :=
  (PoolOps.createPool toBase58 publicKey pubkey toString newDecimal
     DEFAULT_COMMITMENT postTransactionSleepMS env).
#[local] Abbreviation getPool := (PoolOps.getPool toBase58 toString newDecimal env).
#[local] Abbreviation tokenAccountInfo :=
  (TokenAPI.tokenAccountInfo toString newDecimal (TokenOps.rpc (tokenAPI env))).

(** An approval the token API built: by a connected wallet, for the whole
    amount the text of [amount] reads as. *)
Lemma pool_approveInstruction_returns
    (sourceAccount : TokenAccount.TokenAccount PublicKey DecimalJs.Decimal)
    (delegate : PublicKey) (amount : DecimalJs.Decimal)
    (approve : @Instructions.Instruction PublicKey Account) :
  (PoolOps.via (TokenOps.approveInstruction pubkey (tokenAPI env) sourceAccount delegate
                  amount)).2 = Js.Return approve ->
  exists owner approved,
    TokenOps.getWalletPubkey pubkey (tokenAPI env) = Js.Return owner
    /\ U64.toU64 amount = Js.Return approved
    /\ approve = Instructions.ApproveInstruction (TOKEN_PROGRAM_ID env)
                   (TokenAccount.address sourceAccount) delegate owner [] approved
    /\ (PoolOps.via (TokenOps.approveInstruction pubkey (tokenAPI env) sourceAccount
                       delegate amount)).1
       = [TokenAPI (TokenOps.Built approve)].
Proof.
  unfold PoolOps.via, TokenOps.approveInstruction. cbn [snd fst]. intros Hrun.
  apply bind_returns in Hrun as (owner & Eowner & Hrun & T1).
  apply bind_returns in Hrun as (approved & Eapproved & Hrun & T2).
  apply bind_returns in Hrun as (i & Ei & Hrun & T3).
  cbn in Eowner, Eapproved, Ei, Hrun. injection Hrun as <-.
  unfold Instructions.createApproveInstruction, mbind, result_bind in Ei.
  destruct (U64.u64_toBuffer approved); cbn in Ei; [|discriminate]. injection Ei as <-.
  exists owner, approved. split; [exact Eowner|]. split; [exact Eapproved|].
  split; [reflexivity|]. rewrite T1, T2, T3. reflexivity.
Qed.

(** X22: a [withdraw] that returns has built two instructions, the
    approval and then the withdrawal, and handed the wallet one transaction
    to sign, made of the two.  The amounts are those of
    [calculateAmountsWithSlippage] for the pool token amount of the
    parameters, downwards, with the slippage of the parameters, each read as
    a whole number: the approval delegates the pool token amount to the
    authority of the withdrawal, which carries the three amounts; the target
    accounts are those of the parameters or, where missing, those created for
    the tokens of the pool.  When one of the three amounts is not a whole
    number, [withdraw] does not return. *)
Theorem withdraw_sends_approval_and_withdrawal (parameters : WithdrawalParameters) :
  let pool := withdraw_pool parameters in
  (forall signature,
     (withdraw parameters).2 = Js.Return signature ->
     exists authority owner amounts approved poolTokenAmount minimumTokenA minimumTokenB
            toA toB blockhash,
       let approve :=
         Instructions.ApproveInstruction (TOKEN_PROGRAM_ID env)
           (TokenAccount.address (fromPoolTokenAccount parameters)) authority owner []
           approved in
       let withdrawal :=
         Instructions.WithdrawInstruction (Pool.address pool) authority
           (Token.address (Pool.poolToken pool))
           (TokenAccount.address (Pool.feeAccount pool))
           (TokenAccount.address (fromPoolTokenAccount parameters))
           (TokenAccount.address (Pool.tokenA pool))
           (TokenAccount.address (Pool.tokenB pool))
           (TokenAccount.address toA) (TokenAccount.address toB)
           (swapProgramId env) (TOKEN_PROGRAM_ID env)
           poolTokenAmount minimumTokenA minimumTokenB in
       Pool.tokenSwapAuthority (methods env) pool = Js.Return authority
       /\ TokenOps.getWalletPubkey pubkey (tokenAPI env) = Js.Return owner
       /\ Pool.calculateAmountsWithSlippage (methods env) pool
            (fromPoolTokenAmount parameters) Pool.down (withdraw_slippage parameters)
          = Js.Return amounts
       /\ U64.toU64 (Pool.poolTokenAmount amounts) = Js.Return approved
       /\ U64.toNumberU64 (Pool.poolTokenAmount amounts) = Js.Return poolTokenAmount
       /\ U64.toNumberU64 (Pool.tokenAAmount amounts) = Js.Return minimumTokenA
       /\ U64.toNumberU64 (Pool.tokenBAmount amounts) = Js.Return minimumTokenB
       /\ match toAAccount parameters with
          | Some account => toA = account
          | None =>
              createAccountForToken env (TokenAccount.mint (Pool.tokenA pool)) None
              = Js.Return toA
          end
       /\ match toBAccount parameters with
          | Some account => toB = account
          | None =>
              createAccountForToken env (TokenAccount.mint (Pool.tokenB pool)) None
              = Js.Return toB
          end
       /\ TokenOps.instructions_built (of_tokenAPI (withdraw parameters).1)
          = [approve; withdrawal]
       /\ TokenOps.transactions_signed (of_tokenAPI (withdraw parameters).1)
          = [WalletAPI.mkTransaction blockhash [owner] [approve; withdrawal] []])
  /\ (forall amounts,
        Pool.calculateAmountsWithSlippage (methods env) pool
          (fromPoolTokenAmount parameters) Pool.down (withdraw_slippage parameters)
        = Js.Return amounts ->
        (forall value, ~ (Pool.poolTokenAmount amounts == inject_Z value)%Q)
        \/ (forall value, ~ (Pool.tokenAAmount amounts == inject_Z value)%Q)
        \/ (forall value, ~ (Pool.tokenBAmount amounts == inject_Z value)%Q) ->
        forall signature, (withdraw parameters).2 <> Js.Return signature).
Proof.
  intros pool.
  assert (Hreturns : forall signature,
    (withdraw parameters).2 = Js.Return signature ->
    exists authority owner amounts approved poolTokenAmount minimumTokenA minimumTokenB
           toA toB blockhash,
      Pool.tokenSwapAuthority (methods env) pool = Js.Return authority
      /\ TokenOps.getWalletPubkey pubkey (tokenAPI env) = Js.Return owner
      /\ Pool.calculateAmountsWithSlippage (methods env) pool
           (fromPoolTokenAmount parameters) Pool.down (withdraw_slippage parameters)
         = Js.Return amounts
      /\ U64.toU64 (Pool.poolTokenAmount amounts) = Js.Return approved
      /\ U64.toNumberU64 (Pool.poolTokenAmount amounts) = Js.Return poolTokenAmount
      /\ U64.toNumberU64 (Pool.tokenAAmount amounts) = Js.Return minimumTokenA
      /\ U64.toNumberU64 (Pool.tokenBAmount amounts) = Js.Return minimumTokenB
      /\ match toAAccount parameters with
         | Some account => toA = account
         | None =>
             createAccountForToken env (TokenAccount.mint (Pool.tokenA pool)) None
             = Js.Return toA
         end
      /\ match toBAccount parameters with
         | Some account => toB = account
         | None =>
             createAccountForToken env (TokenAccount.mint (Pool.tokenB pool)) None
             = Js.Return toB
         end
      /\ TokenOps.instructions_built (of_tokenAPI (withdraw parameters).1)
         = [Instructions.ApproveInstruction (TOKEN_PROGRAM_ID env)
              (TokenAccount.address (fromPoolTokenAccount parameters)) authority owner []
              approved;
            Instructions.WithdrawInstruction (Pool.address pool) authority
              (Token.address (Pool.poolToken pool))
              (TokenAccount.address (Pool.feeAccount pool))
              (TokenAccount.address (fromPoolTokenAccount parameters))
              (TokenAccount.address (Pool.tokenA pool))
              (TokenAccount.address (Pool.tokenB pool))
              (TokenAccount.address toA) (TokenAccount.address toB)
              (swapProgramId env) (TOKEN_PROGRAM_ID env)
              poolTokenAmount minimumTokenA minimumTokenB]
      /\ TokenOps.transactions_signed (of_tokenAPI (withdraw parameters).1)
         = [WalletAPI.mkTransaction blockhash [owner]
              [Instructions.ApproveInstruction (TOKEN_PROGRAM_ID env)
                 (TokenAccount.address (fromPoolTokenAccount parameters)) authority owner []
                 approved;
               Instructions.WithdrawInstruction (Pool.address pool) authority
                 (Token.address (Pool.poolToken pool))
                 (TokenAccount.address (Pool.feeAccount pool))
                 (TokenAccount.address (fromPoolTokenAccount parameters))
                 (TokenAccount.address (Pool.tokenA pool))
                 (TokenAccount.address (Pool.tokenB pool))
                 (TokenAccount.address toA) (TokenAccount.address toB)
                 (swapProgramId env) (TOKEN_PROGRAM_ID env)
                 poolTokenAmount minimumTokenA minimumTokenB] []]).
  { intros signature Hrun. unfold PoolOps.withdraw in *. fold pool in Hrun |- *.
    apply bind_returns in Hrun as ([] & _ & Hrun & T1).
    apply bind_returns in Hrun as ([] & _ & Hrun & T2).
    apply bind_returns in Hrun as ([] & _ & Hrun & T3).
    apply bind_returns in Hrun as (authority & Eauthority & Hrun & T4).
    apply bind_returns in Hrun as (amounts & Eamounts & Hrun & T5).
    apply bind_returns in Hrun as (approve & Eapprove & Hrun & T6).
    apply bind_returns in Hrun as (toA & EtoA & Hrun & T7).
    apply bind_returns in Hrun as (toB & EtoB & Hrun & T8).
    apply bind_returns in Hrun as (poolTokenAmount & EpoolTokenAmount & Hrun & T9).
    apply bind_returns in Hrun as (minimumTokenA & EminimumA & Hrun & T10).
    apply bind_returns in Hrun as (minimumTokenB & EminimumB & Hrun & T11).
    apply bind_returns in Hrun as (withdrawal & Ewithdrawal & Hrun & T12).
    apply bind_returns in Hrun as (built & Ebuilt & Hrun & T13).
    apply bind_returns in Hrun as (transaction & Etx & Hrun & T14).
    cbn [lift snd] in Eauthority, Eamounts, EpoolTokenAmount, EminimumA, EminimumB,
      Ewithdrawal.
    cbn in Ebuilt. injection Ebuilt as <-.
    unfold Instructions.withdrawInstruction, mbind, result_bind in Ewithdrawal.
    destruct (U64.Numberu64_toBuffer poolTokenAmount); cbn [Js.bind] in Ewithdrawal;
      [|discriminate].
    destruct (U64.Numberu64_toBuffer minimumTokenA); cbn [Js.bind] in Ewithdrawal;
      [|discriminate].
    destruct (U64.Numberu64_toBuffer minimumTokenB); cbn [Js.bind] in Ewithdrawal;
      [|discriminate].
    cbn in Ewithdrawal. injection Ewithdrawal as <-.
    destruct (pool_approveInstruction_returns _ _ _ _ Eapprove)
      as (owner & approved & Eowner & Eapproved & -> & T15).
    match type of Etx with
    | (PoolOps.makeTransaction _ _ _ ?l _).2 = _ => set (instructions := l) in *
    end.
    assert (Htx : exists blockhash,
      transaction = WalletAPI.mkTransaction blockhash [owner] instructions []
      /\ (PoolOps.makeTransaction publicKey pubkey env instructions []).1
         = [TokenAPI (TokenOps.Wallet WalletAPI.GetRecentBlockhash)]).
    { unfold PoolOps.makeTransaction, PoolOps.via in Etx |- *. cbn [snd fst] in Etx |- *.
      destruct (TokenOpsFacts.makeTransaction_returns _ _ _ _ _ _ Etx)
        as (owner' & blockhash & Eowner' & -> & T16).
      rewrite Eowner in Eowner'. injection Eowner' as <-.
      exists blockhash. rewrite T16. auto. }
    destruct Htx as (blockhash & -> & T16).
    assert (Hsend : exists signed,
      (PoolOps.sendTransaction DEFAULT_COMMITMENT postTransactionSleepMS env
         (WalletAPI.mkTransaction blockhash [owner] instructions [])).1
      = map TokenAPI
          [TokenOps.Wallet
             (WalletAPI.Sign (WalletAPI.mkTransaction blockhash [owner] instructions []));
           TokenOps.Wallet (WalletAPI.SendRawTransaction signed DEFAULT_COMMITMENT);
           TokenOps.Wallet (WalletAPI.ConfirmTransaction signature DEFAULT_COMMITMENT);
           TokenOps.Wallet (WalletAPI.EmitConfirmed signature);
           TokenOps.Wallet
             (WalletAPI.Sleep (WalletAPI.POST_TRANSACTION_SLEEP_MS postTransactionSleepMS))]).
    { unfold PoolOps.sendTransaction, PoolOps.via in Hrun |- *. cbn [snd fst] in Hrun |- *.
      destruct (TokenOpsFacts.sendTransaction_returns _ _ _ _ _ Hrun) as (signed & T17).
      exists signed. now rewrite T17. }
    destruct Hsend as (signed & T17).
    exists authority, owner, amounts, approved, poolTokenAmount, minimumTokenA,
      minimumTokenB, toA, toB, blockhash.
    split; [exact Eauthority|]. split; [exact Eowner|]. split; [exact Eamounts|].
    split; [exact Eapproved|]. split; [exact EpoolTokenAmount|].
    split; [exact EminimumA|]. split; [exact EminimumB|].
    split; [destruct (toAAccount parameters); cbn in EtoA; congruence|].
    split; [destruct (toBAccount parameters); cbn in EtoB; congruence|].
    rewrite T1, T2, T3, T4, T5, T6, T7, T8, T9, T10, T11, T12, T13, T14, T15, T16, T17.
    destruct (toAAccount parameters), (toBAccount parameters); cbn; auto. }
  split.
  - intros signature Hrun.
    destruct (Hreturns signature Hrun)
      as (authority & owner & amounts & approved & poolTokenAmount & minimumTokenA
          & minimumTokenB & toA & toB & blockhash & H).
    exists authority, owner, amounts, approved, poolTokenAmount, minimumTokenA,
      minimumTokenB, toA, toB, blockhash. exact H.
  - intros amounts Eamounts Hfraction signature Hrun.
    destruct (Hreturns signature Hrun)
      as (authority & owner & amounts' & approved & poolTokenAmount & minimumTokenA
          & minimumTokenB & toA & toB & blockhash
          & _ & _ & Eamounts' & _ & Epool & EA & EB & _).
    rewrite Eamounts in Eamounts'. injection Eamounts' as <-.
    apply U64Facts.toNumberU64_returns in Epool as [Hpool _], EA as [HA _], EB as [HB _].
    destruct Hfraction as [N|[N|N]]; [exact (N _ Hpool)|exact (N _ HA)|exact (N _ HB)].
Qed.

(** X23: [getPool], once the swap and the mint of its pool token are
    loaded.  When one of the swap's token A, token B and fee accounts is
    not a token account, it throws "Error collecting pool data"; otherwise
    (the two fees of the swap fitting a number) it returns the pool of
    these three accounts and that mint, at the address asked for, updated at
    the ledger position of the token A account. *)
Theorem getPool_needs_three_token_accounts (address : PublicKey) (swapInfo : SwapInfo)
    (tokenA tokenB fee : option (TokenAccount.TokenAccount PublicKey DecimalJs.Decimal))
    (poolTokenInfo : Token.Token PublicKey DecimalJs.Decimal) :
  loadTokenSwap env address = Js.Return swapInfo ->
  tokenAccountInfo (tokenAccountA swapInfo) = Js.Return tokenA ->
  tokenAccountInfo (tokenAccountB swapInfo) = Js.Return tokenB ->
  tokenAccountInfo (feeAccount swapInfo) = Js.Return fee ->
  TokenOps.tokenInfoUncached toBase58 toString newDecimal (tokenAPI env)
    (poolToken swapInfo) = Js.Return poolTokenInfo ->
  (tokenA = None \/ tokenB = None \/ fee = None ->
   getPool address = Js.Throw (Js.Error "Error collecting pool data"))
  /\ (forall a b f,
        tokenA = Some a -> tokenB = Some b -> fee = Some f ->
        Z.abs (tradeFeeNumerator swapInfo) < 2 ^ 53 ->
        Z.abs (tradeFeeDenominator swapInfo) < 2 ^ 53 ->
        exists pool,
          getPool address = Js.Return pool
          /\ Pool.address pool = address
          /\ Pool.tokenA pool = a /\ Pool.tokenB pool = b /\ Pool.feeAccount pool = f
          /\ Pool.poolToken pool = poolTokenInfo
          /\ Pool.programId pool = swapProgramId env
          /\ Pool.lastUpdatedSlot pool = TokenAccount.lastUpdatedSlot a).
Proof.
  intros Hload HA HB HF Hpool. unfold PoolOps.getPool, mbind, result_bind.
  rewrite Hload. cbn [Js.bind]. rewrite HA. cbn [Js.bind]. rewrite HB. cbn [Js.bind].
  rewrite HF. cbn [Js.bind]. rewrite Hpool. cbn [Js.bind]. split.
  - intros [->|[->| ->]]; [reflexivity|now destruct tokenA|].
    now destruct tokenA, tokenB.
  - intros a b f -> -> -> Hn Hd. unfold toNumber.
    apply Z.ltb_lt in Hn, Hd. rewrite Hn, Hd. cbn. eexists. repeat split; reflexivity.
Qed.

(** X24: [createPool] refuses two donor accounts of the same token before
    doing anything; every transfer it starts takes from a donor account the
    amount given for it, or the whole balance of the account when no amount
    or the amount 0 is given; and when it returns, the pool returned is the
    one found at the key of the new swap account, and its address is the one
    added, last, to the known pools. *)
Theorem createPool_donations (parameters : PoolCreationParameters) (pools : list string) :
  (Token.address (TokenAccount.mint (donorAccountA parameters))
   = Token.address (TokenAccount.mint (donorAccountB parameters)) ->
   createPool parameters pools
   = ([], Js.Throw (Js.AssertionError "Donor accounts must have different tokens.")))
  /\ (forall funding,
        Transfer funding ∈ (createPool parameters pools).1 -> donation parameters funding)
  /\ (forall created pools',
        (createPool parameters pools).2 = Js.Return (created, pools') ->
        pools' = pools ++ [toBase58 (Pool.address created)]
        /\ getPool (publicKey (TokenOps.newAccount (tokenAPI env))) = Js.Return created).
Proof.
  unfold PoolOps.createPool. split; [|split].
  - intros Hsame. apply sameToken_address in Hsame. rewrite Hsame. reflexivity.
  - intros funding.
    set (good := donation parameters).
    assert (Hgood : forall (amountA : option JsNumber.number) destination,
      good (TokenOps.mkTransferParameters (donorAccountA parameters) destination
              (or_balance (tokenAAmount parameters)
                 (TokenAccount.balance (donorAccountA parameters))))
      /\ good (TokenOps.mkTransferParameters (donorAccountB parameters) destination
                 (or_balance (tokenBAmount parameters)
                    (TokenAccount.balance (donorAccountB parameters))))).
    { intros _ destination. unfold good, donation. split.
      - exists (donorAccountA parameters), (tokenAAmount parameters).
        split; [now left|]. split; [reflexivity|]. unfold or_balance. cbn.
        destruct (tokenAAmount parameters) as [n|]; [|reflexivity].
        now destruct (Qeq_bool n 0).
      - exists (donorAccountB parameters), (tokenBAmount parameters).
        split; [now right|]. split; [reflexivity|]. unfold or_balance. cbn.
        destruct (tokenBAmount parameters) as [n|]; [|reflexivity].
        now destruct (Qeq_bool n 0). }
    clearbody good.
    assert (Hstep : forall {A B : Type} (m : @action (@event PublicKey Account) A)
                      (k : A -> @action (@event PublicKey Account) B),
      (Transfer funding ∈ m.1 -> good funding) ->
      (forall a, Transfer funding ∈ (k a).1 -> good funding) ->
      Transfer funding ∈ (m ≫= k).1 -> good funding).
    { intros A B m k Hm Hk. destruct (bind_trace m k) as (rest & -> & Hthrow & Hreturn).
      rewrite elem_of_app. intros [Hin|Hin]; [now apply Hm|].
      destruct m.2 as [a|e].
      - destruct (Hreturn a eq_refl) as [-> _]. now apply (Hk a).
      - destruct (Hthrow e eq_refl) as [-> _]. now apply elem_of_nil in Hin. }
    assert (Hquiet : forall {A : Type} (r : Js.result A),
              Transfer funding ∈ (lift r : @action (@event PublicKey Account) A).1 ->
              good funding).
    { intros A r Hin. now apply elem_of_nil in Hin. }
    assert (Hone : forall {A : Type} (e : @event PublicKey Account) (r : Js.result A),
              (forall p, e <> Transfer p) ->
              Transfer funding ∈ (request e r).1 -> good funding).
    { intros A e r Hne Hin. apply list_elem_of_singleton in Hin. now destruct (Hne funding). }
    assert (Hvia : forall {A : Type} (m : @action (@TokenOps.event PublicKey Account) A),
              Transfer funding ∈ (PoolOps.via m).1 -> good funding).
    { intros A m Hin. cbn in Hin. apply list_elem_of_fmap in Hin as (e & Habs & _).
      discriminate Habs. }
    apply Hstep; [apply Hquiet|intros _].
    apply Hstep; [apply Hquiet|intros found].
    apply Hstep; [apply Hone; discriminate|intros poolToken'].
    apply Hstep; [apply Hone; discriminate|intros poolTokenAccount].
    apply Hstep; [apply Hone; discriminate|intros tokenAAccount].
    apply Hstep; [apply Hone; discriminate|intros tokenBAccount].
    apply Hstep.
    { cbn [fst]. intros Hin.
      apply elem_of_cons in Hin as [Hin|Hin];
        [|apply list_elem_of_singleton in Hin]; injection Hin as ->.
      - apply (Hgood None tokenAAccount).
      - apply (Hgood None tokenBAccount). }
    intros _.
    apply Hstep; [apply Hquiet|intros createSwapAccountInstruction].
    apply Hstep; [apply Hvia|intros initializeSwapInstruction].
    apply Hstep; [apply Hvia|intros transaction].
    apply Hstep; [apply Hvia|intros _].
    apply Hstep; [apply Hquiet|intros createdPool].
    intros Hin. now apply elem_of_nil in Hin.
  - intros created pools' Hrun.
    do 11 (apply bind_returns in Hrun as (? & _ & Hrun & _)).
    apply bind_returns in Hrun as (createdPool & Epool & Hrun & _).
    cbn in Hrun, Epool. injection Hrun as <- <-. auto.
Qed.

End PoolOps.

Lemma withdraw_sends_approval_and_withdrawal_witness :
  (PoolOps.withdraw id id StateExamples.pubkey "max" None OpsExamples.poolAPI
     OpsExamples.withdrawal).2 = Js.Return "signature"
  /\ TokenOps.instructions_built
       (of_tokenAPI
          (PoolOps.withdraw id id StateExamples.pubkey "max" None OpsExamples.poolAPI
             OpsExamples.withdrawal).1)
     = [Instructions.ApproveInstruction "TokenkegQfeZyiNwAJbNbGKPFXCWuBvf9Ss623VQ5DA"
          "walletPool" "authority" "wallet" [] (U64.mkU64 100);
        Instructions.WithdrawInstruction "pool" "authority" "poolMint" "fees" "walletPool"
          "poolA" "poolB" "created" "created" "swapProgram"
          "TokenkegQfeZyiNwAJbNbGKPFXCWuBvf9Ss623VQ5DA"
          (U64.mkNumberu64 100) (U64.mkNumberu64 198) (U64.mkNumberu64 396)]
  /\ (PoolOps.withdraw id id StateExamples.pubkey "max" None OpsExamples.poolAPI
        OpsExamples.fractionalWithdrawal).2 <> Js.Return "signature".
Proof.
  assert (Hrun : (PoolOps.withdraw id id StateExamples.pubkey "max" None
                    OpsExamples.poolAPI OpsExamples.withdrawal).2
                 = Js.Return "signature") by (vm_compute; reflexivity).
  split; [exact Hrun|]. split.
  - destruct (proj1 (withdraw_sends_approval_and_withdrawal id id StateExamples.pubkey
                       "max" None OpsExamples.poolAPI OpsExamples.withdrawal)
                "signature" Hrun)
      as (authority & owner & amounts & approved & poolTokenAmount & minimumTokenA
          & minimumTokenB & toA & toB & blockhash
          & Hauthority & Howner & Hamounts & Happroved & Hpool & HA & HB & HtoA & HtoB
          & Hbuilt & _).
    rewrite Hbuilt. cbn in Hauthority, Howner, Hamounts, HtoA, HtoB.
    injection Hauthority as <-. injection Howner as <-. injection Hamounts as <-.
    injection HtoA as <-. injection HtoB as <-.
    vm_compute in Happroved, Hpool, HA, HB.
    injection Happroved as <-. injection Hpool as <-. injection HA as <-.
    injection HB as <-. reflexivity.
  - apply (proj2 (withdraw_sends_approval_and_withdrawal id id StateExamples.pubkey
                    "max" None OpsExamples.poolAPI OpsExamples.fractionalWithdrawal)
             _ eq_refl).
    right. left. intros value. cbn. unfold Pool.adjustForSlippage, Qeq. cbn. lia.
Defined.

Lemma withdraw_leaves_no_trace_witness :
  exists message,
    PoolOps.withdraw id id StateExamples.pubkey "max" None OpsExamples.poolAPI
      OpsExamples.foreignWithdrawal
    = ([], Js.Throw (Js.AssertionError message)).
Proof.
  apply (proj1 (withdraw_leaves_no_trace id id StateExamples.pubkey "max" None
                  OpsExamples.poolAPI OpsExamples.foreignWithdrawal)).
  left. eexists. split; [reflexivity|discriminate].
Defined.

Lemma createPool_donations_witness :
  PoolOps.donation OpsExamples.creation
    (TokenOps.mkTransferParameters (Examples.accountOf "mintA" "walletA" 150%Q)
       (Examples.accountOf "mintA" "created" 0%Q) 150%Q).
Proof.
  apply (proj1 (proj2 (createPool_donations id id StateExamples.pubkey
                         OpsExamples.toString OpsExamples.newDecimal "max" None
                         OpsExamples.poolAPI OpsExamples.creation []))).
  apply (list_elem_of_lookup_2 _ 4%nat). reflexivity.
Defined.

Lemma getPool_needs_three_token_accounts_witness :
  exists pool,
    PoolOps.getPool id OpsExamples.toString OpsExamples.newDecimal OpsExamples.poolAPI "pool"
    = Js.Return pool
    /\ Pool.lastUpdatedSlot pool = Some 100.
Proof.
  destruct (proj2 (getPool_needs_three_token_accounts id OpsExamples.toString
                     OpsExamples.newDecimal OpsExamples.poolAPI "pool"
                     (PoolOps.mkSwapInfo "poolA" "poolB" "fees" "poolMint" 255 3 1000)
                     (Some (TokenAccount.mkTokenAccount (Examples.mintOf "mintA" 1000000%Q)
                              "poolA" 150%Q (Some 100) None))
                     (Some (TokenAccount.mkTokenAccount (Examples.mintOf "mintB" 1000000%Q)
                              "poolB" 7%Q (Some 100) None))
                     (Some (TokenAccount.mkTokenAccount (Examples.mintOf "mintA" 1000000%Q)
                              "fees" 150%Q (Some 100) None))
                     (Examples.mintOf "poolMint" 1000000%Q)
                     eq_refl eq_refl eq_refl eq_refl eq_refl)
              _ _ _ eq_refl eq_refl eq_refl eq_refl eq_refl)
    as (pool & Hpool & _ & _ & _ & _ & _ & _ & Hslot).
  exists pool. split; [exact Hpool|exact Hslot].
Defined.

End PoolOpsFacts.
